(** * finance-server: the recurring-transaction engine, the transaction
      ledger with its balance side effects, the audited update path, the
      account trash and the XIRR helper, embedded in Rocq.

    Conventions of the embedding.
    - A JavaScript [Number] that carries money or a rate is a binary64
      float ([PrimFloat.float]): Rocq's primitive floats are IEEE 754
      binary64 with round-to-nearest-even, the arithmetic of JavaScript and
      of MongoDB's [$inc] on doubles.
    - A [Date] is its time value, the number of milliseconds since the
      epoch, an integer within 100,000,000 days of it; an Invalid Date (the
      time value NaN) is [None].  A Date held in a collection is valid.
      The schedule engine reads calendar fields in local time; the
      embedding fixes a zone without daylight saving, UTC, so a time value is
      read as local milliseconds.  Counters ([totalExecutions],
      [maxExecutions], [dayOfMonth]) are integer valued Numbers, kept in Z.
    - An [ObjectId] is a natural number; a collection is a finite map from
      ids to documents.  Documents held in a collection satisfy their
      schema, as Mongoose validated them when they were written; the
      balance of an account apart, which [$inc] writes without validators.
      Where a handler calls [save()], the validation it runs is modelled.
    - Every clock read ([new Date()]) of one request sees the same instant
      [now]. *)

From Stdlib Require Import ZArith Floats String Ascii List Bool Lia Sorted.
From stdpp Require Import base option gmap.

Set Warnings "-inexact-float".

Local Open Scope Z_scope.

Definition ObjectId := nat.

(** ** Strings as Mongoose's [trim] setter and length validators see them *)

Module JSString.

(** White space removed by [String.prototype.trim] (ASCII part). *)
Definition is_white_space (c : ascii) : bool :=
  match nat_of_ascii c with
  | 9%nat | 10%nat | 11%nat | 12%nat | 13%nat | 32%nat => true
  | _ => false
  end.

Fixpoint trimStart (s : string) : string :=
  match s with
  | EmptyString => EmptyString
  | String c s' => if is_white_space c then trimStart s' else s
  end.

Fixpoint rev_append (s acc : string) : string :=
  match s with
  | EmptyString => acc
  | String c s' => rev_append s' (String c acc)
  end.

Definition reverse (s : string) : string := rev_append s EmptyString.

Definition trimEnd (s : string) : string := reverse (trimStart (reverse s)).

Definition trim (s : string) : string := trimEnd (trimStart s).

Definition length (s : string) : Z := Z.of_nat (String.length s).

Definition is_empty (s : string) : bool :=
  match s with EmptyString => true | _ => false end.

(** Truthiness of an optional string: [undefined] and [''] are falsy. *)
Definition truthy (s : option string) : bool :=
  match s with
  | None => false
  | Some s => negb (is_empty s)
  end.

End JSString.

(** ** Numbers *)

Module JSNumber.

(** Truthiness of a Number: [0], [-0] and [NaN] are falsy. *)
Definition truthy (x : float) : bool :=
  negb (PrimFloat.eqb x 0%float) && PrimFloat.eqb x x.

(** [a || b] on an optional Number. *)
Definition or_else (a : option float) (b : float) : float :=
  match a with
  | Some x => if truthy x then x else b
  | None => b
  end.

End JSNumber.

(** ** Dates: ECMAScript's day and calendar arithmetic on time values *)

Module JSDate.

Definition msPerDay : Z := 86400000.

(** The time values of a Date lie within 100,000,000 days of the epoch.
    [TimeClip] turns every other Number into NaN, the time value of an
    Invalid Date: [None]. *)
Definition maxTime : Z := 8640000000000000.

Definition TimeClip (time : Z) : option Z :=
  if (- maxTime <=? time) && (time <=? maxTime) then Some time else None.

Definition Day (t : Z) : Z := t / msPerDay.
Definition TimeWithinDay (t : Z) : Z := t mod msPerDay.
Definition MakeDate (day time : Z) : Z := day * msPerDay + time.

(** Day number of a civil date of the proleptic Gregorian calendar;
    [m] is 1..12.  Days are counted from 1 January 1970. *)
Definition days_from_civil (y m d : Z) : Z :=
  let y' := if m <=? 2 then y - 1 else y in
  let era := y' / 400 in
  let yoe := y' - era * 400 in
  let mp := if m >? 2 then m - 3 else m + 9 in
  let doy := (153 * mp + 2) / 5 + d - 1 in
  let doe := yoe * 365 + yoe / 4 - yoe / 100 + doy in
  era * 146097 + doe - 719468.

(** The civil date (year, month 1..12, day 1..31) of a day number. *)
Definition civil_from_days (z : Z) : Z * Z * Z :=
  let z' := z + 719468 in
  let era := z' / 146097 in
  let doe := z' - era * 146097 in
  let yoe := (doe - doe / 1460 + doe / 36524 - doe / 146096) / 365 in
  let doy := doe - (365 * yoe + yoe / 4 - yoe / 100) in
  let mp := (5 * doy + 2) / 153 in
  let d := doy - (153 * mp + 2) / 5 + 1 in
  let m := if mp <? 10 then mp + 3 else mp - 9 in
  let y := yoe + era * 400 in
  (if m <=? 2 then y + 1 else y, m, d).

Definition YearFromTime (t : Z) : Z := (civil_from_days (Day t)).1.1.
(** Months are 0..11, as [getMonth] returns them. *)
Definition MonthFromTime (t : Z) : Z := (civil_from_days (Day t)).1.2 - 1.
Definition DateFromTime (t : Z) : Z := (civil_from_days (Day t)).2.

(** [MakeDay(year, month, date)]: the month may lie outside 0..11 and the
    date outside the month; both carry over.  The arguments met here are
    integers, and years and months far inside the bounds within which the
    engine computes a day number at all. *)
Definition MakeDay (year month date : Z) : Z :=
  let ym := year + month / 12 in
  let mn := month mod 12 in
  days_from_civil ym (mn + 1) 1 + date - 1.

(** The getters of a valid Date. *)
Definition getFullYear (t : Z) : Z := YearFromTime t.
Definition getMonth (t : Z) : Z := MonthFromTime t.
Definition getDate (t : Z) : Z := DateFromTime t.

(** The time value a setter computes from the fields of a valid Date,
    before [TimeClip]. *)
Definition setDate_time (t date : Z) : Z :=
  MakeDate (MakeDay (YearFromTime t) (MonthFromTime t) date) (TimeWithinDay t).

Definition setMonth_time (t month : Z) : Z :=
  MakeDate (MakeDay (YearFromTime t) month (DateFromTime t)) (TimeWithinDay t).

Definition setFullYear_time (t year : Z) : Z :=
  MakeDate (MakeDay year (MonthFromTime t) (DateFromTime t)) (TimeWithinDay t).

(** The setters, on a valid Date: its new time value, [None] when the
    Date has become invalid. *)
Definition setDate (t date : Z) : option Z := TimeClip (setDate_time t date).
Definition setMonth (t month : Z) : option Z := TimeClip (setMonth_time t month).
Definition setFullYear (t year : Z) : option Z :=
  TimeClip (setFullYear_time t year).

(** In [new Date(year, month, ...)] a year from 0 to 99 stands for
    1900 + year. *)
Definition MakeFullYear (year : Z) : Z :=
  if (0 <=? year) && (year <=? 99) then 1900 + year else year.

(** [new Date(year, month, date)], at midnight. *)
Definition newDate (year month date : Z) : option Z :=
  TimeClip (MakeDate (MakeDay (MakeFullYear year) month date) 0).

(** [new Date(year, month, date, hours, minutes, seconds)]. *)
Definition newDateTime (year month date hours minutes seconds : Z) : option Z :=
  TimeClip (MakeDate (MakeDay (MakeFullYear year) month date)
              (hours * 3600000 + minutes * 60000 + seconds * 1000)).

End JSDate.

(** ** The RecurringTransaction model *)

Inductive TransactionType := income | expense | transfer | investment.

Inductive Frequency := daily | weekly | biweekly | monthly | quarterly | yearly.

(** A stored definition.  [isActive] and [isPaused] hold Booleans, as the
    handlers embedded here write them (a body could also store a null
    there, which is left out); stored strings are as their setters left
    them. *)
Record RecurringTransaction := mkRecurring {
  rec_userId : ObjectId;
  rec_name : string;
  rec_type : TransactionType;
  rec_fromAccount : option ObjectId;
  rec_toAccount : option ObjectId;
  rec_amount : float;
  rec_category : string;
  rec_paymentMode : string;
  rec_note : option string;
  rec_frequency : Frequency;
  rec_dayOfMonth : option Z;
  rec_dayOfWeek : option Z;
  rec_startDate : Z;
  rec_endDate : option Z;
  rec_nextRunDate : Z;
  rec_lastRunDate : option Z;
  rec_isActive : bool;
  rec_isPaused : bool;
  rec_totalExecutions : Z;
  rec_maxExecutions : option Z;
  rec_tags : list ObjectId;
  rec_updatedAt : Z
}.

(** [recurringTransactionSchema.methods.calculateNextRunDate].  The
    stored [nextRunDate] is a valid Date.  Once a setter has made
    [nextDate] invalid it stays so: its getters return NaN,
    [new Date(NaN, NaN, 0)] is invalid, [Math.min(_, NaN)] is NaN and
    [setDate(NaN)] leaves an Invalid Date; the result is then [None]. *)
Definition calculateNextRunDate (this : RecurringTransaction) : option Z :=
  let nextDate := rec_nextRunDate this in
  match rec_frequency this with
  | daily => JSDate.setDate nextDate (JSDate.getDate nextDate + 1)
  | weekly => JSDate.setDate nextDate (JSDate.getDate nextDate + 7)
  | biweekly => JSDate.setDate nextDate (JSDate.getDate nextDate + 14)
  | monthly =>
      nextDate ← JSDate.setMonth nextDate (JSDate.getMonth nextDate + 1);
      (* Handle end of month edge cases *)
      match rec_dayOfMonth this with
      | Some dayOfMonth =>
          if negb (dayOfMonth =? 0) then
            lastDayOfMonth ←
              JSDate.getDate
                <$> JSDate.newDate (JSDate.getFullYear nextDate)
                                   (JSDate.getMonth nextDate + 1) 0;
            JSDate.setDate nextDate (Z.min dayOfMonth lastDayOfMonth)
          else Some nextDate
      | None => Some nextDate
      end
  | quarterly => JSDate.setMonth nextDate (JSDate.getMonth nextDate + 3)
  | yearly => JSDate.setFullYear nextDate (JSDate.getFullYear nextDate + 1)
  end.

(** [recurringTransactionSchema.methods.shouldExecute], at the instant
    [now].  A stored [endDate] is a Date object and so truthy whenever it is
    not null; [maxExecutions] is a Number and falsy when null or 0. *)
Definition shouldExecute (now : Z) (this : RecurringTransaction) : bool :=
  if negb (rec_isActive this) || rec_isPaused this then false
  else if match rec_endDate this with
          | Some endDate => now >? endDate
          | None => false
          end then false
  else if match rec_maxExecutions this with
          | Some maxExecutions =>
              negb (maxExecutions =? 0)
              && (rec_totalExecutions this >=? maxExecutions)
          | None => false
          end then false
  else now >=? rec_nextRunDate this.

(** ** Account, Transaction, TransactionLog and Budget documents *)

Inductive AccountStatus := active | locked.

Record Account := mkAccount {
  acc_userId : ObjectId;
  acc_accountType : string;
  acc_accountName : string;
  acc_balance : float;
  acc_status : AccountStatus;
  acc_isDeleted : bool;
  acc_deletedAt : option Z
}.

Record Transaction := mkTransaction {
  tx_userId : ObjectId;
  tx_type : TransactionType;
  tx_fromAccount : option ObjectId;
  tx_toAccount : option ObjectId;
  tx_amount : float;
  tx_category : string;
  tx_paymentMode : string;
  tx_note : option string;
  tx_conversionRate : option float;
  tx_convertedAmount : option float;
  tx_fromCurrency : option string;
  tx_toCurrency : option string;
  tx_transactionDate : Z;
  tx_tags : list ObjectId;
  tx_wasEdited : bool;
  tx_createdAt : Z
}.

(** [oldData] and [newData] hold [transaction.toObject()]: the whole
    document; its [_id] is the entry's [transactionId]. *)
Record TransactionLog := mkTransactionLog {
  log_transactionId : ObjectId;
  log_userId : ObjectId;
  log_oldData : Transaction;
  log_newData : Transaction;
  log_modifiedAt : Z;
  log_reason : string
}.

(** The Budget schema (the module that follows the Category model in
    src/models/Category.js): per user, category, month and year, a
    monthlyLimit and a currentSpent counter. *)
Record Budget := mkBudget {
  bud_userId : ObjectId;
  bud_category : string;
  bud_month : Z;
  bud_year : Z;
  bud_monthlyLimit : float;
  bud_currentSpent : float;
  bud_alertThreshold : float;
  bud_createdAt : Z
}.

(** ** The database *)

Record Store := mkStore {
  accounts : gmap ObjectId Account;
  transactions : gmap ObjectId Transaction;
  transactionLogs : list TransactionLog;
  budgets : list Budget;
  recurrings : gmap ObjectId RecurringTransaction
}.

Definition set_accounts (f : gmap ObjectId Account -> gmap ObjectId Account)
    (st : Store) : Store :=
  mkStore (f (accounts st)) (transactions st) (transactionLogs st)
          (budgets st) (recurrings st).

Definition set_transactions
    (f : gmap ObjectId Transaction -> gmap ObjectId Transaction)
    (st : Store) : Store :=
  mkStore (accounts st) (f (transactions st)) (transactionLogs st)
          (budgets st) (recurrings st).

Definition set_transactionLogs
    (f : list TransactionLog -> list TransactionLog) (st : Store) : Store :=
  mkStore (accounts st) (transactions st) (f (transactionLogs st))
          (budgets st) (recurrings st).

Definition set_budgets (f : list Budget -> list Budget) (st : Store) : Store :=
  mkStore (accounts st) (transactions st) (transactionLogs st)
          (f (budgets st)) (recurrings st).

Definition set_recurrings
    (f : gmap ObjectId RecurringTransaction -> gmap ObjectId RecurringTransaction)
    (st : Store) : Store :=
  mkStore (accounts st) (transactions st) (transactionLogs st)
          (budgets st) (f (recurrings st)).

(** What a handler answers: the HTTP status it sends, or the exception it
    hands to [next(err)]. *)
Inductive Exception := ValidationError | TypeError.

Inductive Response :=
| Created (transactionId : ObjectId)      (* 201 *)
| Updated (transactionId : ObjectId)      (* 200 *)
| BadRequest (message : string)           (* 400 *)
| NotFound (message : string)             (* 404 *)
| Thrown (err : Exception).               (* catch (err) { next(err) } *)

(** ** Account queries and the [$inc] update *)

Module AccountModel.

Definition findById (id : option ObjectId) (st : Store) : option Account :=
  match id with
  | Some i => accounts st !! i
  | None => None
  end.

(** [Account.findOne({ _id, userId })]. *)
Definition findOne (id user : ObjectId) (st : Store) : option Account :=
  match accounts st !! id with
  | Some a => if Nat.eqb (acc_userId a) user then Some a else None
  | None => None
  end.

Definition add_balance (x : float) (a : Account) : Account :=
  mkAccount (acc_userId a) (acc_accountType a) (acc_accountName a)
            (acc_balance a + x)%float (acc_status a) (acc_isDeleted a)
            (acc_deletedAt a).

(** [Account.findByIdAndUpdate(id, { $inc: { balance: x } })]: a delta on
    the stored balance, without validators; no document, no effect. *)
Definition inc (id : option ObjectId) (x : float)
    (accs : gmap ObjectId Account) : gmap ObjectId Account :=
  match id with
  | Some i => alter (add_balance x) i accs
  | None => accs
  end.

Definition incBalance (id : option ObjectId) (x : float) (st : Store) : Store :=
  set_accounts (inc id x) st.

End AccountModel.

Module BudgetModel.

(** The filter [{ userId, category, month, year }]; Mongoose casts it
    through the schema, whose setter trims the category. *)
Definition matches (user : ObjectId) (category : string) (month year : Z)
    (b : Budget) : bool :=
  Nat.eqb (bud_userId b) user
  && String.eqb (bud_category b) (JSString.trim category)
  && (bud_month b =? month) && (bud_year b =? year).

Definition add_spent (x : float) (b : Budget) : Budget :=
  mkBudget (bud_userId b) (bud_category b) (bud_month b) (bud_year b)
           (bud_monthlyLimit b) (bud_currentSpent b + x)%float
           (bud_alertThreshold b) (bud_createdAt b).

(** [Budget.findOneAndUpdate(filter, { $inc: { currentSpent: x } })]:
    the first matching budget, if there is one. *)
Fixpoint incSpentIn (user : ObjectId) (category : string) (month year : Z)
    (x : float) (bs : list Budget) : list Budget :=
  match bs with
  | [] => []
  | b :: bs' =>
      if matches user category month year b then add_spent x b :: bs'
      else b :: incSpentIn user category month year x bs'
  end.

Definition findOneAndUpdate (user : ObjectId) (category : string) (now : Z)
    (x : float) (st : Store) : Store :=
  set_budgets
    (incSpentIn user category (JSDate.getMonth now + 1) (JSDate.getFullYear now) x)
    st.

End BudgetModel.

(** ** The Transaction collection: schema validation, create, delete, update *)

(** A request body for [POST /api/transactions], after JSON parsing.  A
    [None] is a field left out ([''] and [null] for the account fields);
    [body_type] is [None] also for a string outside the schema's enum, which
    validation refuses alike.  The body names the paths of the schema
    ([userId], which the handler overwrites, apart) and carries no [_id];
    Numbers are JSON numbers, [wasEdited] is a Boolean and dates are
    valid. *)
Record TransactionBody := mkTransactionBody {
  body_type : option TransactionType;
  body_fromAccount : option ObjectId;
  body_toAccount : option ObjectId;
  body_amount : option float;
  body_category : option string;
  body_paymentMode : option string;
  body_note : option string;
  body_conversionRate : option float;
  body_convertedAmount : option float;
  body_fromCurrency : option string;
  body_toCurrency : option string;
  body_transactionDate : option Z;
  body_tags : list ObjectId;
  body_wasEdited : option bool;
  body_createdAt : option Z
}.

Module TransactionModel.

Definition paymentModes : list string :=
  ["cash"; "upi"; "card"; "bank_transfer"; "other"]%string.

Definition valid_paymentMode (pm : string) : bool :=
  existsb (String.eqb pm) paymentModes.

(** [min: [0.01, ...]]; a NaN fails the comparison, as it fails the cast. *)
Definition valid_amount (amount : float) : bool :=
  PrimFloat.leb 0.01%float amount.

(** [required] on a trimmed string. *)
Definition valid_category (category : string) : bool :=
  negb (JSString.is_empty category).

(** [maxlength: [500, ...]] on the trimmed note. *)
Definition valid_note (note : option string) : bool :=
  match note with
  | Some n => JSString.length n <=? 500
  | None => true
  end.

(** The document Mongoose builds from a body: setters ([trim]) and
    defaults applied; [None] when a required field is missing. *)
Definition cast (user : ObjectId) (now : Z) (body : TransactionBody)
    : option Transaction :=
  match body_type body, body_amount body, body_category body with
  | Some type, Some amount, Some category =>
      Some (mkTransaction user type (body_fromAccount body) (body_toAccount body)
              amount (JSString.trim category)
              (default "cash"%string (body_paymentMode body))
              (JSString.trim <$> body_note body)
              (body_conversionRate body) (body_convertedAmount body)
              (body_fromCurrency body) (body_toCurrency body)
              (default now (body_transactionDate body))
              (body_tags body)
              (default false (body_wasEdited body))
              (default now (body_createdAt body)))
  | _, _, _ => None
  end.

Definition validate (doc : Transaction) : bool :=
  valid_amount (tx_amount doc) && valid_category (tx_category doc)
  && valid_paymentMode (tx_paymentMode doc) && valid_note (tx_note doc).

(** [Transaction.create(body)]: the new id and the store with the
    document in it, or [None] for a ValidationError (nothing written). *)
Definition create (user : ObjectId) (now : Z) (body : TransactionBody)
    (st : Store) : option (ObjectId * Store) :=
  match cast user now body with
  | Some doc =>
      if validate doc then
        let id := fresh (dom (transactions st)) in
        Some (id, set_transactions (insert id doc) st)
      else None
  | None => None
  end.

Definition findByIdAndDelete (id : ObjectId) (st : Store) : Store :=
  set_transactions (delete id) st.

(** [Transaction.findOne({ _id, userId })]. *)
Definition findOne (id user : ObjectId) (st : Store) : option Transaction :=
  match transactions st !! id with
  | Some t => if Nat.eqb (tx_userId t) user then Some t else None
  | None => None
  end.

End TransactionModel.

(** ** transactionController.createTransaction *)

Definition createTransaction (user : ObjectId) (now : Z)
    (body : TransactionBody) (st : Store) : Response * Store :=
  let fromAccount := body_fromAccount body in
  let toAccount := body_toAccount body in
  (* Validate accounts exist and belong to user *)
  match
    match fromAccount with
    | Some f =>
        match AccountModel.findOne f user st with
        | None => Some (NotFound "Source account not found")
        | Some fromAcc =>
            match acc_status fromAcc with
            | locked => Some (BadRequest "Source account is locked")
            | active => None
            end
        end
    | None => None
    end
  with
  | Some refusal => (refusal, st)
  | None =>
  match
    match toAccount with
    | Some t =>
        match AccountModel.findOne t user st with
        | None => Some (NotFound "Destination account not found")
        | Some _ => None
        end
    | None => None
    end
  with
  | Some refusal => (refusal, st)
  | None =>
  (* Create transaction *)
  match TransactionModel.create user now body st with
  | None => (Thrown ValidationError, st)
  | Some (id, st1) =>
  (* Update account balances based on transaction type *)
  match body_type body, body_amount body with
  | Some income, Some amount =>
      (Created id, AccountModel.incBalance toAccount amount st1)
  | Some expense, Some amount =>
      match AccountModel.findById fromAccount st1 with
      | None => (Thrown TypeError, st1)
      | Some expenseAcc =>
          if PrimFloat.ltb (acc_balance expenseAcc) amount then
            (* Rollback transaction *)
            (BadRequest "Insufficient balance in expense account",
             TransactionModel.findByIdAndDelete id st1)
          else
            let st2 := AccountModel.incBalance fromAccount (- amount)%float st1 in
            (* Update budget if exists *)
            (Created id,
             BudgetModel.findOneAndUpdate user
               (default ""%string (body_category body)) now amount st2)
      end
  | Some transfer, Some amount =>
      match AccountModel.findById fromAccount st1 with
      | None => (Thrown TypeError, st1)
      | Some fromAcc =>
          if PrimFloat.ltb (acc_balance fromAcc) amount then
            (BadRequest "Insufficient balance for transfer",
             TransactionModel.findByIdAndDelete id st1)
          else
            (* Deduct from source account (original amount) *)
            let st2 := AccountModel.incBalance fromAccount (- amount)%float st1 in
            (* If currency conversion is involved, use the converted amount *)
            let amountToAdd := JSNumber.or_else (body_convertedAmount body) amount in
            (Created id, AccountModel.incBalance toAccount amountToAdd st2)
      end
  | Some investment, Some amount =>
      match AccountModel.findById fromAccount st1 with
      | None => (Thrown TypeError, st1)
      | Some invAcc =>
          if PrimFloat.ltb (acc_balance invAcc) amount then
            (BadRequest "Insufficient balance for investment",
             TransactionModel.findByIdAndDelete id st1)
          else
            (Created id, AccountModel.incBalance fromAccount (- amount)%float st1)
      end
  | _, _ =>
      (* no branch of the if/else-if chain applies; not reached, since
         validation requires a type and an amount *)
      (Created id, st1)
  end
  end
  end
  end.

(** ** transactionController.updateTransaction *)

(** A request body for [PUT /api/transactions/:id]; [None] is
    [undefined]. *)
Record UpdateBody := mkUpdateBody {
  upd_amount : option float;
  upd_category : option string;
  upd_paymentMode : option string;
  upd_note : option string;
  upd_transactionDate : option Z;
  upd_tags : option (list ObjectId);
  upd_reason : option string
}.

(** The [updates] object applied by [findByIdAndUpdate]: [wasEdited] and
    every allowed field the body defines, with the schema's setters. *)
Definition applyUpdates (body : UpdateBody) (t : Transaction) : Transaction :=
  mkTransaction (tx_userId t) (tx_type t) (tx_fromAccount t) (tx_toAccount t)
    (default (tx_amount t) (upd_amount body))
    (default (tx_category t) (JSString.trim <$> upd_category body))
    (default (tx_paymentMode t) (upd_paymentMode body))
    (match upd_note body with
     | Some n => Some (JSString.trim n)
     | None => tx_note t
     end)
    (tx_conversionRate t) (tx_convertedAmount t)
    (tx_fromCurrency t) (tx_toCurrency t)
    (default (tx_transactionDate t) (upd_transactionDate body))
    (default (tx_tags t) (upd_tags body))
    true (tx_createdAt t).

(** [runValidators: true]: the validators of the paths the update sets. *)
Definition validUpdates (body : UpdateBody) : bool :=
  match upd_amount body with
  | Some a => TransactionModel.valid_amount a
  | None => true
  end
  && match upd_category body with
     | Some c => TransactionModel.valid_category (JSString.trim c)
     | None => true
     end
  && match upd_paymentMode body with
     | Some pm => TransactionModel.valid_paymentMode pm
     | None => true
     end
  && TransactionModel.valid_note (JSString.trim <$> upd_note body).

Module TransactionLogModel.

(** The schema of [reason]: trimmed, required, at most 300 characters. *)
Definition valid_reason (reason : string) : bool :=
  negb (JSString.is_empty (JSString.trim reason))
  && (JSString.length (JSString.trim reason) <=? 300).

(** [TransactionLog.create]: [None] for a ValidationError. *)
Definition create (transactionId user : ObjectId) (oldData newData : Transaction)
    (reason : string) (now : Z) (st : Store) : option Store :=
  if valid_reason reason then
    Some (set_transactionLogs
            (fun logs => logs ++ [mkTransactionLog transactionId user oldData newData
                                    now (JSString.trim reason)])
            st)
  else None.

End TransactionLogModel.

Definition updateTransaction (user id : ObjectId) (now : Z)
    (body : UpdateBody) (st : Store) : Response * Store :=
  match TransactionModel.findOne id user st with
  | None => (NotFound "Transaction not found", st)
  | Some transaction =>
  (* Require reason for modification *)
  if negb (JSString.truthy (upd_reason body)) then
    (BadRequest "Please provide a reason for modification", st)
  else
  let reason := default ""%string (upd_reason body) in
  (* Store old data for audit log *)
  let oldData := transaction in
  (* Handle amount change - adjust account balances *)
  match
    match upd_amount body with
    | Some amount =>
        if JSNumber.truthy amount
           && negb (PrimFloat.eqb amount (tx_amount transaction)) then
          let difference := (amount - tx_amount transaction)%float in
          match tx_type transaction with
          | income =>
              inr (AccountModel.incBalance (tx_toAccount transaction) difference st)
          | expense =>
              match AccountModel.findById (tx_fromAccount transaction) st with
              | None => inl (Thrown TypeError)
              | Some expenseAcc =>
                  if PrimFloat.ltb (acc_balance expenseAcc) difference then
                    inl (BadRequest "Insufficient balance for this update")
                  else
                    inr (AccountModel.incBalance (tx_fromAccount transaction)
                           (- difference)%float st)
              end
          | _ => inr st
          end
        else inr st
    | None => inr st
    end
  with
  | inl refusal => (refusal, st)
  | inr st1 =>
  (* Update transaction *)
  if negb (validUpdates body) then (Thrown ValidationError, st1)
  else
  let transaction' := applyUpdates body transaction in
  let st2 := set_transactions (insert id transaction') st1 in
  (* Create audit log *)
  match TransactionLogModel.create id user oldData transaction' reason now st2 with
  | None => (Thrown ValidationError, st2)
  | Some st3 => (Updated id, st3)
  end
  end
  end.

(** ** The RecurringTransaction collection *)

(** A date in a JSON body: an ISO date string, which names the instant
    [t] and is a truthy value, or an integer number of milliseconds, falsy
    when it is 0.  (An empty string, a string of digits, null and the
    other JSON values are left out.) *)
Inductive DateInput := DateString (t : Z) | DateNumber (t : Z).

Module DateInput.

Definition time (d : DateInput) : Z :=
  match d with DateString t | DateNumber t => t end.

Definition truthy (d : DateInput) : bool :=
  match d with
  | DateString _ => true
  | DateNumber t => negb (t =? 0)
  end.

(** [new Date(d)], which is also the cast of a Date path. *)
Definition toDate (d : DateInput) : option Z := JSDate.TimeClip (time d).

End DateInput.

(** A request body for [POST /api/recurring]; [None] is a field left
    out, and for [rb_type] and [rb_frequency] also a string outside the
    enum.  The flags are Booleans and the dates other than [startDate]
    are valid dates. *)
Record RecurringBody := mkRecurringBody {
  rb_userId : option ObjectId;
  rb_name : option string;
  rb_type : option TransactionType;
  rb_fromAccount : option ObjectId;
  rb_toAccount : option ObjectId;
  rb_amount : option float;
  rb_category : option string;
  rb_paymentMode : option string;
  rb_note : option string;
  rb_frequency : option Frequency;
  rb_dayOfMonth : option Z;
  rb_dayOfWeek : option Z;
  rb_startDate : option DateInput;
  rb_endDate : option Z;
  rb_nextRunDate : option Z;
  rb_lastRunDate : option Z;
  rb_isActive : option bool;
  rb_isPaused : option bool;
  rb_totalExecutions : option Z;
  rb_maxExecutions : option Z;
  rb_tags : list ObjectId
}.

Module RecurringSchema.

(** The document Mongoose builds from a body whose [userId] and
    [nextRunDate] the handler has set: setters and defaults applied;
    [None] when a required path is missing or a date does not cast. *)
Definition cast (user : ObjectId) (nextRunDate : option Z) (now : Z)
    (body : RecurringBody) : option RecurringTransaction :=
  match rb_name body, rb_type body, rb_amount body, rb_category body,
        rb_frequency body with
  | Some name, Some type, Some amount, Some category, Some frequency =>
      startDate ← match rb_startDate body with
                  | Some d => DateInput.toDate d
                  | None => Some now
                  end;
      nextRunDate ← nextRunDate;
      Some (mkRecurring user (JSString.trim name) type
              (rb_fromAccount body) (rb_toAccount body) amount
              (JSString.trim category)
              (default "bank_transfer"%string (rb_paymentMode body))
              (JSString.trim <$> rb_note body)
              frequency
              (Some (default 1 (rb_dayOfMonth body)))
              (rb_dayOfWeek body)
              startDate
              (rb_endDate body)
              nextRunDate
              (rb_lastRunDate body)
              (default true (rb_isActive body))
              (default false (rb_isPaused body))
              (default 0 (rb_totalExecutions body))
              (rb_maxExecutions body)
              (rb_tags body)
              now)
  | _, _, _, _, _ => None
  end.

(** The validators of the schema, as [create] and [save()] run them on
    the whole document. *)
Definition validate (doc : RecurringTransaction) : bool :=
  negb (JSString.is_empty (rec_name doc))
  && (JSString.length (rec_name doc) <=? 100)
  && TransactionModel.valid_amount (rec_amount doc)
  && TransactionModel.valid_category (rec_category doc)
  && TransactionModel.valid_paymentMode (rec_paymentMode doc)
  && TransactionModel.valid_note (rec_note doc)
  && match rec_dayOfMonth doc with
     | Some d => (1 <=? d) && (d <=? 31)
     | None => true
     end
  && match rec_dayOfWeek doc with
     | Some d => (0 <=? d) && (d <=? 6)
     | None => true
     end.

End RecurringSchema.

(** ** recurringController.executeNow *)

Module RecurringModel.

(** [RecurringTransaction.findOne({ _id, userId })]. *)
Definition findOne (id user : ObjectId) (st : Store)
    : option RecurringTransaction :=
  match recurrings st !! id with
  | Some r => if Nat.eqb (rec_userId r) user then Some r else None
  | None => None
  end.

(** The four assignments of [executeNow] on the loaded document, with
    the valid Date [nextRunDate] that [calculateNextRunDate] returned, and
    the [updatedAt] of the pre-save hook. *)
Definition advance (now nextRunDate : Z) (recurring : RecurringTransaction)
    : RecurringTransaction :=
  let totalExecutions := rec_totalExecutions recurring + 1 in
  mkRecurring (rec_userId recurring) (rec_name recurring) (rec_type recurring)
    (rec_fromAccount recurring) (rec_toAccount recurring) (rec_amount recurring)
    (rec_category recurring) (rec_paymentMode recurring) (rec_note recurring)
    (rec_frequency recurring) (rec_dayOfMonth recurring) (rec_dayOfWeek recurring)
    (rec_startDate recurring) (rec_endDate recurring)
    nextRunDate
    (Some now)
    (* Check if max executions reached *)
    (if match rec_maxExecutions recurring with
        | Some maxExecutions =>
            negb (maxExecutions =? 0) && (totalExecutions >=? maxExecutions)
        | None => false
        end
     then false else rec_isActive recurring)
    (rec_isPaused recurring)
    totalExecutions
    (rec_maxExecutions recurring) (rec_tags recurring)
    now.

End RecurringModel.

(** The [transactionData] object built from a definition. *)
Definition transactionData (now : Z) (recurring : RecurringTransaction)
    : TransactionBody :=
  mkTransactionBody
    (Some (rec_type recurring))
    (rec_fromAccount recurring) (rec_toAccount recurring)
    (Some (rec_amount recurring))
    (Some (rec_category recurring))
    (Some (rec_paymentMode recurring))
    (Some (JSString.trim
             (String.append "[Auto: "
                (String.append (rec_name recurring)
                   (String.append "] " (default ""%string (rec_note recurring)))))))
    None None None None
    (Some now)
    (rec_tags recurring)
    None None.

(** [exports.executeNow].  [recurring.save()] validates the whole
    document: it throws, after the transaction is written and the
    balances are moved, when the new [nextRunDate] is an Invalid Date or
    a validator fails, and the definition is then not advanced. *)
Definition executeNow (user id : ObjectId) (now : Z) (st : Store)
    : Response * Store :=
  match RecurringModel.findOne id user st with
  | None => (NotFound "Recurring transaction not found", st)
  | Some recurring =>
  (* Create transaction *)
  match TransactionModel.create user now (transactionData now recurring) st with
  | None => (Thrown ValidationError, st)
  | Some (tid, st1) =>
  (* Update account balances *)
  let amount := rec_amount recurring in
  let st2 :=
    match rec_type recurring, rec_fromAccount recurring, rec_toAccount recurring with
    | income, _, Some _ =>
        AccountModel.incBalance (rec_toAccount recurring) amount st1
    | expense, Some _, _ =>
        let st' := AccountModel.incBalance (rec_fromAccount recurring)
                     (- amount)%float st1 in
        (* Update budget *)
        BudgetModel.findOneAndUpdate user (rec_category recurring) now amount st'
    | transfer, _, _ =>
        let st' := AccountModel.incBalance (rec_fromAccount recurring)
                     (- amount)%float st1 in
        AccountModel.incBalance (rec_toAccount recurring) amount st'
    | _, _, _ => st1
    end in
  (* Update recurring transaction *)
  match calculateNextRunDate recurring with
  | None => (Thrown ValidationError, st2)
  | Some nextRunDate =>
      let recurring := RecurringModel.advance now nextRunDate recurring in
      if RecurringSchema.validate recurring then
        (Created tid, set_recurrings (insert id recurring) st2)
      else (Thrown ValidationError, st2)
  end
  end
  end.

(** ** investmentController: XIRR *)

Inductive InvestmentTransactionType := buy | sell | dividend | split | bonus.

Inductive InvestmentStatus := inv_active | inv_sold | inv_matured | inv_partial_sold.

Record InvestmentTransaction := mkInvestmentTransaction {
  itx_type : InvestmentTransactionType;
  itx_date : Z;
  itx_units : float;
  itx_pricePerUnit : float;
  itx_amount : float
}.

Record Investment := mkInvestment {
  inv_userId : ObjectId;
  inv_investedAmount : float;
  inv_currentValue : float;
  inv_transactions : list InvestmentTransaction;
  inv_status : InvestmentStatus
}.

Inductive XirrResponse :=
| XirrOk (xirr : float) (cashFlows : list (float * Z))   (* 200, xirr in percent *)
| XirrNotFound.                                          (* 404 *)

(** The Number [d - firstDate] of two Dates.  Time values are integers
    below 2^53 in magnitude, so (for dates whose difference stays below
    2^53) the subtraction is exact and is the integer difference read as
    a binary64. *)
Definition dateDiff (d firstDate : Z) : float :=
  let z := d - firstDate in
  if z <? 0 then (- PrimFloat.of_uint63 (Uint63.of_Z (- z)))%float
  else PrimFloat.of_uint63 (Uint63.of_Z z).

Section XIRR.

(** [Math.pow], which ECMAScript leaves implementation-approximated. *)
Variable Math_pow : float -> float -> float.

Local Open Scope float_scope.

(** The inner loop: one pass over the cash flows, accumulating the net
    present value and its derivative at [guess]. *)
Definition npv_dnpv (guess : float) (cashFlows years : list float)
    : float * float :=
  fold_left
    (fun (acc : float * float) (cy : float * float) =>
       let pv := cy.1 / Math_pow (1 + guess) cy.2 in
       (acc.1 + pv, acc.2 - cy.2 * pv / (1 + guess)))
    (combine cashFlows years) (0, 0).

(** The outer loop with [n] iterations left. *)
Fixpoint newtonRaphson (n : nat) (cashFlows years : list float)
    (guess : float) : float :=
  match n with
  | O => guess
  | S n' =>
      let (npv, dnpv) := npv_dnpv guess cashFlows years in
      let newGuess := guess - npv / dnpv in
      if PrimFloat.ltb (PrimFloat.abs (newGuess - guess)) 0.0001 then newGuess
      else
        let guess := newGuess in
        (* Prevent divergence *)
        let guess := if PrimFloat.ltb guess (-0.99) then -0.99 else guess in
        let guess := if PrimFloat.ltb 10 guess then 10 else guess in
        newtonRaphson n' cashFlows years guess
  end.

Definition yearsFromFirst (dates : list Z) : list float :=
  match dates with
  | [] => []
  | firstDate :: _ =>
      map (fun d => dateDiff d firstDate / (365 * 24 * 60 * 60 * 1000)) dates
  end.

Definition calculateXIRRValue (cashFlows : list float) (dates : list Z) : float :=
  if (Nat.ltb (List.length cashFlows) 2) then 0
  else newtonRaphson 100 cashFlows (yearsFromFirst dates) 0.1.

(** The cash flow of one investment transaction: [0] for the types the
    switch leaves out. *)
Definition cashFlowOf (txn : InvestmentTransaction) : float :=
  match itx_type txn with
  | buy => - itx_amount txn
  | sell | dividend => itx_amount txn
  | split | bonus => 0
  end.

Definition buildCashFlows (inv : Investment) (now : Z)
    : list (float * Z) :=
  let flows :=
    flat_map
      (fun txn =>
         let amount := cashFlowOf txn in
         if negb (PrimFloat.eqb amount 0) then [(amount, itx_date txn)] else [])
      (inv_transactions inv) in
  (* Add current value as final inflow (if not sold) *)
  match inv_status inv with
  | inv_sold => flows
  | _ => flows ++ [(inv_currentValue inv, now)]
  end.

Definition calculateXIRR (user id : ObjectId) (now : Z)
    (investments : gmap ObjectId Investment) : XirrResponse :=
  match investments !! id with
  | Some inv =>
      if Nat.eqb (inv_userId inv) user then
        let flows := buildCashFlows inv now in
        let xirr := calculateXIRRValue (map fst flows) (map snd flows) in
        XirrOk (xirr * 100) flows
      else XirrNotFound
  | None => XirrNotFound
  end.

End XIRR.

(** ** Properties named by the specification, and the scenarios they are
       checked on *)

(** The balance of account [j], which held [balance], once [account] has
    been credited with [x], or debited by it; crediting or debiting no
    account changes none. *)
Definition credited (account : option ObjectId) (x : float) (j : ObjectId)
    (balance : float) : float :=
  if decide (account = Some j) then (balance + x)%float else balance.

Definition debited (account : option ObjectId) (x : float) (j : ObjectId)
    (balance : float) : float :=
  if decide (account = Some j) then (balance - x)%float else balance.

(** The Transaction document an execution at [now] writes for a definition. *)
Definition materialized (user : ObjectId) (now : Z)
    (recurring : RecurringTransaction) : Transaction :=
  mkTransaction user (rec_type recurring)
    (rec_fromAccount recurring) (rec_toAccount recurring)
    (rec_amount recurring) (JSString.trim (rec_category recurring))
    (rec_paymentMode recurring)
    (Some (JSString.trim (JSString.trim
       (String.append "[Auto: "
          (String.append (rec_name recurring)
             (String.append "] " (default ""%string (rec_note recurring))))))))
    None None None None now (rec_tags recurring) false now.

(** A handler refused: it answered neither 201 nor 200. *)
Definition rejected (r : Response) : Prop :=
  match r with
  | Created _ | Updated _ => False
  | _ => True
  end.

(** An attempt was refused and left the store as it was. *)
Definition refused_without_effect (st : Store) (res : Response * Store) : Prop :=
  rejected res.1 /\ res.2 = st.

(** The eligibility conditions in the specification's words. *)
Definition eligible_as_specified (now : Z) (r : RecurringTransaction) : Prop :=
  rec_isActive r = true /\ rec_isPaused r = false
  /\ match rec_endDate r with
     | None => True
     | Some endDate => now <= endDate
     end
  /\ match rec_maxExecutions r with
     | None => True
     | Some maxExecutions => rec_totalExecutions r < maxExecutions
     end
  /\ rec_nextRunDate r <= now.

(** The same, with a [maxExecutions] of 0 read as no bound. *)
Definition eligible (now : Z) (r : RecurringTransaction) : Prop :=
  rec_isActive r = true /\ rec_isPaused r = false
  /\ match rec_endDate r with
     | None => True
     | Some endDate => now <= endDate
     end
  /\ match rec_maxExecutions r with
     | None => True
     | Some maxExecutions =>
         maxExecutions = 0 \/ rec_totalExecutions r < maxExecutions
     end
  /\ rec_nextRunDate r <= now.

Module Scenario.

Definition alice : ObjectId := 1%nat.
Definition checking : ObjectId := 10%nat.
Definition savings : ObjectId := 11%nat.
Definition rent : ObjectId := 20%nat.

Definition account (balance : float) : Account :=
  mkAccount alice "bank" "Account" balance active false None.

(** A monthly definition of 100 out of [checking], due on the 31st. *)
Definition definition (type : TransactionType) (nextRunDate : Z)
    (maxExecutions : option Z) : RecurringTransaction :=
  mkRecurring alice "Rent" type (Some checking) None 100 "Housing"
    "bank_transfer" None monthly (Some 31) None nextRunDate None nextRunDate
    None true false 0 maxExecutions [] nextRunDate.

(** Midnight of the given day; the days named below are valid Dates. *)
Definition midnight (year month date : Z) : Z :=
  default 0 (JSDate.newDate year month date).

Definition jan31 (year : Z) : Z := midnight year 0 31.

(** [checking] holds 50, less than the definition's 100. *)
Definition poor : Store :=
  mkStore (<[checking := account 50]> ∅) ∅ [] []
          (<[rent := definition expense (jan31 2023) None]> ∅).

Definition poor_investing : Store :=
  mkStore (<[checking := account 50]> ∅) ∅ [] []
          (<[rent := definition investment (jan31 2023) None]> ∅).

(** [checking] holds 1000; the definition may run three times. *)
Definition capped : Store :=
  mkStore (<[checking := account 1000]> ∅) ∅ [] []
          (<[rent := definition expense (jan31 2023) (Some 3)]> ∅).

Definition noon (year month date : Z) : Z :=
  default 0 (JSDate.newDateTime year month date 12 0 0).

Definition capped1 : Store := (executeNow alice rent (noon 2023 0 31) capped).2.
Definition capped2 : Store := (executeNow alice rent (noon 2023 1 28) capped1).2.
Definition capped3 : Store := (executeNow alice rent (noon 2023 2 31) capped2).2.

(** A definition that fails every eligibility condition: inactive,
    paused, past its end date, at its execution bound, not yet due. *)
Definition ineligible : RecurringTransaction :=
  mkRecurring alice "Rent" income None (Some checking) 100 "Housing"
    "bank_transfer" None monthly (Some 1) None 0 (Some (jan31 2020))
    (jan31 2030) None false true 5 (Some 5) [] 0.

Definition dormant : Store :=
  mkStore (<[checking := account 0]> ∅) ∅ [] [] (<[rent := ineligible]> ∅).

(** A definition with [maxExecutions] 0, otherwise eligible. *)
Definition uncapped_by_zero : RecurringTransaction :=
  definition expense (jan31 2023) (Some 0).

(** A ledger entry of 100 of the given type between [checking] (400
    left) and [savings] (100). *)
Definition entry (type : TransactionType) : Transaction :=
  mkTransaction alice type
    (match type with income => None | _ => Some checking end)
    (match type with income | transfer => Some savings | _ => None end)
    100 "Misc" "cash" None None None None None (jan31 2023) [] false (jan31 2023).

Definition ledger (type : TransactionType) : Store :=
  mkStore (<[checking := account 400]> (<[savings := account 100]> ∅))
          (<[0%nat := entry type]> ∅) [] [] ∅.

Definition amend (amount : option float) (note reason : option string)
    : UpdateBody :=
  mkUpdateBody amount None None note None None reason.

Definition blank : string := "   ".

Fixpoint repeat_char (c : ascii) (n : nat) : string :=
  match n with
  | O => EmptyString
  | S n' => String c (repeat_char c n')
  end.

Definition long_reason : string := repeat_char "x" 301.

Definition request (type : TransactionType) (amount : float)
    (convertedAmount : option float) : TransactionBody :=
  mkTransactionBody (Some type)
    (match type with income => None | _ => Some checking end)
    (match type with income | transfer => Some savings | _ => None end)
    (Some amount) (Some "Misc"%string) None None None convertedAmount None None
    None [] None None.

(** [Math.pow] on the two exponents the one-year scenario meets. *)
Definition pow01 (x y : float) : float :=
  if PrimFloat.eqb y 0 then 1%float
  else if PrimFloat.eqb y 1 then x else PrimFloat.nan.

Definition oneYear : Z := 365 * 24 * 60 * 60 * 1000.

Definition fund : Investment :=
  mkInvestment alice 1000 1100
    [mkInvestmentTransaction buy (jan31 2023) 10 100 1000] inv_active.

End Scenario.

(** ** The calendar, as the schedule meets it *)

(** Month arithmetic on (year, month) pairs, and the equality test of
    civil dates. *)
Module Calendar.

(** The month [k] months after month [ym.2] (1..12) of year [ym.1], as
    [MakeDay] normalises a month index. *)
Definition add_months (k : Z) (ym : Z * Z) : Z * Z :=
  (ym.1 + (ym.2 - 1 + k) / 12, (ym.2 - 1 + k) mod 12 + 1).

(** Day number of the first day of a month. *)
Definition month_start (ym : Z * Z) : Z := JSDate.days_from_civil ym.1 ym.2 1.

Definition month_length (ym : Z * Z) : Z :=
  month_start (add_months 1 ym) - month_start ym.

Definition civil_eqb (a b : Z * Z * Z) : bool :=
  (a.1.1 =? b.1.1) && (a.1.2 =? b.1.2) && (a.2 =? b.2).

(** The Gregorian calendar as it is written down: leap years, and the
    days of month [month] (1..12) of [year]. *)
Definition isLeapYear (year : Z) : bool :=
  (year mod 4 =? 0) && (negb (year mod 100 =? 0) || (year mod 400 =? 0)).

Definition daysInMonth (year month : Z) : Z :=
  if month =? 2 then (if isLeapYear year then 29 else 28)
  else if (month =? 4) || (month =? 6) || (month =? 9) || (month =? 11) then 30
  else 31.

(** The calendar month after month [ym.2] (1..12) of year [ym.1]. *)
Definition monthAfter (ym : Z * Z) : Z * Z :=
  if ym.2 =? 12 then (ym.1 + 1, 1) else (ym.1, ym.2 + 1).

End Calendar.

(** ** Sorting, as the queries' [sort] clauses order their results *)

Module MongoSort.

(** Insertion into a list ordered by ascending [key]; among equal keys
    the new element goes last.  MongoDB leaves the order of equal keys
    open; the embedding fixes this one. *)
Fixpoint insert_by {A : Type} (key : A -> Z) (x : A) (l : list A) : list A :=
  match l with
  | [] => [x]
  | y :: l' => if key x <? key y then x :: l else y :: insert_by key x l'
  end.

(** [.sort({ key: 1 })]. *)
Definition ascending {A : Type} (key : A -> Z) (l : list A) : list A :=
  fold_right (insert_by key) [] l.

(** [.sort({ key: -1 })]. *)
Definition descending {A : Type} (key : A -> Z) (l : list A) : list A :=
  ascending (fun x => - key x) l.

End MongoSort.

(** ** recurringController: the other handlers *)

Inductive RecurringResponse :=
| RecurringCreated (id : ObjectId) (data : RecurringTransaction)   (* 201 *)
| RecurringOk (data : RecurringTransaction)                        (* 200 *)
| RecurringDeleted                                                 (* 200 *)
| RecurringNotFound                                                (* 404 *)
| RecurringThrown (err : Exception).                               (* next(err) *)

(** [exports.createRecurringTransaction]. *)
Definition createRecurringTransaction (user : ObjectId) (now : Z)
    (body : RecurringBody) (st : Store) : RecurringResponse * Store :=
  (* Calculate initial next run date *)
  let startDate :=
    match rb_startDate body with
    | Some d => if DateInput.truthy d then DateInput.toDate d else Some now
    | None => Some now
    end in
  match RecurringSchema.cast user startDate now body with
  | Some doc =>
      if RecurringSchema.validate doc then
        let id := fresh (dom (recurrings st)) in
        (RecurringCreated id doc, set_recurrings (insert id doc) st)
      else (RecurringThrown ValidationError, st)
  | None => (RecurringThrown ValidationError, st)
  end.

(** The document after [recurring.isPaused = !recurring.isPaused] and
    [save()]. *)
Definition toggled (now : Z) (recurring : RecurringTransaction)
    : RecurringTransaction :=
  mkRecurring (rec_userId recurring) (rec_name recurring) (rec_type recurring)
    (rec_fromAccount recurring) (rec_toAccount recurring) (rec_amount recurring)
    (rec_category recurring) (rec_paymentMode recurring) (rec_note recurring)
    (rec_frequency recurring) (rec_dayOfMonth recurring) (rec_dayOfWeek recurring)
    (rec_startDate recurring) (rec_endDate recurring) (rec_nextRunDate recurring)
    (rec_lastRunDate recurring) (rec_isActive recurring)
    (negb (rec_isPaused recurring))
    (rec_totalExecutions recurring) (rec_maxExecutions recurring)
    (rec_tags recurring) now.

(** [exports.togglePause]; [save()] validates the whole document. *)
Definition togglePause (user id : ObjectId) (now : Z) (st : Store)
    : RecurringResponse * Store :=
  match RecurringModel.findOne id user st with
  | None => (RecurringNotFound, st)
  | Some recurring =>
      let recurring := toggled now recurring in
      if RecurringSchema.validate recurring then
        (RecurringOk recurring, set_recurrings (insert id recurring) st)
      else (RecurringThrown ValidationError, st)
  end.

(** [exports.deleteRecurringTransaction]. *)
Definition deleteRecurringTransaction (user id : ObjectId) (st : Store)
    : RecurringResponse * Store :=
  match RecurringModel.findOne id user st with
  | None => (RecurringNotFound, st)
  | Some recurring => (RecurringDeleted, set_recurrings (delete id) st)
  end.

(** The [days] query parameter: left out, a string from which [parseInt]
    reads an integer, or one from which it reads NaN. *)
Inductive DaysParam := DaysDefault | DaysInt (n : Z) | DaysNaN.

(** [parseInt(days)], with the default 30 of the destructuring; [None]
    is NaN. *)
Definition parseInt_days (days : DaysParam) : option Z :=
  match days with
  | DaysDefault => Some 30
  | DaysInt n => Some n
  | DaysNaN => None
  end.

(** The filter of [exports.getUpcoming]. *)
Definition isUpcoming (user : ObjectId) (futureDate : Z)
    (item : ObjectId * RecurringTransaction) : bool :=
  Nat.eqb (rec_userId item.2) user
  && rec_isActive item.2 && negb (rec_isPaused item.2)
  && (rec_nextRunDate item.2 <=? futureDate).

(** [item.nextRunDate.toISOString().split('T')[0]]: the date of the run,
    as year, month (1..12) and day. *)
Definition dateKey (item : ObjectId * RecurringTransaction) : Z * Z * Z :=
  JSDate.civil_from_days (JSDate.Day (rec_nextRunDate item.2)).

(** [grouped[dateKey].push(item)] on the groups so far, kept in the order
    their keys were first seen. *)
Fixpoint pushGrouped (key : Z * Z * Z) (item : ObjectId * RecurringTransaction)
    (grouped : list (Z * Z * Z * list (ObjectId * RecurringTransaction)))
    : list (Z * Z * Z * list (ObjectId * RecurringTransaction)) :=
  match grouped with
  | [] => [(key, [item])]
  | (k, items) :: rest =>
      if Calendar.civil_eqb k key then (k, items ++ [item]) :: rest
      else (k, items) :: pushGrouped key item rest
  end.

(** [exports.getUpcoming] at the instant [now]: the definitions found,
    sorted by nextRunDate, and the same grouped by date.  When
    [futureDate] is an Invalid Date the query does not cast and the
    handler passes the error on: [None]. *)
Definition getUpcoming (user : ObjectId) (days : DaysParam) (now : Z) (st : Store)
    : option (list (ObjectId * RecurringTransaction)
              * list (Z * Z * Z * list (ObjectId * RecurringTransaction))) :=
  futureDate ← (days ← parseInt_days days;
                JSDate.setDate now (JSDate.getDate now + days));
  let upcoming :=
    MongoSort.ascending (fun item => rec_nextRunDate item.2)
      (List.filter (isUpcoming user futureDate) (map_to_list (recurrings st))) in
  Some (upcoming,
        fold_left (fun grouped item => pushGrouped (dateKey item) item grouped)
          upcoming []).

(** ** transactionController.getTransaction *)

(** The transaction, if it is the caller's, with its modification
    history, newest first. *)
Definition getTransaction (user id : ObjectId) (st : Store)
    : option (Transaction * list TransactionLog) :=
  match TransactionModel.findOne id user st with
  | None => None
  | Some transaction =>
      Some (transaction,
            MongoSort.descending log_modifiedAt
              (List.filter (fun log => Nat.eqb (log_transactionId log) id)
                 (transactionLogs st)))
  end.

(** ** accountController: trash, restore and permanent delete *)

Inductive AccountResponse :=
| AccountOk (data : option Account)       (* 200, with the document if sent *)
| AccountBadRequest (message : string)    (* 400 *)
| AccountNotFound                         (* 404 *)
| AccountThrown (err : Exception).        (* next(err) *)

Module AccountSchema.

(** The validators [save()] runs on a stored account: the two required
    strings and the minimum of the balance, which [$inc] bypasses, so
    that a stored balance may be negative.  (The remaining paths of the
    schema, description, currency, colour and icon, are not part of the
    [Account] record; [status] is in its enum by type and [deletedAt]
    has no validator.) *)
Definition validate (a : Account) : bool :=
  negb (JSString.is_empty (acc_accountType a))
  && negb (JSString.is_empty (acc_accountName a))
  && PrimFloat.leb 0 (acc_balance a).

End AccountSchema.

(** [account.isDeleted = isDeleted; account.deletedAt = deletedAt]. *)
Definition set_isDeleted (isDeleted : bool) (deletedAt : option Z) (a : Account)
    : Account :=
  mkAccount (acc_userId a) (acc_accountType a) (acc_accountName a)
            (acc_balance a) (acc_status a) isDeleted deletedAt.

(** [exports.softDeleteAccount], at the instant [now]. *)
Definition softDeleteAccount (user id : ObjectId) (now : Z) (st : Store)
    : AccountResponse * Store :=
  match AccountModel.findOne id user st with
  | None => (AccountNotFound, st)
  | Some account =>
      (* Check if already deleted *)
      if acc_isDeleted account then
        (AccountBadRequest "Account is already deleted", st)
      (* Check if account has balance *)
      else if PrimFloat.ltb 0 (acc_balance account) then
        (AccountBadRequest
           "Cannot delete account with balance. Please transfer the funds first.",
         st)
      else
        (* Perform soft delete *)
        let account := set_isDeleted true (Some now) account in
        if AccountSchema.validate account then
          (AccountOk (Some account), set_accounts (insert id account) st)
        else (AccountThrown ValidationError, st)
  end.

(** [exports.restoreAccount]. *)
Definition restoreAccount (user id : ObjectId) (st : Store)
    : AccountResponse * Store :=
  match AccountModel.findOne id user st with
  | None => (AccountNotFound, st)
  | Some account =>
      if negb (acc_isDeleted account) then
        (AccountBadRequest "Account is not deleted", st)
      else
        (* Restore account *)
        let account := set_isDeleted false None account in
        if AccountSchema.validate account then
          (AccountOk (Some account), set_accounts (insert id account) st)
        else (AccountThrown ValidationError, st)
  end.

(** [exports.permanentDeleteAccount]. *)
Definition permanentDeleteAccount (user id : ObjectId) (st : Store)
    : AccountResponse * Store :=
  match AccountModel.findOne id user st with
  | None => (AccountNotFound, st)
  | Some account =>
      (* Check if account has balance *)
      if PrimFloat.ltb 0 (acc_balance account) then
        (AccountBadRequest
           "Cannot permanently delete account with balance. Please transfer the funds first.",
         st)
      else
        (* Permanently delete account *)
        (AccountOk None, set_accounts (delete id) st)
  end.

(** ** Further scenarios *)

Module Cases.

Definition bob : ObjectId := 2%nat.

(** An expense request that names no source account. *)
Definition unsourced : TransactionBody :=
  mkTransactionBody (Some expense) None None (Some 100%float)
    (Some "Misc"%string) None None None None None None None [] None None.

(** A request for a monthly definition from 31 January 2023 on, whose
    body also carries an owner and a next run date of its own. *)
Definition lease : RecurringBody :=
  mkRecurringBody (Some bob) (Some "Rent"%string) (Some expense)
    (Some Scenario.checking) None (Some 100%float) (Some "Housing"%string)
    None None (Some monthly) (Some 31) None
    (Some (DateString (Scenario.jan31 2023))) None
    (Some 0) None None None None None [].

(** The ledger after the income entry was amended twice, at noon on 1
    and on 2 February 2023. *)
Definition amended : Store :=
  (updateTransaction Scenario.alice 0%nat (Scenario.noon 2023 1 2)
     (Scenario.amend None (Some "salary"%string) (Some "wording"%string))
     (updateTransaction Scenario.alice 0%nat (Scenario.noon 2023 1 1)
        (Scenario.amend None (Some "corrected"%string) (Some "typo"%string))
        (Scenario.ledger income)).2).2.

(** A holding that was never traded. *)
Definition untouched : Investment :=
  mkInvestment Scenario.alice 1000 1100 [] inv_active.

(** [checking] after the rent of 100 was executed on its 50. *)
Definition overdrawn : Store :=
  (executeNow Scenario.alice Scenario.rent (Scenario.noon 2023 0 31)
     Scenario.poor).2.

(** The dormant store with its empty [checking] account in the trash. *)
Definition trashed : Store :=
  (softDeleteAccount Scenario.alice Scenario.checking
     (Scenario.noon 2023 0 31) Scenario.dormant).2.

(** A definition within its schema, whose note of 488 characters grows
    beyond the 500 of the Transaction schema once [[Auto: Rent] ] is put
    before it. *)
Definition wordy : RecurringTransaction :=
  mkRecurring Scenario.alice "Rent" expense (Some Scenario.checking) None 100
    "Housing" "bank_transfer" (Some (Scenario.repeat_char "x" 488)) monthly
    (Some 31) None (Scenario.jan31 2023) None (Scenario.jan31 2023)
    None true false 0 None [] (Scenario.jan31 2023).

Definition verbose : Store :=
  mkStore (<[Scenario.checking := Scenario.account 1000]> ∅) ∅ [] []
          (<[Scenario.rent := wordy]> ∅).

(** A daily definition due at the last instant a Date can hold. *)
Definition last : RecurringTransaction :=
  mkRecurring Scenario.alice "Rent" expense (Some Scenario.checking) None 100
    "Housing" "bank_transfer" None daily (Some 1) None 0 None JSDate.maxTime
    None true false 0 None [] 0.

Definition final : Store :=
  mkStore (<[Scenario.checking := Scenario.account 1000]> ∅) ∅ [] []
          (<[Scenario.rent := last]> ∅).

(** The lease with the number 0 for its start date. *)
Definition epoch_lease : RecurringBody :=
  mkRecurringBody (Some bob) (Some "Rent"%string) (Some expense)
    (Some Scenario.checking) None (Some 100%float) (Some "Housing"%string)
    None None (Some monthly) (Some 31) None (Some (DateNumber 0)) None
    None None None None None None [].

(** An income of 100 into [checking]. *)
Definition refund : TransactionBody :=
  mkTransactionBody (Some income) None (Some Scenario.checking)
    (Some 100%float) (Some "Misc"%string) None None None None None None None []
    None None.

End Cases.

(** * Verification *)

(** ** Numbers: subtracting is adding the opposite *)

Lemma SFsub_add_opp prec emax x y :
  SpecFloat.SFsub prec emax x y = SpecFloat.SFadd prec emax x (SpecFloat.SFopp y).
Proof. destruct x as [[]|[]| |[] ? ?], y as [[]|[]| |[] ? ?]; reflexivity. Qed.

Lemma float_sub_add_opp (x y : float) : (x - y = x + - y)%float.
Proof.
  apply Prim2SF_inj. rewrite sub_spec, add_spec, opp_spec. apply SFsub_add_opp.
Qed.

(** ** The store: lookups after the model's updates *)

Section StoreFacts.

Implicit Types (st : Store) (accs : gmap ObjectId Account).

Lemma inc_lookup_same accs i x :
  AccountModel.inc (Some i) x accs !! i = AccountModel.add_balance x <$> accs !! i.
Proof. unfold AccountModel.inc. apply lookup_alter_eq. Qed.

Lemma inc_lookup_other accs i j x :
  i <> j -> AccountModel.inc (Some i) x accs !! j = accs !! j.
Proof. intros Hij. unfold AccountModel.inc. by apply lookup_alter_ne. Qed.

Lemma inc_none accs x : AccountModel.inc None x accs = accs.
Proof. reflexivity. Qed.

Lemma add_balance_balance x a :
  acc_balance (AccountModel.add_balance x a) = (acc_balance a + x)%float.
Proof. reflexivity. Qed.

(** The balances after an [$inc] by [x], and by [- x], account by
    account. *)
Lemma inc_credited accs account x j :
  acc_balance <$> AccountModel.inc account x accs !! j
  = credited account x j <$> (acc_balance <$> accs !! j).
Proof.
  unfold credited, AccountModel.inc. destruct account as [i|].
  - case_decide as Hij.
    + injection Hij as ->. rewrite lookup_alter_eq. by destruct (accs !! j).
    + rewrite lookup_alter_ne by congruence. by destruct (accs !! j).
  - case_decide; [done|]. by destruct (accs !! j).
Qed.

Lemma inc_debited accs account x j :
  acc_balance <$> AccountModel.inc account (- x)%float accs !! j
  = debited account x j <$> (acc_balance <$> accs !! j).
Proof.
  rewrite inc_credited. unfold credited, debited.
  destruct (decide (account = Some j)); [|done].
  destruct (accs !! j); simpl; [|done]. by rewrite float_sub_add_opp.
Qed.



(** [create] writes one document under an id the ledger did not hold. *)
Lemma create_inv user now body st id st1 :
  TransactionModel.create user now body st = Some (id, st1) ->
  exists doc,
    TransactionModel.cast user now body = Some doc
    /\ TransactionModel.validate doc = true
    /\ transactions st !! id = None
    /\ st1 = set_transactions (insert id doc) st.
Proof.
  unfold TransactionModel.create.
  destruct (TransactionModel.cast user now body) as [doc|]; [|discriminate].
  destruct (TransactionModel.validate doc) eqn:Hv; [|discriminate].
  intros [= <- <-]. exists doc. repeat split; try done.
  apply not_elem_of_dom, is_fresh.
Qed.

(** Deleting the document just created restores the store. *)
Lemma create_then_delete user now body st id st1 :
  TransactionModel.create user now body st = Some (id, st1) ->
  TransactionModel.findByIdAndDelete id st1 = st.
Proof.
  intros (doc & _ & _ & Hfresh & ->)%create_inv.
  destruct st as [accs txs logs buds recs]; simpl in *.
  unfold TransactionModel.findByIdAndDelete, set_transactions; simpl.
  f_equal. by apply delete_insert_id.
Qed.

Lemma create_accounts user now body st id st1 :
  TransactionModel.create user now body st = Some (id, st1) ->
  accounts st1 = accounts st.
Proof. by intros (doc & _ & _ & _ & ->)%create_inv. Qed.

(** A definition always casts to its [materialized] document. *)
Lemma create_transactionData user now recurring st :
  TransactionModel.create user now (transactionData now recurring) st
  = if TransactionModel.validate (materialized user now recurring)
    then let id := fresh (dom (transactions st)) in
         Some (id, set_transactions (insert id (materialized user now recurring)) st)
    else None.
Proof. reflexivity. Qed.

End StoreFacts.

(** ** The calendar *)

Lemma civil_eqb_eq a b : Calendar.civil_eqb a b = true -> a = b.
Proof.
  destruct a as [[a1 a2] a3], b as [[b1 b2] b3]. unfold Calendar.civil_eqb. simpl.
  rewrite !andb_true_iff, !Z.eqb_eq. by intros [[-> ->] ->].
Qed.

(** The conversions between day numbers and civil dates are integer
    arithmetic with divisions by constants; their properties are proved
    step by step: era, year of the era, day of the year, month. *)

Ltac split_tests :=
  repeat match goal with
         | H : context [?a <=? ?b] |- _ => destruct (Z.leb_spec a b)
         | H : context [?a >? ?b] |- _ => rewrite (Z.gtb_ltb a b) in H
         | H : context [?a <? ?b] |- _ => destruct (Z.ltb_spec a b)
         | |- context [?a <=? ?b] => destruct (Z.leb_spec a b)
         | |- context [?a >? ?b] => rewrite (Z.gtb_ltb a b)
         | |- context [?a <? ?b] => destruct (Z.ltb_spec a b)
         end.

(** Tests on closed terms are evaluated. *)
Ltac decide_tests :=
  repeat match goal with
         | |- context [?a <=? ?b] =>
             let v := eval vm_compute in (a <=? b) in
             lazymatch v with
             | true => change (a <=? b) with true
             | false => change (a <=? b) with false
             end
         | |- context [?a >? ?b] =>
             let v := eval vm_compute in (a >? b) in
             lazymatch v with
             | true => change (a >? b) with true
             | false => change (a >? b) with false
             end
         end;
  cbv iota.

Ltac divisions := Z.to_euclidean_division_equations; lia.

Lemma era_of_doe era doe :
  0 <= doe < 146097 -> (era * 146097 + doe) / 146097 = era.
Proof. intros H. symmetry. apply (Z.div_unique _ _ era doe); lia. Qed.

Lemma yoe_of_doe yoe doy :
  0 <= yoe <= 399 -> 0 <= doy <= 365 ->
  (yoe < 399 ->
   yoe * 365 + yoe / 4 - yoe / 100 + doy
   < (yoe + 1) * 365 + (yoe + 1) / 4 - (yoe + 1) / 100) ->
  (yoe * 365 + yoe / 4 - yoe / 100 + doy
   - (yoe * 365 + yoe / 4 - yoe / 100 + doy) / 1460
   + (yoe * 365 + yoe / 4 - yoe / 100 + doy) / 36524
   - (yoe * 365 + yoe / 4 - yoe / 100 + doy) / 146096) / 365 = yoe.
Proof. intros Hy Hd Hlt. divisions. Qed.

Lemma mp_of_doy mp doy :
  0 <= mp <= 11 ->
  (153 * mp + 2) / 5 <= doy < (153 * (mp + 1) + 2) / 5 ->
  (5 * doy + 2) / 153 = mp.
Proof. intros Hm Hd. divisions. Qed.

Lemma month_cases m :
  1 <= m <= 12 ->
  m = 1 \/ m = 2 \/ m = 3 \/ m = 4 \/ m = 5 \/ m = 6 \/ m = 7
  \/ m = 8 \/ m = 9 \/ m = 10 \/ m = 11 \/ m = 12.
Proof. lia. Qed.

(** What the start of the next month says about a date, in the terms of
    the conversion: year of the era, month from March, day of the year. *)
Lemma next_month_bound y m d :
  1 <= m <= 12 -> 1 <= d ->
  JSDate.days_from_civil y m d
  < Calendar.month_start (Calendar.add_months 1 (y, m)) ->
  let y' := if m <=? 2 then y - 1 else y in
  let yoe := y' - y' / 400 * 400 in
  let mp := if m >? 2 then m - 3 else m + 9 in
  let doy := (153 * mp + 2) / 5 + d - 1 in
  doy < (153 * (mp + 1) + 2) / 5
  /\ doy <= 365
  /\ (yoe < 399 ->
      yoe * 365 + yoe / 4 - yoe / 100 + doy
      < (yoe + 1) * 365 + (yoe + 1) / 4 - (yoe + 1) / 100).
Proof.
  intros Hm Hd.
  unfold Calendar.month_start, Calendar.add_months, JSDate.days_from_civil.
  cbv zeta. cbn [fst snd]. replace (m - 1 + 1) with m by ring.
  pose proof (month_cases m Hm) as Hcases.
  repeat destruct Hcases as [->|Hcases]; try subst m.
  all: decide_tests; intros Hnext; divisions.
Qed.

(** A date of the calendar is read back from its day number. *)
Lemma civil_of_days y m d :
  1 <= m <= 12 -> 1 <= d ->
  JSDate.days_from_civil y m d
  < Calendar.month_start (Calendar.add_months 1 (y, m)) ->
  JSDate.civil_from_days (JSDate.days_from_civil y m d) = (y, m, d).
Proof.
  intros Hm Hd Hnext.
  pose proof (next_month_bound y m d Hm Hd Hnext) as Hbound.
  cbv zeta in Hbound. clear Hnext.
  unfold JSDate.days_from_civil, JSDate.civil_from_days. cbv zeta.
  set (y' := if m <=? 2 then y - 1 else y) in *.
  set (mp := if m >? 2 then m - 3 else m + 9) in *.
  set (era := y' / 400) in *.
  set (yoe := y' - era * 400) in *.
  set (doy := (153 * mp + 2) / 5 + d - 1) in *.
  assert (Hyoe : 0 <= yoe <= 399) by (subst yoe era; divisions).
  assert (Hmp : 0 <= mp <= 11) by (subst mp; destruct (Z.gtb_spec m 2); lia).
  assert (Hdoy : 0 <= doy) by (subst doy; divisions).
  destruct Hbound as (Hmonth & Hyear & Hleap).
  set (doe := yoe * 365 + yoe / 4 - yoe / 100 + doy) in *.
  assert (Hdoe : 0 <= doe < 146097) by (subst doe; divisions).
  replace (era * 146097 + doe - 719468 + 719468) with (era * 146097 + doe) by ring.
  rewrite (era_of_doe era doe Hdoe).
  replace (era * 146097 + doe - era * 146097) with doe by ring.
  assert (Hy : (doe - doe / 1460 + doe / 36524 - doe / 146096) / 365 = yoe)
    by (apply yoe_of_doe; lia).
  rewrite Hy.
  replace (doe - (365 * yoe + yoe / 4 - yoe / 100)) with doy by (subst doe; ring).
  assert (Hp : (5 * doy + 2) / 153 = mp) by (apply mp_of_doy; subst doy; lia).
  rewrite Hp.
  replace (doy - (153 * mp + 2) / 5 + 1) with d by (subst doy; ring).
  assert (Hmonth' : (if mp <? 10 then mp + 3 else mp - 9) = m).
  { subst mp. destruct (Z.gtb_spec m 2);
      match goal with |- context [?a <? ?b] => destruct (Z.ltb_spec a b) end; lia. }
  rewrite Hmonth'.
  replace (yoe + era * 400) with y' by (subst yoe; ring).
  subst y'. destruct (m <=? 2); f_equal; f_equal; ring.
Qed.

(** The civil date of a day number is a date of the calendar, and its day
    number is the one it was read from. *)
Lemma days_of_civil z :
  JSDate.days_from_civil (JSDate.civil_from_days z).1.1
    (JSDate.civil_from_days z).1.2 (JSDate.civil_from_days z).2 = z
  /\ 1 <= (JSDate.civil_from_days z).1.2 <= 12
  /\ 1 <= (JSDate.civil_from_days z).2 <= 31.
Proof.
  unfold JSDate.civil_from_days, JSDate.days_from_civil. cbv zeta. cbn [fst snd].
  split_tests.
  all: divisions.
Qed.

Lemma month_lengths y m :
  1 <= m <= 12 ->
  28 <= Calendar.month_length (y, m) <= 31
  /\ Calendar.month_start (y, m) < Calendar.month_start (Calendar.add_months 3 (y, m))
  /\ Calendar.month_start (y, m) < Calendar.month_start (y + 1, m).
Proof.
  intros Hm.
  unfold Calendar.month_length, Calendar.month_start, Calendar.add_months,
    JSDate.days_from_civil.
  cbv zeta. cbn [fst snd].
  pose proof (month_cases m Hm) as Hcases.
  repeat destruct Hcases as [->|Hcases]; try subst m.
  all: decide_tests; divisions.
Qed.

Lemma days_linear y m d :
  JSDate.days_from_civil y m d = Calendar.month_start (y, m) + d - 1.
Proof. unfold Calendar.month_start, JSDate.days_from_civil. simpl. ring. Qed.

(** Every month starts on a day read as its first, is 28 to 31 days long,
    and starts before the months three months and one year later. *)
Lemma civil_month y m :
  1 <= m <= 12 ->
  JSDate.civil_from_days (Calendar.month_start (y, m)) = (y, m, 1)
  /\ 28 <= Calendar.month_length (y, m) <= 31
  /\ Calendar.month_start (y, m) < Calendar.month_start (Calendar.add_months 3 (y, m))
  /\ Calendar.month_start (y, m) < Calendar.month_start (y + 1, m).
Proof.
  intros Hm. split; [|by apply month_lengths].
  destruct (month_lengths y m Hm) as [Hlength _].
  unfold Calendar.month_length in Hlength.
  apply civil_of_days; [done | lia |]. rewrite days_linear. lia.
Qed.

Lemma add_months_range k ym :
  1 <= (Calendar.add_months k ym).2 <= 12.
Proof.
  unfold Calendar.add_months. simpl.
  pose proof (Z.mod_pos_bound (ym.2 - 1 + k) 12 ltac:(lia)). lia.
Qed.

Lemma add_months_0 y m : 1 <= m <= 12 -> Calendar.add_months 0 (y, m) = (y, m).
Proof.
  intros Hm. unfold Calendar.add_months. simpl.
  rewrite Z.add_0_r, Z.div_small, Z.mod_small by lia. f_equal; lia.
Qed.

Lemma add_months_1 y m :
  1 <= m <= 12 ->
  Calendar.add_months 1 (y, m) = if m =? 12 then (y + 1, 1) else (y, m + 1).
Proof.
  intros Hm. unfold Calendar.add_months. simpl.
  destruct (Z.eqb_spec m 12) as [->|Hne]; [reflexivity|].
  rewrite Z.div_small, Z.mod_small by lia. f_equal; lia.
Qed.

Lemma month_length_start ym :
  Calendar.month_start (Calendar.add_months 1 ym)
  = Calendar.month_start ym + Calendar.month_length ym.
Proof. unfold Calendar.month_length. ring. Qed.

(** The days of a month are read as that month, day by day. *)
Lemma civil_within y m c :
  1 <= m <= 12 -> 1 <= c <= Calendar.month_length (y, m) ->
  JSDate.civil_from_days (Calendar.month_start (y, m) + c - 1) = (y, m, c).
Proof.
  intros Hm [Hc1 Hc2]. rewrite <- days_linear.
  apply civil_of_days; [done..|].
  rewrite days_linear, month_length_start. lia.
Qed.

(** A day number read as day [d] of a month lies [d - 1] days after the
    start of that month, and within it. *)
Lemma civil_position z y m d :
  JSDate.civil_from_days z = (y, m, d) ->
  z = Calendar.month_start (y, m) + d - 1
  /\ 1 <= m <= 12 /\ 1 <= d <= Calendar.month_length (y, m).
Proof.
  intros Hc. pose proof (days_of_civil z) as (Hrt & Hm & Hd).
  rewrite Hc in Hrt, Hm, Hd. cbn [fst snd] in Hrt, Hm, Hd.
  rewrite days_linear in Hrt.
  split; [lia|]. split; [exact Hm|]. split; [lia|].
  destruct (Z.le_gt_cases d (Calendar.month_length (y, m))) as [|Hover]; [done|].
  exfalso.
  (* otherwise [z] is one of the first days of the next month *)
  pose proof (month_lengths y m Hm) as [Hlen _].
  pose proof (add_months_1 y m Hm) as Hnext.
  pose proof (add_months_range 1 (y, m)) as Hrange.
  pose proof (month_length_start (y, m)) as Hstart.
  destruct (Calendar.add_months 1 (y, m)) as [y1 m1]. cbn [snd] in Hrange.
  pose proof (month_lengths y1 m1 Hrange) as [Hlen1 _].
  pose proof (civil_within y1 m1 (d - Calendar.month_length (y, m)) Hrange
                ltac:(lia)) as Hread.
  replace (Calendar.month_start (y1, m1) + (d - Calendar.month_length (y, m)) - 1)
    with z in Hread by lia.
  rewrite Hc in Hread. injection Hread as Hy1 Hm1 _.
  destruct (Z.eqb_spec m 12); injection Hnext as _ Hm1'; lia.
Qed.

(** ** Dates *)

Section TimeValues.

Variable t : Z.

Lemma time_split :
  t = JSDate.MakeDate (JSDate.Day t) (JSDate.TimeWithinDay t)
  /\ 0 <= JSDate.TimeWithinDay t < JSDate.msPerDay.
Proof.
  unfold JSDate.MakeDate, JSDate.Day, JSDate.TimeWithinDay, JSDate.msPerDay.
  pose proof (Z.div_mod t 86400000 ltac:(lia)).
  pose proof (Z.mod_pos_bound t 86400000 ltac:(lia)). lia.
Qed.

Lemma Day_MakeDate z w :
  0 <= w < JSDate.msPerDay ->
  JSDate.Day (JSDate.MakeDate z w) = z
  /\ JSDate.TimeWithinDay (JSDate.MakeDate z w) = w.
Proof.
  unfold JSDate.MakeDate, JSDate.Day, JSDate.TimeWithinDay, JSDate.msPerDay.
  intros Hw. split.
  - symmetry. apply (Z.div_unique _ 86400000 z w); lia.
  - symmetry. apply (Z.mod_unique _ 86400000 z w); lia.
Qed.

Lemma MakeDate_lt z1 z2 w :
  z1 < z2 -> 0 <= w < JSDate.msPerDay ->
  JSDate.MakeDate z1 w < JSDate.MakeDate z2 w.
Proof. unfold JSDate.MakeDate, JSDate.msPerDay. lia. Qed.

End TimeValues.

Lemma MakeDay_add_months y m k d :
  JSDate.MakeDay y (m - 1 + k) d
  = Calendar.month_start (Calendar.add_months k (y, m)) + d - 1.
Proof. reflexivity. Qed.

Section CalendarFields.

Variables (t y m d : Z).
Hypothesis Hcivil : JSDate.civil_from_days (JSDate.Day t) = (y, m, d).

Lemma fields :
  JSDate.getFullYear t = y /\ JSDate.getMonth t = m - 1 /\ JSDate.getDate t = d.
Proof.
  unfold JSDate.getFullYear, JSDate.getMonth, JSDate.getDate,
    JSDate.YearFromTime, JSDate.MonthFromTime, JSDate.DateFromTime.
  by rewrite Hcivil.
Qed.

Lemma setDate_civil c :
  JSDate.setDate_time t c
  = JSDate.MakeDate (Calendar.month_start (y, m) + c - 1) (JSDate.TimeWithinDay t).
Proof.
  destruct (civil_position _ _ _ _ Hcivil) as (_ & Hm & _).
  unfold JSDate.setDate_time, JSDate.YearFromTime, JSDate.MonthFromTime.
  rewrite Hcivil. cbn [fst snd].
  replace (m - 1) with (m - 1 + 0) by ring.
  by rewrite MakeDay_add_months, add_months_0.
Qed.

Lemma setDate_days c :
  JSDate.setDate_time t c = t + (c - d) * JSDate.msPerDay.
Proof.
  rewrite setDate_civil.
  destruct (civil_position _ _ _ _ Hcivil) as (Hz & _).
  destruct (time_split t) as [Ht _]. rewrite Ht at 2. rewrite Hz.
  unfold JSDate.MakeDate. ring.
Qed.

Lemma setMonth_civil k :
  JSDate.setMonth_time t (JSDate.getMonth t + k)
  = JSDate.MakeDate (Calendar.month_start (Calendar.add_months k (y, m)) + d - 1)
      (JSDate.TimeWithinDay t).
Proof.
  unfold JSDate.setMonth_time, JSDate.getMonth, JSDate.YearFromTime,
    JSDate.MonthFromTime, JSDate.DateFromTime.
  rewrite Hcivil. cbn [fst snd]. by rewrite MakeDay_add_months.
Qed.

Lemma setFullYear_civil :
  JSDate.setFullYear_time t (JSDate.getFullYear t + 1)
  = JSDate.MakeDate (Calendar.month_start (y + 1, m) + d - 1)
      (JSDate.TimeWithinDay t).
Proof.
  destruct (civil_position _ _ _ _ Hcivil) as (_ & Hm & _).
  unfold JSDate.setFullYear_time, JSDate.getFullYear, JSDate.YearFromTime,
    JSDate.MonthFromTime, JSDate.DateFromTime.
  rewrite Hcivil. cbn [fst snd].
  replace (m - 1) with (m - 1 + 0) by ring.
  by rewrite MakeDay_add_months, add_months_0.
Qed.

End CalendarFields.

(** The validity of a Date, and the range of its year. *)
Lemma TimeClip_Some time t :
  JSDate.TimeClip time = Some t <->
  time = t /\ - JSDate.maxTime <= t <= JSDate.maxTime.
Proof.
  unfold JSDate.TimeClip.
  destruct (Z.leb_spec (- JSDate.maxTime) time), (Z.leb_spec time JSDate.maxTime);
    simpl; split; try discriminate; try (intros [= <-]; lia);
    try (intros [<- ?]; first [reflexivity | lia]).
Qed.

(** The length of a month as [calculateNextRunDate] computes it is the
    number of days between its start and the next month's, in the year
    that [new Date] reads. *)
Lemma last_day_length y m t :
  1 <= m <= 12 ->
  JSDate.newDate y (m - 1 + 1) 0 = Some t ->
  JSDate.getDate t = Calendar.month_length (JSDate.MakeFullYear y, m).
Proof.
  intros Hm [<- _]%TimeClip_Some.
  unfold JSDate.getDate, JSDate.DateFromTime.
  destruct (Day_MakeDate (JSDate.MakeDay (JSDate.MakeFullYear y) (m - 1 + 1) 0) 0)
    as [-> _]; [unfold JSDate.msPerDay; lia|].
  rewrite MakeDay_add_months, month_length_start.
  pose proof (civil_month (JSDate.MakeFullYear y) m Hm) as (_ & Hlen & _).
  replace (Calendar.month_start (JSDate.MakeFullYear y, m)
           + Calendar.month_length (JSDate.MakeFullYear y, m) + 0 - 1)
    with (Calendar.month_start (JSDate.MakeFullYear y, m)
          + Calendar.month_length (JSDate.MakeFullYear y, m) - 1) by ring.
  rewrite civil_within; [reflexivity | lia | lia].
Qed.

(** The lengths of the months are those of the Gregorian calendar. *)
Lemma month_length_daysInMonth y m :
  1 <= m <= 12 -> Calendar.month_length (y, m) = Calendar.daysInMonth y m.
Proof.
  intros Hm.
  unfold Calendar.month_length, Calendar.month_start, Calendar.add_months,
    JSDate.days_from_civil, Calendar.daysInMonth.
  cbv zeta. cbn [fst snd].
  pose proof (month_cases m Hm) as Hcases.
  repeat destruct Hcases as [->|Hcases]; try subst m.
  all: decide_tests.
  all: match goal with
       | |- _ = ?rhs => let v := eval cbn in rhs in change rhs with v
       end.
  all: try (unfold Calendar.isLeapYear;
            destruct (Z.eqb_spec (y mod 4) 0), (Z.eqb_spec (y mod 100) 0),
              (Z.eqb_spec (y mod 400) 0); cbn [andb orb negb]; cbv iota).
  all: divisions.
Qed.

(** Read in the year that [new Date] takes for it, a month is never
    longer than it is: of the years 0 to 99 only the year 0 is a leap
    year where 1900 later is none. *)
Lemma daysInMonth_MakeFullYear y m :
  Calendar.daysInMonth (JSDate.MakeFullYear y) m <= Calendar.daysInMonth y m.
Proof.
  unfold JSDate.MakeFullYear, Calendar.daysInMonth, Calendar.isLeapYear.
  destruct (Z.leb_spec 0 y), (Z.leb_spec y 99); cbn [andb]; try lia.
  destruct (m =? 2); [|lia].
  destruct (Z.eqb_spec ((1900 + y) mod 4) 0), (Z.eqb_spec ((1900 + y) mod 100) 0),
    (Z.eqb_spec ((1900 + y) mod 400) 0), (Z.eqb_spec (y mod 4) 0),
    (Z.eqb_spec (y mod 100) 0), (Z.eqb_spec (y mod 400) 0);
    cbn [andb orb negb]; cbv iota; try lia; divisions.
Qed.

Lemma monthAfter_add_months y m :
  1 <= m <= 12 -> Calendar.monthAfter (y, m) = Calendar.add_months 1 (y, m).
Proof. intros Hm. by rewrite add_months_1. Qed.

(** Where [setMonth(getMonth() + 1)] lands: on the same day of the next
    month when that month has such a day, and otherwise as many days into
    the month after it as the day exceeds the next month's length. *)
Lemma setMonth_next_civil t y m d :
  JSDate.civil_from_days (JSDate.Day t) = (y, m, d) ->
  let next := Calendar.add_months 1 (y, m) in
  JSDate.civil_from_days (JSDate.Day (JSDate.setMonth_time t (JSDate.getMonth t + 1)))
  = if d <=? Calendar.month_length next then (next, d)
    else (Calendar.add_months 1 next, d - Calendar.month_length next).
Proof.
  intros Hc next. subst next.
  rewrite (setMonth_civil _ _ _ _ Hc).
  destruct (time_split t) as [_ Hw].
  destruct (Day_MakeDate
              (Calendar.month_start (Calendar.add_months 1 (y, m)) + d - 1) _ Hw)
    as [-> _].
  destruct (civil_position _ _ _ _ Hc) as (_ & Hm & Hd).
  pose proof (civil_month y m Hm) as (_ & Hlen & _).
  pose proof (add_months_range 1 (y, m)) as Hn.
  destruct (Calendar.add_months 1 (y, m)) as [y1 m1] eqn:Hnext. cbn [snd] in Hn.
  pose proof (civil_month y1 m1 Hn) as (_ & Hlen1 & _).
  destruct (Z.leb_spec d (Calendar.month_length (y1, m1))).
  - apply civil_within; lia.
  - pose proof (add_months_range 1 (y1, m1)) as Hn2.
    destruct (Calendar.add_months 1 (y1, m1)) as [y2 m2] eqn:Hnext2. cbn [snd] in Hn2.
    pose proof (civil_month y2 m2 Hn2) as (_ & Hlen2 & _).
    pose proof (month_length_start (y1, m1)) as Hs. rewrite Hnext2 in Hs.
    replace (Calendar.month_start (y1, m1) + d - 1)
      with (Calendar.month_start (y2, m2) + (d - Calendar.month_length (y1, m1)) - 1)
      by lia.
    apply civil_within; lia.
Qed.

(** ** The schedule *)

(** C1.  A monthly definition with dayOfMonth 31 whose nextRunDate is
    31 January does not advance to the end of February: [setMonth] has
    already carried 31 February over into March (3 March, or 2 March in a
    leap year) when the clamp is computed, so the clamp takes the last day
    of March and the schedule lands on 31 March, in 2023 and in the leap
    year 2024 alike. *)
Theorem calculateNextRunDate_jan31_skips_february :
  calculateNextRunDate (Scenario.definition expense (Scenario.jan31 2023) None)
  = JSDate.newDate 2023 2 31
  /\ calculateNextRunDate (Scenario.definition expense (Scenario.jan31 2023) None)
     <> JSDate.newDate 2023 1 28
  /\ calculateNextRunDate (Scenario.definition expense (Scenario.jan31 2024) None)
     = JSDate.newDate 2024 2 31
  /\ calculateNextRunDate (Scenario.definition expense (Scenario.jan31 2024) None)
     <> JSDate.newDate 2024 1 29.
Proof. repeat split; vm_compute; congruence. Qed.

(** The intermediate date of the same computation: [setMonth] alone puts
    31 January 2023 on 3 March 2023. *)
Lemma setMonth_jan31_carries_over :
  JSDate.setMonth (Scenario.jan31 2023) (JSDate.getMonth (Scenario.jan31 2023) + 1)
  = JSDate.newDate 2023 2 3.
Proof. reflexivity. Qed.

(** From a day that exists in the next month the clamp works as meant:
    15 January with dayOfMonth 31 advances to 28 February. *)
Lemma calculateNextRunDate_jan15_clamps :
  calculateNextRunDate
    (Scenario.definition expense (Scenario.midnight 2023 0 15) None)
  = JSDate.newDate 2023 1 28.
Proof. reflexivity. Qed.

(** ** The schedule, for every date *)

Lemma setDate_plus_days t k :
  JSDate.setDate_time t (JSDate.getDate t + k) = t + k * JSDate.msPerDay.
Proof.
  destruct (JSDate.civil_from_days (JSDate.Day t)) as [[y m] d] eqn:Hc.
  destruct (fields _ _ _ _ Hc) as (_ & _ & ->).
  rewrite (setDate_days _ _ _ _ Hc). f_equal. ring.
Qed.

(** X1.  A daily, weekly or biweekly definition advances by exactly 1, 7
    or 14 days, whatever its nextRunDate; where that leaves the range of
    Date, the result is an Invalid Date. *)
Theorem calculateNextRunDate_fixed_period (r : RecurringTransaction) :
  match rec_frequency r with
  | daily =>
      calculateNextRunDate r
      = JSDate.TimeClip (rec_nextRunDate r + 1 * JSDate.msPerDay)
  | weekly =>
      calculateNextRunDate r
      = JSDate.TimeClip (rec_nextRunDate r + 7 * JSDate.msPerDay)
  | biweekly =>
      calculateNextRunDate r
      = JSDate.TimeClip (rec_nextRunDate r + 14 * JSDate.msPerDay)
  | _ => True
  end.
Proof.
  unfold calculateNextRunDate, JSDate.setDate.
  destruct (rec_frequency r); try exact I; by rewrite setDate_plus_days.
Qed.

(** What a monthly advance computes, step by step, when its result is a
    valid Date. *)
Lemma calculateNextRunDate_monthly r next :
  rec_frequency r = monthly ->
  calculateNextRunDate r = Some next ->
  let landed := JSDate.setMonth_time (rec_nextRunDate r)
                  (JSDate.getMonth (rec_nextRunDate r) + 1) in
  match rec_dayOfMonth r with
  | Some dayOfMonth =>
      if dayOfMonth =? 0 then next = landed
      else exists lastDay,
             JSDate.newDate (JSDate.getFullYear landed)
               (JSDate.getMonth landed + 1) 0 = Some lastDay
             /\ next = JSDate.setDate_time landed
                         (Z.min dayOfMonth (JSDate.getDate lastDay))
  | None => next = landed
  end.
Proof.
  intros Hfreq. unfold calculateNextRunDate. rewrite Hfreq.
  unfold JSDate.setMonth.
  generalize (JSDate.setMonth_time (rec_nextRunDate r)
                (JSDate.getMonth (rec_nextRunDate r) + 1)).
  intros landed0.
  destruct (JSDate.TimeClip landed0) as [landed|] eqn:Hlanded; [|discriminate].
  apply TimeClip_Some in Hlanded as [-> _].
  change (Some landed ≫= ?f) with (f landed). cbv beta.
  destruct (rec_dayOfMonth r) as [dayOfMonth|]; [|by intros [= <-]].
  destruct (dayOfMonth =? 0); cbn [negb]; [by intros [= <-]|].
  generalize (JSDate.newDate (JSDate.getFullYear landed) (JSDate.getMonth landed + 1) 0).
  intros [lastDay|]; [|discriminate].
  change (JSDate.getDate <$> Some lastDay) with (Some (JSDate.getDate lastDay)).
  change (Some (JSDate.getDate lastDay) ≫= ?f) with (f (JSDate.getDate lastDay)).
  cbv beta. unfold JSDate.setDate.
  intros [<- _]%TimeClip_Some. by exists lastDay.
Qed.

(** Every setter keeps the time of day. *)
Lemma MakeDate_TimeWithinDay t z :
  JSDate.TimeWithinDay (JSDate.MakeDate z (JSDate.TimeWithinDay t))
  = JSDate.TimeWithinDay t.
Proof. destruct (time_split t) as [_ Hw]. by destruct (Day_MakeDate z _ Hw). Qed.

(** X2.  Advancing the schedule never changes the time of day (read in
    the zone of the embedding, UTC): whenever the advance gives a valid
    Date, its milliseconds since midnight are those of the current
    nextRunDate. *)
Theorem calculateNextRunDate_time_of_day (r : RecurringTransaction) (next : Z) :
  calculateNextRunDate r = Some next ->
  JSDate.TimeWithinDay next = JSDate.TimeWithinDay (rec_nextRunDate r).
Proof.
  intros Hnext.
  destruct (rec_frequency r) eqn:Hfreq.
  4: { pose proof (calculateNextRunDate_monthly r next Hfreq Hnext) as Hsteps.
       cbv zeta in Hsteps.
       assert (Hlanded : forall dayOfMonth,
         JSDate.TimeWithinDay
           (JSDate.setDate_time
              (JSDate.setMonth_time (rec_nextRunDate r)
                 (JSDate.getMonth (rec_nextRunDate r) + 1)) dayOfMonth)
         = JSDate.TimeWithinDay (rec_nextRunDate r)).
       { intros dayOfMonth. unfold JSDate.setDate_time.
         rewrite MakeDate_TimeWithinDay. unfold JSDate.setMonth_time.
         apply MakeDate_TimeWithinDay. }
       destruct (rec_dayOfMonth r) as [dayOfMonth|];
         [destruct (dayOfMonth =? 0)|];
         [|destruct Hsteps as (lastDay & _ & ->); apply Hlanded|];
         subst next; unfold JSDate.setMonth_time; apply MakeDate_TimeWithinDay. }
  all: revert Hnext; unfold calculateNextRunDate; rewrite Hfreq.
  all: unfold JSDate.setDate, JSDate.setMonth, JSDate.setFullYear.
  all: intros [<- _]%TimeClip_Some.
  all: unfold JSDate.setDate_time, JSDate.setMonth_time, JSDate.setFullYear_time.
  all: apply MakeDate_TimeWithinDay.
Qed.

(** X2 on the rent definition, due at midnight. *)
Lemma calculateNextRunDate_time_of_day_rent :
  exists next,
    calculateNextRunDate (Scenario.definition expense (Scenario.jan31 2023) None)
    = Some next
    /\ JSDate.TimeWithinDay next
       = JSDate.TimeWithinDay
           (rec_nextRunDate
              (Scenario.definition expense (Scenario.jan31 2023) None)).
Proof.
  eexists. split; [vm_compute; reflexivity|].
  apply (calculateNextRunDate_time_of_day
           (Scenario.definition expense (Scenario.jan31 2023) None)).
  vm_compute. reflexivity.
Defined.

(** The monthly branch with a dayOfMonth, from where [setMonth] landed:
    the clamp puts the date on day min(dayOfMonth, length) of the landing
    month, the length being that of the month in the year [new Date]
    reads. *)
Lemma monthly_clamp_civil t1 y1 m1 d1 dom lastDay :
  JSDate.civil_from_days (JSDate.Day t1) = (y1, m1, d1) ->
  1 <= dom ->
  JSDate.newDate (JSDate.getFullYear t1) (JSDate.getMonth t1 + 1) 0
  = Some lastDay ->
  let day := Z.min dom (Calendar.daysInMonth (JSDate.MakeFullYear y1) m1) in
  let clamped := JSDate.setDate_time t1 (Z.min dom (JSDate.getDate lastDay)) in
  clamped
  = JSDate.MakeDate (Calendar.month_start (y1, m1) + day - 1)
      (JSDate.TimeWithinDay t1)
  /\ JSDate.civil_from_days (JSDate.Day clamped) = (y1, m1, day)
  /\ 1 <= day <= Calendar.daysInMonth y1 m1.
Proof.
  intros Hc Hdom Hlast day clamped. subst day clamped.
  destruct (fields _ _ _ _ Hc) as (Hy & Hmo & _).
  destruct (civil_position _ _ _ _ Hc) as (_ & Hm & _).
  rewrite Hy, Hmo in Hlast.
  rewrite (last_day_length y1 m1 lastDay Hm Hlast), (setDate_civil _ _ _ _ Hc),
    month_length_daysInMonth by done.
  pose proof (civil_month (JSDate.MakeFullYear y1) m1 Hm) as (_ & Hlen & _).
  rewrite month_length_daysInMonth in Hlen by done.
  pose proof (daysInMonth_MakeFullYear y1 m1) as Hle.
  split; [reflexivity|]. split; [|lia].
  destruct (time_split t1) as [_ Hw].
  destruct (Day_MakeDate
              (Calendar.month_start (y1, m1)
               + Z.min dom (Calendar.daysInMonth (JSDate.MakeFullYear y1) m1) - 1)
              _ Hw) as [-> _].
  apply civil_within; [done|]. rewrite month_length_daysInMonth by done. lia.
Qed.

(** Every advance that gives a valid Date moves the schedule by at least
    one day, for every frequency, with dayOfMonth null, 0 or at least 1. *)
Lemma nextRunDate_moves_a_day (r : RecurringTransaction) (next : Z) :
  match rec_dayOfMonth r with
  | Some dayOfMonth => 0 <= dayOfMonth
  | None => True
  end ->
  calculateNextRunDate r = Some next ->
  rec_nextRunDate r + JSDate.msPerDay <= next.
Proof.
  intros Hdom Hnext.
  destruct (JSDate.civil_from_days (JSDate.Day (rec_nextRunDate r)))
    as [[y m] d] eqn:Hc.
  destruct (civil_position _ _ _ _ Hc) as (Hz & Hm & Hd).
  destruct (time_split (rec_nextRunDate r)) as [Ht Hw].
  pose proof (civil_month y m Hm) as (_ & Hlen & Hquarter & Hyear).
  assert (Hfrom : forall z, JSDate.Day (rec_nextRunDate r) < z ->
    rec_nextRunDate r + JSDate.msPerDay
    <= JSDate.MakeDate z (JSDate.TimeWithinDay (rec_nextRunDate r))).
  { intros z Hlt. rewrite Ht at 1. unfold JSDate.MakeDate, JSDate.msPerDay. lia. }
  destruct (rec_frequency r) eqn:Hfreq.
  4: { (* monthly *)
    pose proof (calculateNextRunDate_monthly r next Hfreq Hnext) as Hsteps.
    cbv zeta in Hsteps.
    assert (Hlanded : rec_nextRunDate r + JSDate.msPerDay
                      <= JSDate.setMonth_time (rec_nextRunDate r)
                           (JSDate.getMonth (rec_nextRunDate r) + 1)).
    { rewrite (setMonth_civil _ _ _ _ Hc). apply Hfrom.
      rewrite month_length_start. lia. }
    destruct (rec_dayOfMonth r) as [dom|]; [|by subst next].
    destruct (Z.eqb_spec dom 0); [by subst next|].
    destruct Hsteps as (lastDay & Hlast & ->).
    pose proof (setMonth_next_civil _ _ _ _ Hc) as Hland. cbv zeta in Hland.
    set (t1 := JSDate.setMonth_time (rec_nextRunDate r)
                 (JSDate.getMonth (rec_nextRunDate r) + 1)) in *.
    assert (Htime : JSDate.TimeWithinDay t1
                    = JSDate.TimeWithinDay (rec_nextRunDate r)).
    { unfold t1, JSDate.setMonth_time. apply MakeDate_TimeWithinDay. }
    pose proof (add_months_range 1 (y, m)) as Hn.
    pose proof (month_length_start (y, m)) as Hs.
    destruct (Calendar.add_months 1 (y, m)) as [y1 m1] eqn:Hnext1. cbn [snd] in Hn.
    pose proof (civil_month y1 m1 Hn) as (_ & Hlen1 & _).
    pose proof (add_months_range 1 (y1, m1)) as Hn2.
    pose proof (month_length_start (y1, m1)) as Hs2.
    destruct (Calendar.add_months 1 (y1, m1)) as [y2 m2] eqn:Hnext2.
    cbn [snd] in Hn2.
    pose proof (civil_month y2 m2 Hn2) as (_ & Hlen2 & _).
    destruct (d <=? Calendar.month_length (y1, m1)).
    + destruct (monthly_clamp_civil t1 y1 m1 d dom lastDay Hland ltac:(lia) Hlast)
        as (-> & _ & Hday).
      rewrite Htime. apply Hfrom. lia.
    + destruct (monthly_clamp_civil t1 y2 m2 _ dom lastDay Hland ltac:(lia) Hlast)
        as (-> & _ & Hday).
      rewrite Htime. apply Hfrom. lia. }
  all: revert Hnext; unfold calculateNextRunDate; rewrite Hfreq.
  all: unfold JSDate.setDate, JSDate.setMonth, JSDate.setFullYear.
  all: intros [<- _]%TimeClip_Some.
  1-3: rewrite setDate_plus_days; unfold JSDate.msPerDay; lia.
  - (* quarterly *)
    rewrite (setMonth_civil _ _ _ _ Hc). apply Hfrom. lia.
  - (* yearly *)
    rewrite (setFullYear_civil _ _ _ _ Hc). apply Hfrom. lia.
Qed.

(** X3.  The schedule always moves forward: for every frequency and every
    nextRunDate, with dayOfMonth null, 0 or at least 1, whenever the
    advance gives a valid Date it is later than the current one. *)
Theorem calculateNextRunDate_later (r : RecurringTransaction) (next : Z) :
  match rec_dayOfMonth r with
  | Some dayOfMonth => 0 <= dayOfMonth
  | None => True
  end ->
  calculateNextRunDate r = Some next ->
  rec_nextRunDate r < next.
Proof.
  intros HdayOfMonth Hnext.
  pose proof (nextRunDate_moves_a_day r next HdayOfMonth Hnext) as Hday.
  unfold JSDate.msPerDay in Hday. lia.
Qed.

(** X3 on the rent definition, due on 31 January 2023. *)
Lemma calculateNextRunDate_later_rent :
  exists next,
    calculateNextRunDate (Scenario.definition expense (Scenario.jan31 2023) None)
    = Some next
    /\ rec_nextRunDate (Scenario.definition expense (Scenario.jan31 2023) None)
       < next.
Proof.
  eexists. split; [vm_compute; reflexivity|].
  apply (calculateNextRunDate_later
           (Scenario.definition expense (Scenario.jan31 2023) None)).
  - simpl. lia.
  - vm_compute. reflexivity.
Defined.

(** The civil date a monthly definition with a dayOfMonth advances to. *)
Lemma monthly_result_civil (r : RecurringTransaction) dom y m d next :
  rec_frequency r = monthly ->
  rec_dayOfMonth r = Some dom ->
  1 <= dom ->
  JSDate.civil_from_days (JSDate.Day (rec_nextRunDate r)) = (y, m, d) ->
  calculateNextRunDate r = Some next ->
  JSDate.civil_from_days (JSDate.Day next)
  = let following := Calendar.monthAfter (y, m) in
    if d <=? Calendar.daysInMonth following.1 following.2
    then (following,
          Z.min dom (Calendar.daysInMonth (JSDate.MakeFullYear following.1)
                       following.2))
    else (Calendar.monthAfter following,
          Z.min dom (Calendar.daysInMonth
                       (JSDate.MakeFullYear (Calendar.monthAfter following).1)
                       (Calendar.monthAfter following).2)).
Proof.
  intros Hfreq Hdom Hpos Hc Hnext.
  pose proof (calculateNextRunDate_monthly r next Hfreq Hnext) as Hsteps.
  cbv zeta in Hsteps. rewrite Hdom in Hsteps.
  destruct (Z.eqb_spec dom 0); [lia|].
  destruct Hsteps as (lastDay & Hlast & ->).
  destruct (civil_position _ _ _ _ Hc) as (_ & Hm & _).
  pose proof (setMonth_next_civil _ _ _ _ Hc) as Hland. cbv zeta in Hland |- *.
  rewrite (monthAfter_add_months y m Hm).
  pose proof (add_months_range 1 (y, m)) as Hn.
  destruct (Calendar.add_months 1 (y, m)) as [y1 m1]. cbn [fst snd] in *.
  rewrite (monthAfter_add_months y1 m1 Hn).
  rewrite (month_length_daysInMonth y1 m1 Hn) in Hland.
  destruct (Calendar.add_months 1 (y1, m1)) as [y2 m2]. cbn [fst snd].
  destruct (d <=? Calendar.daysInMonth y1 m1).
  - by destruct (monthly_clamp_civil _ y1 m1 d dom lastDay Hland Hpos Hlast)
      as (_ & -> & _).
  - by destruct (monthly_clamp_civil _ y2 m2 _ dom lastDay Hland Hpos Hlast)
      as (_ & -> & _).
Qed.

Section MonthlyAdvance.

Variables (r : RecurringTransaction) (dayOfMonth next : Z).
Hypothesis Hfrequency : rec_frequency r = monthly.
Hypothesis HdayOfMonth : rec_dayOfMonth r = Some dayOfMonth.
Hypothesis Hpositive : 1 <= dayOfMonth.
Hypothesis Hnext : calculateNextRunDate r = Some next.

Local Abbreviation current := (rec_nextRunDate r).
Local Abbreviation following :=
  (Calendar.monthAfter (JSDate.getFullYear (rec_nextRunDate r),
                        JSDate.getMonth (rec_nextRunDate r) + 1)).

(** X4.  A monthly definition with a dayOfMonth whose current day exists
    in the next calendar month advances, whenever the advance gives a
    valid Date, into that month, onto day min(dayOfMonth, days of that
    month); the days of a month of the years 0 to 99 are counted as those
    of the year 1900 later, which makes 28 of the 29 days of February of
    the year 0. *)
Theorem calculateNextRunDate_monthly_clamps :
  JSDate.getDate current <= Calendar.daysInMonth following.1 following.2 ->
  JSDate.getFullYear next = following.1
  /\ JSDate.getMonth next + 1 = following.2
  /\ JSDate.getDate next
     = Z.min dayOfMonth
         (Calendar.daysInMonth (JSDate.MakeFullYear following.1) following.2).
Proof.
  destruct (JSDate.civil_from_days (JSDate.Day current)) as [[y m] d] eqn:Hc.
  destruct (fields _ _ _ _ Hc) as (-> & -> & ->).
  replace (m - 1 + 1) with m by ring.
  pose proof (monthly_result_civil r dayOfMonth y m d next Hfrequency HdayOfMonth
                Hpositive Hc Hnext) as Hres.
  cbv zeta in Hres.
  destruct (Calendar.monthAfter (y, m)) as [y1 m1]. cbn [fst snd] in *.
  intros Hfits. apply Z.leb_le in Hfits. rewrite Hfits in Hres.
  destruct (fields _ _ _ _ Hres) as (-> & -> & ->).
  repeat split; lia.
Qed.

(** X5.  When the current day does not exist in the next calendar month,
    that month is skipped: the definition advances, whenever the advance
    gives a valid Date, into the month after it, onto day min(dayOfMonth,
    days of that later month), counted for the years 0 to 99 as in the
    year 1900 later. *)
Theorem calculateNextRunDate_monthly_skips :
  Calendar.daysInMonth following.1 following.2 < JSDate.getDate current ->
  JSDate.getFullYear next = (Calendar.monthAfter following).1
  /\ JSDate.getMonth next + 1 = (Calendar.monthAfter following).2
  /\ JSDate.getDate next
     = Z.min dayOfMonth
         (Calendar.daysInMonth
            (JSDate.MakeFullYear (Calendar.monthAfter following).1)
            (Calendar.monthAfter following).2).
Proof.
  destruct (JSDate.civil_from_days (JSDate.Day current)) as [[y m] d] eqn:Hc.
  destruct (fields _ _ _ _ Hc) as (-> & -> & ->).
  replace (m - 1 + 1) with m by ring.
  pose proof (monthly_result_civil r dayOfMonth y m d next Hfrequency HdayOfMonth
                Hpositive Hc Hnext) as Hres.
  cbv zeta in Hres.
  destruct (Calendar.monthAfter (y, m)) as [y1 m1]. cbn [fst snd] in *.
  intros Hover. apply Z.leb_gt in Hover. rewrite Hover in Hres.
  destruct (Calendar.monthAfter (y1, m1)) as [y2 m2]. cbn [fst snd] in *.
  destruct (fields _ _ _ _ Hres) as (-> & -> & ->).
  repeat split; lia.
Qed.

End MonthlyAdvance.

(** X4 from 15 January 2023 with dayOfMonth 31: the next run is on 28
    February 2023. *)
Lemma calculateNextRunDate_monthly_clamps_jan15 :
  exists next,
    calculateNextRunDate
      (Scenario.definition expense (Scenario.noon 2023 0 15) None) = Some next
    /\ JSDate.getFullYear next = 2023
    /\ JSDate.getMonth next + 1 = 2
    /\ JSDate.getDate next = 28.
Proof.
  eexists. split; [vm_compute; reflexivity|].
  match goal with
  | |- JSDate.getFullYear ?next = _ /\ _ =>
      destruct (calculateNextRunDate_monthly_clamps
                  (Scenario.definition expense (Scenario.noon 2023 0 15) None)
                  31 next eq_refl eq_refl ltac:(lia))
        as (Hyear & Hmonth & Hdate)
  end.
  - vm_compute. reflexivity.
  - apply Z.leb_le. vm_compute. reflexivity.
  - rewrite Hyear, Hmonth, Hdate. vm_compute. by repeat split.
Defined.

(** X5 from 31 January 2023 with dayOfMonth 31: February is skipped and
    the next run is on 31 March 2023. *)
Lemma calculateNextRunDate_monthly_skips_jan31 :
  exists next,
    calculateNextRunDate
      (Scenario.definition expense (Scenario.jan31 2023) None) = Some next
    /\ JSDate.getFullYear next = 2023
    /\ JSDate.getMonth next + 1 = 3
    /\ JSDate.getDate next = 31.
Proof.
  eexists. split; [vm_compute; reflexivity|].
  match goal with
  | |- JSDate.getFullYear ?next = _ /\ _ =>
      destruct (calculateNextRunDate_monthly_skips
                  (Scenario.definition expense (Scenario.jan31 2023) None)
                  31 next eq_refl eq_refl ltac:(lia))
        as (Hyear & Hmonth & Hdate)
  end.
  - vm_compute. reflexivity.
  - apply Z.ltb_lt. vm_compute. reflexivity.
  - rewrite Hyear, Hmonth, Hdate. vm_compute. by repeat split.
Defined.

(** The edges of the schedule: in the year 0 the clamp takes February
    for 28 days long, and at the end of the range of Date the advance is
    an Invalid Date. *)
Lemma calculateNextRunDate_edges :
  (exists next,
     calculateNextRunDate
       (Scenario.definition expense (- 62166009600000) None) = Some next
     /\ JSDate.civil_from_days (JSDate.Day (- 62166009600000)) = (0, 1, 15)
     /\ JSDate.civil_from_days (JSDate.Day next) = (0, 2, 28)
     /\ Calendar.daysInMonth 0 2 = 29)
  /\ calculateNextRunDate Cases.last = None.
Proof.
  split; [|vm_compute; reflexivity].
  eexists. split; [vm_compute; reflexivity|]. vm_compute. by repeat split.
Qed.

Section ShouldExecute.

Variables (now : Z) (r : RecurringTransaction).

Lemma shouldExecute_inactive : rec_isActive r = false -> shouldExecute now r = false.
Proof. unfold shouldExecute. by intros ->. Qed.

Lemma shouldExecute_paused : rec_isPaused r = true -> shouldExecute now r = false.
Proof. unfold shouldExecute. intros ->. by rewrite orb_true_r. Qed.

End ShouldExecute.

(** C8, as the code has it.  [shouldExecute] is a total boolean function
    (a refusal is the value [false], never an exception), and it answers
    [true] exactly when the definition is active, not paused, not past its
    endDate, below its maxExecutions bound, where a bound of null or of 0
    is no bound, and due. *)
Theorem shouldExecute_iff_eligible (now : Z) (r : RecurringTransaction) :
  (shouldExecute now r = true <-> eligible now r)
  /\ (shouldExecute now r = false <-> ~ eligible now r).
Proof.
  assert (He : shouldExecute now r = true <-> eligible now r).
  { unfold shouldExecute, eligible.
    destruct (rec_isActive r), (rec_isPaused r); simpl;
      try (split; [discriminate | intros (? & ? & _); discriminate]).
    destruct (rec_endDate r) as [e|], (rec_maxExecutions r) as [m|];
      repeat match goal with
             | |- context [?a >? ?b] => destruct (Z.gtb_spec a b)
             | |- context [?a =? ?b] => destruct (Z.eqb_spec a b)
             | |- context [?a >=? ?b] => destruct (Z.geb_spec a b)
             end; simpl; split;
      try discriminate; try (intros _; repeat split; auto; lia);
      try (intros (_ & _ & ? & ? & ?); first [reflexivity | lia]). }
  split; [exact He|].
  rewrite <- He. destruct (shouldExecute now r); split; congruence.
Qed.

(** C8, as stated, fails for a definition whose maxExecutions is 0: the
    code reads the 0 as no bound and finds the definition eligible, while
    [totalExecutions < maxExecutions] is 0 < 0. *)
Lemma shouldExecute_maxExecutions_zero :
  ~ (shouldExecute (Scenario.noon 2023 1 1) Scenario.uncapped_by_zero = true
     <-> eligible_as_specified (Scenario.noon 2023 1 1) Scenario.uncapped_by_zero).
Proof.
  intros [H _].
  assert (Hrun : shouldExecute (Scenario.noon 2023 1 1) Scenario.uncapped_by_zero = true)
    by reflexivity.
  destruct (H Hrun) as (_ & _ & _ & Hmax & _). simpl in Hmax. lia.
Qed.

(** ** One manual execution, step by step *)

Lemma findOne_lookup id user st r :
  RecurringModel.findOne id user st = Some r <->
  recurrings st !! id = Some r /\ rec_userId r = user.
Proof.
  unfold RecurringModel.findOne.
  destruct (recurrings st !! id) as [r'|]; [|split; [discriminate|by intros []]].
  destruct (Nat.eqb_spec (rec_userId r') user) as [Huser|Hother].
  - split; [by intros [= ->] | by intros [[= ->] _]].
  - split; [discriminate | intros [[= ->] ?]; contradiction].
Qed.

(** The validators read no path that an execution writes. *)
Lemma advance_validate now next r :
  RecurringSchema.validate (RecurringModel.advance now next r)
  = RecurringSchema.validate r.
Proof. reflexivity. Qed.


Section ExecuteNow.

Variables (user id : ObjectId) (now next : Z) (st : Store)
          (recurring : RecurringTransaction).
Hypothesis Hfound : RecurringModel.findOne id user st = Some recurring.
Hypothesis Hschema : RecurringSchema.validate recurring = true.
Hypothesis Hvalid :
  TransactionModel.validate (materialized user now recurring) = true.
Hypothesis Hnext : calculateNextRunDate recurring = Some next.

Local Abbreviation tid := (fresh (dom (transactions st))).

(** The run of the handler past its three checks. *)
Lemma executeNow_run :
  executeNow user id now st
  = (Created tid,
     set_recurrings (insert id (RecurringModel.advance now next recurring))
       (let st1 := set_transactions
                     (insert tid (materialized user now recurring)) st in
        match rec_type recurring, rec_fromAccount recurring,
              rec_toAccount recurring with
        | income, _, Some _ =>
            AccountModel.incBalance (rec_toAccount recurring)
              (rec_amount recurring) st1
        | expense, Some _, _ =>
            BudgetModel.findOneAndUpdate user (rec_category recurring) now
              (rec_amount recurring)
              (AccountModel.incBalance (rec_fromAccount recurring)
                 (- rec_amount recurring)%float st1)
        | transfer, _, _ =>
            AccountModel.incBalance (rec_toAccount recurring)
              (rec_amount recurring)
              (AccountModel.incBalance (rec_fromAccount recurring)
                 (- rec_amount recurring)%float st1)
        | _, _, _ => st1
        end)).
Proof.
  unfold executeNow.
  rewrite Hfound, create_transactionData, Hvalid. cbv zeta.
  rewrite Hnext, advance_validate, Hschema. reflexivity.
Qed.




Lemma executeNow_recurrings :
  recurrings (executeNow user id now st).2
  = <[id := RecurringModel.advance now next recurring]> (recurrings st).
Proof.
  rewrite executeNow_run. cbn [snd]. cbv zeta.
  destruct (rec_type recurring), (rec_fromAccount recurring),
    (rec_toAccount recurring); reflexivity.
Qed.


(** The advanced definition is the one the next request finds. *)
Lemma executeNow_found_next :
  RecurringModel.findOne id user (executeNow user id now st).2
  = Some (RecurringModel.advance now next recurring).
Proof.
  apply findOne_lookup. rewrite executeNow_recurrings, lookup_insert_eq.
  split; [reflexivity|]. by apply findOne_lookup in Hfound as [_ ?].
Qed.

End ExecuteNow.

(** ** Manual execution *)




(** That request is answered with a validation error and leaves the store
    as it was. *)
Lemma executeNow_long_note_unchanged :
  executeNow Scenario.alice Scenario.rent (Scenario.noon 2023 0 31) Cases.verbose
  = (Thrown ValidationError, Cases.verbose).
Proof. vm_compute. reflexivity. Qed.

(** A definition due at the last instant of the range of Date cannot be
    advanced: the request ends in a validation error after the transaction
    is written and the balance debited, with the definition as it was. *)
Lemma executeNow_at_the_end_of_the_range :
  let res := executeNow Scenario.alice Scenario.rent (Scenario.noon 2023 0 31)
               Cases.final in
  res.1 = Thrown ValidationError
  /\ tx_amount <$> transactions res.2 !! 0%nat = Some 100%float
  /\ acc_balance <$> accounts res.2 !! Scenario.checking = Some 900%float
  /\ recurrings res.2 = recurrings Cases.final.
Proof. vm_compute. by repeat split. Qed.

(** C2.  A recurring expense of 100 drawn on an account that holds 50 is
    executed, not rejected: the transaction is persisted, the balance goes
    to -50 and the definition is advanced.  A recurring investment is
    persisted and advanced too, and debits nothing at all. *)
Theorem executeNow_overdraws :
  (executeNow Scenario.alice Scenario.rent (Scenario.noon 2023 0 31) Scenario.poor).1
  = Created 0%nat
  /\ (let st' := (executeNow Scenario.alice Scenario.rent (Scenario.noon 2023 0 31)
                    Scenario.poor).2 in
      acc_balance <$> accounts st' !! Scenario.checking = Some (-50)%float
      /\ tx_amount <$> transactions st' !! 0%nat = Some 100%float
      /\ rec_totalExecutions <$> recurrings st' !! Scenario.rent = Some 1
      /\ rec_lastRunDate <$> recurrings st' !! Scenario.rent
         = Some (Some (Scenario.noon 2023 0 31)))
  /\ (executeNow Scenario.alice Scenario.rent (Scenario.noon 2023 0 31)
        Scenario.poor_investing).1 = Created 0%nat
  /\ (let st' := (executeNow Scenario.alice Scenario.rent (Scenario.noon 2023 0 31)
                    Scenario.poor_investing).2 in
      acc_balance <$> accounts st' !! Scenario.checking = Some 50%float
      /\ tx_amount <$> transactions st' !! 0%nat = Some 100%float
      /\ rec_totalExecutions <$> recurrings st' !! Scenario.rent = Some 1).
Proof. vm_compute. repeat split. Qed.

(** ** The execution bound *)

Section Advance.

Variables (now next : Z) (r : RecurringTransaction) (bound : Z).
Hypothesis Hmax : rec_maxExecutions r = Some bound.
Hypothesis Hbound : bound <> 0.

Lemma advance_below_bound :
  rec_totalExecutions r + 1 < bound ->
  rec_isActive (RecurringModel.advance now next r) = rec_isActive r.
Proof.
  intros Hlt. simpl. rewrite Hmax.
  destruct (Z.eqb_spec bound 0); [done|].
  destruct (Z.geb_spec (rec_totalExecutions r + 1) bound); [lia|]. reflexivity.
Qed.

Lemma advance_reaches_bound :
  bound <= rec_totalExecutions r + 1 ->
  rec_isActive (RecurringModel.advance now next r) = false.
Proof.
  intros Hge. simpl. rewrite Hmax.
  destruct (Z.eqb_spec bound 0); [done|].
  destruct (Z.geb_spec (rec_totalExecutions r + 1) bound); [|lia]. reflexivity.
Qed.

End Advance.

(** C3.  On the capped scenario (a monthly expense of 100 with
    maxExecutions 3 and no execution yet, on an account holding 1000) the
    definition stays active through its first and second execution and is
    set inactive by the third, after which [shouldExecute] is false; the
    fourth execute-now is not refused as ineligible: it is answered 201,
    persists a fourth transaction, debits the account once more and takes
    totalExecutions to 4, beyond the bound. *)
Theorem executeNow_runs_past_the_bound :
  rec_maxExecutions <$> recurrings Scenario.capped !! Scenario.rent = Some (Some 3)
  /\ rec_isActive <$> recurrings Scenario.capped1 !! Scenario.rent = Some true
  /\ rec_isActive <$> recurrings Scenario.capped2 !! Scenario.rent = Some true
  /\ rec_isActive <$> recurrings Scenario.capped3 !! Scenario.rent = Some false
  /\ rec_totalExecutions <$> recurrings Scenario.capped3 !! Scenario.rent = Some 3
  /\ shouldExecute (Scenario.noon 2023 3 1)
       <$> recurrings Scenario.capped3 !! Scenario.rent = Some false
  /\ acc_balance <$> accounts Scenario.capped3 !! Scenario.checking
     = Some 700%float
  /\ transactions Scenario.capped3 !! 3%nat = None
  /\ (let res := executeNow Scenario.alice Scenario.rent (Scenario.noon 2023 3 1)
                   Scenario.capped3 in
      res.1 = Created 3%nat
      /\ ~ refused_without_effect Scenario.capped3 res
      /\ tx_amount <$> transactions res.2 !! 3%nat = Some 100%float
      /\ acc_balance <$> accounts res.2 !! Scenario.checking = Some 600%float
      /\ rec_totalExecutions <$> recurrings res.2 !! Scenario.rent = Some 4).
Proof.
  vm_compute. repeat split. by intros [[] _].
Qed.

(** The same for every definition with a bound that is not 0: the
    execution that reaches the bound leaves the definition inactive, and
    ineligible at every instant. *)
Lemma executeNow_reaches_bound
    (user id : ObjectId) (now next bound : Z) (st : Store)
    (r : RecurringTransaction) :
  RecurringModel.findOne id user st = Some r ->
  RecurringSchema.validate r = true ->
  TransactionModel.validate (materialized user now r) = true ->
  calculateNextRunDate r = Some next ->
  rec_maxExecutions r = Some bound -> bound <> 0 ->
  bound <= rec_totalExecutions r + 1 ->
  exists r',
    RecurringModel.findOne id user (executeNow user id now st).2 = Some r'
    /\ rec_isActive r' = false
    /\ forall t, shouldExecute t r' = false.
Proof.
  intros Hfound Hschema Hvalid Hnext Hmax Hbound Hreached.
  exists (RecurringModel.advance now next r).
  split; [by apply executeNow_found_next|].
  pose proof (advance_reaches_bound now next r bound Hmax Hbound Hreached) as Hoff.
  split; [exact Hoff|]. intros t. by apply shouldExecute_inactive.
Qed.

(** ** Creating a transaction *)

(** Closes the case of a request answered with a refusal on the store it
    was given. *)
Ltac answered_unchanged := intros [= <- <-]; split; [exact I | reflexivity].

(** C4.  An expense request whose amount exceeds the balance of its source
    account is rejected, and the store after the request is the store
    before it: the balance is untouched and the document written by
    [Transaction.create] has been deleted again. *)
Theorem createTransaction_expense_insufficient
    (user : ObjectId) (now : Z) (body : TransactionBody) (st : Store)
    (source : ObjectId) (acc : Account) (amount : float) :
  body_type body = Some expense ->
  body_fromAccount body = Some source ->
  body_amount body = Some amount ->
  accounts st !! source = Some acc ->
  PrimFloat.ltb (acc_balance acc) amount = true ->
  rejected (createTransaction user now body st).1
  /\ (createTransaction user now body st).2 = st.
Proof.
  intros Htype Hfrom Hamount Hacc Hlow.
  destruct (createTransaction user now body st) as [resp st'] eqn:Hrun. simpl.
  revert Hrun. unfold createTransaction. rewrite Htype, Hfrom, Hamount.
  unfold AccountModel.findOne at 1. rewrite Hacc.
  destruct (Nat.eqb (acc_userId acc) user); [|answered_unchanged].
  destruct (acc_status acc); [|answered_unchanged].
  destruct (body_toAccount body) as [t|];
    [destruct (AccountModel.findOne t user st); [|answered_unchanged]|].
  all: destruct (TransactionModel.create user now body st) as [[id st1]|] eqn:Hc;
    [|answered_unchanged].
  all: unfold AccountModel.findById;
    rewrite (create_accounts _ _ _ _ _ _ Hc), Hacc, Hlow.
  all: intros [= <- <-]; split; [exact I|].
  all: by apply (create_then_delete user now body).
Qed.

(** C4 on the ledger scenario: an expense of 1000 on the 400 of
    [checking]. *)
Lemma createTransaction_expense_insufficient_ledger :
  rejected (createTransaction Scenario.alice 0
              (Scenario.request expense 1000 None) (Scenario.ledger income)).1
  /\ (createTransaction Scenario.alice 0
        (Scenario.request expense 1000 None) (Scenario.ledger income)).2
     = Scenario.ledger income.
Proof.
  apply (createTransaction_expense_insufficient Scenario.alice 0
           (Scenario.request expense 1000 None) (Scenario.ledger income)
           Scenario.checking (Scenario.account 400) 1000);
    reflexivity.
Defined.

(** When nothing else stands in the way, the answer to such a request is
    the 400 of the balance check. *)
Lemma createTransaction_expense_insufficient_answer :
  (createTransaction Scenario.alice 0
     (Scenario.request expense 1000 None) (Scenario.ledger income)).1
  = BadRequest "Insufficient balance in expense account".
Proof. reflexivity. Qed.

Section CreateTransaction.

Variables (user : ObjectId) (now : Z) (body : TransactionBody) (st : Store).

(** What [createTransaction] does once the account checks have passed and
    the document is written, as a function of the type. *)
Lemma createTransaction_cases resp st' :
  createTransaction user now body st = (resp, st') ->
  (rejected resp /\ resp <> Thrown TypeError /\ st' = st)
  \/ exists id st1 type amount,
       TransactionModel.create user now body st = Some (id, st1)
       /\ body_type body = Some type /\ body_amount body = Some amount
       /\ match body_fromAccount body with
          | Some f => exists a, AccountModel.findOne f user st = Some a
                                /\ acc_status a = active
          | None => True
          end
       /\ match body_toAccount body with
          | Some t => exists a, AccountModel.findOne t user st = Some a
          | None => True
          end
       /\ match type with
          | income =>
              resp = Created id
              /\ st' = AccountModel.incBalance (body_toAccount body) amount st1
          | _ =>
              match AccountModel.findById (body_fromAccount body) st1 with
              | None => resp = Thrown TypeError /\ st' = st1
              | Some source =>
                  if PrimFloat.ltb (acc_balance source) amount
                  then rejected resp /\ resp <> Thrown TypeError /\ st' = st
                  else resp = Created id
                       /\ accounts st'
                          = accounts
                              (match type with
                               | transfer =>
                                   AccountModel.incBalance (body_toAccount body)
                                     (JSNumber.or_else (body_convertedAmount body)
                                        amount)
                                     (AccountModel.incBalance (body_fromAccount body)
                                        (- amount)%float st1)
                               | _ =>
                                   AccountModel.incBalance (body_fromAccount body)
                                     (- amount)%float st1
                               end)
                       /\ transactions st' = transactions st1
                       /\ transactionLogs st' = transactionLogs st1
                       /\ recurrings st' = recurrings st1
              end
          end.
Proof.
  unfold createTransaction. intros Hrun.
  destruct (body_fromAccount body) as [f|];
    [destruct (AccountModel.findOne f user st) as [fromAcc|] eqn:Hfrom;
       [destruct (acc_status fromAcc) eqn:Hstatus|]|].
  all: try (injection Hrun as <- <-; left; by repeat split).
  all: destruct (body_toAccount body) as [t|];
    [destruct (AccountModel.findOne t user st) as [toAcc|] eqn:Hto|].
  all: try (injection Hrun as <- <-; left; by repeat split).
  all: destruct (TransactionModel.create user now body st) as [[id st1]|] eqn:Hc.
  all: try (injection Hrun as <- <-; left; by repeat split).
  all: pose proof (create_then_delete _ _ _ _ _ _ Hc) as Hdelete.
  all: pose proof Hc as (doc & Hcast & _)%create_inv.
  all: unfold TransactionModel.cast in Hcast.
  all: destruct (body_type body) as [type|]; [|discriminate].
  all: destruct (body_amount body) as [amount|]; [|discriminate].
  all: clear Hcast; right; exists id, st1, type, amount.
  all: split; [reflexivity|]; split; [reflexivity|]; split; [reflexivity|].
  all: split; [by eauto|]; split; [by eauto|].
  all: destruct type; [by injection Hrun as <- <-|..].
  all: destruct (AccountModel.findById _ st1) as [source|];
    [|by injection Hrun as <- <-].
  all: destruct (PrimFloat.ltb (acc_balance source) amount);
    injection Hrun as <- <-; [by rewrite Hdelete | by repeat split].
Qed.

End CreateTransaction.


Lemma account_findOne_inv f user st a :
  AccountModel.findOne f user st = Some a ->
  accounts st !! f = Some a /\ acc_userId a = user.
Proof.
  unfold AccountModel.findOne.
  destruct (accounts st !! f) as [a'|]; [|discriminate].
  destruct (Nat.eqb (acc_userId a') user) eqn:Howner; [|discriminate].
  intros [= ->]. split; [reflexivity|]. by apply Nat.eqb_eq.
Qed.

(** [convertedAmount || amount], spelled out. *)
Lemma or_else_converted (convertedAmount : option float) (amount : float) :
  JSNumber.or_else convertedAmount amount
  = match convertedAmount with
    | Some converted =>
        if PrimFloat.eqb converted 0 || negb (PrimFloat.eqb converted converted)
        then amount else converted
    | None => amount
    end.
Proof.
  destruct convertedAmount as [converted|]; [|reflexivity].
  unfold JSNumber.or_else, JSNumber.truthy.
  by destruct (PrimFloat.eqb converted 0), (PrimFloat.eqb converted converted).
Qed.

(** C7.  An accepted creation has a type and an amount, and leaves every
    balance as its type prescribes: an income credits toAccount by the
    amount; an expense debits fromAccount by the amount; a transfer debits
    fromAccount by the amount and credits toAccount by the converted
    amount when the body gives one (a Number other than 0 and NaN) and by
    the same amount otherwise; an investment debits fromAccount by the
    amount and credits no account.  No other balance moves. *)
Theorem createTransaction_balance_protocol
    (user : ObjectId) (now : Z) (body : TransactionBody) (st st' : Store)
    (id : ObjectId) :
  createTransaction user now body st = (Created id, st') ->
  exists type amount,
    body_type body = Some type /\ body_amount body = Some amount
    /\ forall j,
         acc_balance <$> accounts st' !! j
         = match type with
           | income => credited (body_toAccount body) amount j
           | expense => debited (body_fromAccount body) amount j
           | transfer =>
               fun balance =>
                 credited (body_toAccount body)
                   match body_convertedAmount body with
                   | Some converted =>
                       if PrimFloat.eqb converted 0
                          || negb (PrimFloat.eqb converted converted)
                       then amount else converted
                   | None => amount
                   end j
                   (debited (body_fromAccount body) amount j balance)
           | investment => debited (body_fromAccount body) amount j
           end <$> (acc_balance <$> accounts st !! j).
Proof.
  intros Hrun.
  destruct (createTransaction_cases _ _ _ _ _ _ Hrun)
    as [([] & _)|(id' & st1 & type & amount & Hc & Hty & Ham & _ & _ & Htype)].
  pose proof (create_accounts _ _ _ _ _ _ Hc) as Haccs.
  exists type, amount. split; [exact Hty|]. split; [exact Ham|]. intros j.
  rewrite <- or_else_converted.
  destruct type.
  - destruct Htype as [_ ->].
    cbn [accounts AccountModel.incBalance set_accounts]. rewrite Haccs.
    apply inc_credited.
  - destruct (AccountModel.findById _ st1); [|by destruct Htype].
    destruct (PrimFloat.ltb _ amount); [by destruct Htype as [[] _]|].
    destruct Htype as (_ & -> & _).
    cbn [accounts AccountModel.incBalance set_accounts]. rewrite Haccs.
    apply inc_debited.
  - destruct (AccountModel.findById _ st1); [|by destruct Htype].
    destruct (PrimFloat.ltb _ amount); [by destruct Htype as [[] _]|].
    destruct Htype as (_ & -> & _).
    cbn [accounts AccountModel.incBalance set_accounts]. rewrite Haccs.
    rewrite inc_credited, inc_debited. by destruct (accounts st !! j).
  - destruct (AccountModel.findById _ st1); [|by destruct Htype].
    destruct (PrimFloat.ltb _ amount); [by destruct Htype as [[] _]|].
    destruct Htype as (_ & -> & _).
    cbn [accounts AccountModel.incBalance set_accounts]. rewrite Haccs.
    apply inc_debited.
Qed.

(** C7 on a cross-currency transfer: 100 leave the 400 of [checking] and
    the converted 8000 reach the 100 of [savings]. *)
Lemma createTransaction_balance_protocol_transfer :
  let st' := (createTransaction Scenario.alice 0
                (Scenario.request transfer 100 (Some 8000%float))
                (Scenario.ledger income)).2 in
  acc_balance <$> accounts st' !! Scenario.checking = Some 300%float
  /\ acc_balance <$> accounts st' !! Scenario.savings = Some 8100%float.
Proof.
  destruct (createTransaction_balance_protocol Scenario.alice 0
              (Scenario.request transfer 100 (Some 8000%float))
              (Scenario.ledger income)
              (createTransaction Scenario.alice 0
                 (Scenario.request transfer 100 (Some 8000%float))
                 (Scenario.ledger income)).2
              1%nat eq_refl)
    as (type & amount & Htype & Hamount & Hprotocol).
  injection Htype as <-. injection Hamount as <-.
  cbv zeta. rewrite !Hprotocol. vm_compute. by split.
Defined.

(** A converted amount of 0 counts as none: the transfer credits its own
    amount. *)
Lemma createTransaction_converted_zero :
  acc_balance <$>
    accounts (createTransaction Scenario.alice 0
                (Scenario.request transfer 100 (Some 0%float))
                (Scenario.ledger income)).2 !! Scenario.savings
  = Some 200%float.
Proof. vm_compute. reflexivity. Qed.

(** ** Creating a transaction: refusals and acceptance *)

(** X14. Whatever [createTransaction] refuses with a 400, a 404 or a
    validation error, for any transaction type, it leaves the whole store
    (ledger, balances, budgets, log, definitions) exactly as it was: the
    document written before the balance check is deleted again. *)
Theorem createTransaction_refusal_rolls_back user now body st resp st' :
  createTransaction user now body st = (resp, st') ->
  rejected resp -> resp <> Thrown TypeError ->
  st' = st.
Proof.
  intros Hrun Hrejected Hthrown.
  destruct (createTransaction_cases _ _ _ _ _ _ Hrun)
    as [(_ & _ & ->)|(id & st1 & type & amount & _ & _ & _ & _ & _ & Htype)];
    [reflexivity|].
  destruct type.
  - destruct Htype as [-> _]. destruct Hrejected.
  - destruct (AccountModel.findById _ st1); [|by destruct Htype].
    destruct (PrimFloat.ltb _ amount); [by destruct Htype as (_ & _ & ->)|].
    destruct Htype as [-> _]. destruct Hrejected.
  - destruct (AccountModel.findById _ st1); [|by destruct Htype].
    destruct (PrimFloat.ltb _ amount); [by destruct Htype as (_ & _ & ->)|].
    destruct Htype as [-> _]. destruct Hrejected.
  - destruct (AccountModel.findById _ st1); [|by destruct Htype].
    destruct (PrimFloat.ltb _ amount); [by destruct Htype as (_ & _ & ->)|].
    destruct Htype as [-> _]. destruct Hrejected.
Qed.

(** X14: a transfer of 1000 out of the 400 of [checking]. *)
Lemma createTransaction_refusal_rolls_back_transfer :
  (createTransaction Scenario.alice 0 (Scenario.request transfer 1000 None)
     (Scenario.ledger income)).2
  = Scenario.ledger income.
Proof.
  apply (createTransaction_refusal_rolls_back Scenario.alice 0
           (Scenario.request transfer 1000 None) (Scenario.ledger income)
           (createTransaction Scenario.alice 0
              (Scenario.request transfer 1000 None) (Scenario.ledger income)).1).
  - apply surjective_pairing.
  - vm_compute. exact I.
  - vm_compute. discriminate.
Defined.

(** X15. An expense, transfer or investment request that names no source
    account and passes the destination check and the schema is not
    refused up front: the document is written, then reading the balance of
    the missing account throws.  The request ends in an error with the new
    transaction left in the ledger under a fresh id and no balance
    changed. *)
Theorem createTransaction_without_source user now body st doc :
  body_fromAccount body = None ->
  TransactionModel.cast user now body = Some doc ->
  TransactionModel.validate doc = true ->
  tx_type doc <> income ->
  match body_toAccount body with
  | Some t => is_Some (AccountModel.findOne t user st)
  | None => True
  end ->
  let id := fresh (dom (transactions st)) in
  transactions st !! id = None
  /\ createTransaction user now body st
     = (Thrown TypeError, set_transactions (insert id doc) st).
Proof.
  intros Hfrom Hcast Hvalid Htype Hto id.
  split; [apply not_elem_of_dom, is_fresh|].
  unfold createTransaction, TransactionModel.create.
  rewrite Hfrom, Hcast, Hvalid.
  unfold TransactionModel.cast in Hcast.
  destruct (body_type body) as [type|]; [|discriminate].
  destruct (body_amount body) as [amount|]; [|discriminate].
  destruct (body_category body) as [category|]; [|discriminate].
  injection Hcast as <-. simpl in Htype.
  destruct (body_toAccount body) as [t|];
    [destruct Hto as [a ->]|]; by destruct type.
Qed.

(** X15: an expense without a source account stays in the ledger. *)
Lemma createTransaction_without_source_unsourced :
  exists doc,
    TransactionModel.cast Scenario.alice 0 Cases.unsourced = Some doc
    /\ createTransaction Scenario.alice 0 Cases.unsourced (Scenario.ledger income)
       = (Thrown TypeError,
          set_transactions
            (insert (fresh (dom (transactions (Scenario.ledger income)))) doc)
            (Scenario.ledger income)).
Proof.
  eexists. split; [reflexivity|].
  refine (proj2 (createTransaction_without_source Scenario.alice 0
                   Cases.unsourced (Scenario.ledger income) _
                   eq_refl eq_refl eq_refl _ I)).
  discriminate.
Defined.

(** X16. A request answered 201 has added exactly one document to the
    ledger: the body as the schema casts it, valid, under an id the
    ledger did not hold.  Its owner is the caller; it is marked as edited,
    and dated, as the body says, and as not edited and created now when
    the body says nothing.  Every other ledger entry, the modification
    log and the recurring definitions are as before. *)
Theorem createTransaction_accepted_ledger user now body st id st' :
  createTransaction user now body st = (Created id, st') ->
  exists doc,
    TransactionModel.cast user now body = Some doc
    /\ TransactionModel.validate doc = true
    /\ tx_userId doc = user
    /\ tx_wasEdited doc = default false (body_wasEdited body)
    /\ tx_createdAt doc = default now (body_createdAt body)
    /\ transactions st !! id = None
    /\ transactions st' = <[id := doc]> (transactions st)
    /\ transactionLogs st' = transactionLogs st
    /\ recurrings st' = recurrings st.
Proof.
  intros Hrun.
  destruct (createTransaction_cases _ _ _ _ _ _ Hrun)
    as [([] & _)|(id' & st1 & type & amount & Hc & Hty & Ham & _ & _ & Htype)].
  pose proof Hc as (doc & Hcast & Hvalid & Hfresh & ->)%create_inv.
  assert (Hdoc : tx_userId doc = user
                 /\ tx_wasEdited doc = default false (body_wasEdited body)
                 /\ tx_createdAt doc = default now (body_createdAt body)).
  { unfold TransactionModel.cast in Hcast. rewrite Hty, Ham in Hcast.
    destruct (body_category body); [|discriminate].
    by injection Hcast as <-. }
  destruct Hdoc as (Huser & Hedited & Hdated).
  assert (Hid : id' = id /\ transactions st' = <[id' := doc]> (transactions st)
                /\ transactionLogs st' = transactionLogs st
                /\ recurrings st' = recurrings st).
  { destruct type.
    - destruct Htype as [[= ->] ->]. by repeat split.
    - destruct (AccountModel.findById _ _); [|by destruct Htype].
      destruct (PrimFloat.ltb _ amount); [by destruct Htype as [[] _]|].
      destruct Htype as ([= ->] & _ & -> & -> & ->). by repeat split.
    - destruct (AccountModel.findById _ _); [|by destruct Htype].
      destruct (PrimFloat.ltb _ amount); [by destruct Htype as [[] _]|].
      destruct Htype as ([= ->] & _ & -> & -> & ->). by repeat split.
    - destruct (AccountModel.findById _ _); [|by destruct Htype].
      destruct (PrimFloat.ltb _ amount); [by destruct Htype as [[] _]|].
      destruct Htype as ([= ->] & _ & -> & -> & ->). by repeat split. }
  destruct Hid as (-> & Htx & Hlogs & Hrecs).
  exists doc. by repeat split.
Qed.

(** X16: an income of 100 is added to the ledger, not edited. *)
Lemma createTransaction_accepted_ledger_income :
  exists doc,
    transactions
      (createTransaction Scenario.alice 0 (Scenario.request income 100 None)
         (Scenario.ledger income)).2
    = <[1%nat := doc]> (transactions (Scenario.ledger income))
    /\ tx_userId doc = Scenario.alice
    /\ tx_wasEdited doc = false.
Proof.
  destruct (createTransaction_accepted_ledger Scenario.alice 0
              (Scenario.request income 100 None) (Scenario.ledger income) 1%nat
              (createTransaction Scenario.alice 0
                 (Scenario.request income 100 None) (Scenario.ledger income)).2
              eq_refl)
    as (doc & _ & _ & Howner & Hedited & _ & _ & Hledger & _).
  by exists doc.
Defined.

(** X17. A request is answered 201 only after its checks: a source
    account it names exists, is the caller's and is active, and for an
    expense, transfer or investment the source is named and its balance is
    not below the amount; a destination account it names exists and is the
    caller's. *)
Theorem createTransaction_accepted_checked user now body st id st' :
  createTransaction user now body st = (Created id, st') ->
  (forall f, body_fromAccount body = Some f ->
     exists a, accounts st !! f = Some a /\ acc_userId a = user
               /\ acc_status a = active
               /\ (body_type body <> Some income ->
                   exists amount, body_amount body = Some amount
                     /\ PrimFloat.ltb (acc_balance a) amount = false))
  /\ (forall t, body_toAccount body = Some t ->
        exists a, accounts st !! t = Some a /\ acc_userId a = user)
  /\ (body_type body <> Some income -> is_Some (body_fromAccount body)).
Proof.
  intros Hrun.
  destruct (createTransaction_cases _ _ _ _ _ _ Hrun)
    as [([] & _)|(id' & st1 & type & amount & Hc & Hty & Ham & Hfrom & Hto & Htype)].
  pose proof (create_accounts _ _ _ _ _ _ Hc) as Haccs.
  split; [|split].
  - intros f Hf. rewrite Hf in Hfrom, Htype.
    destruct Hfrom as (a & [Ha Howner]%account_findOne_inv & Hstatus).
    exists a. repeat split; [done..|].
    intros Hdebit. exists amount. split; [done|].
    unfold AccountModel.findById in Htype. rewrite Haccs, Ha in Htype.
    destruct type; [by rewrite Hty in Hdebit|..].
    all: destruct (PrimFloat.ltb (acc_balance a) amount);
      [by destruct Htype as [[] _]|reflexivity].
  - intros t Ht. rewrite Ht in Hto.
    destruct Hto as (a & [Ha Howner]%account_findOne_inv). by exists a.
  - intros Hdebit. destruct (body_fromAccount body) as [f|]; [by eexists|].
    destruct type; [by rewrite Hty in Hdebit|..]; simpl in Htype.
    all: by destruct Htype as [[=] _].
Qed.

(** X17: an expense of 100 accepted on the 400 of [checking]. *)
Lemma createTransaction_accepted_checked_expense :
  exists a,
    accounts (Scenario.ledger income) !! Scenario.checking = Some a
    /\ acc_userId a = Scenario.alice /\ acc_status a = active
    /\ PrimFloat.ltb (acc_balance a) 100 = false.
Proof.
  destruct (createTransaction_accepted_checked Scenario.alice 0
              (Scenario.request expense 100 None) (Scenario.ledger income) 1%nat
              (createTransaction Scenario.alice 0
                 (Scenario.request expense 100 None) (Scenario.ledger income)).2
              eq_refl)
    as (Hsource & _).
  destruct (Hsource Scenario.checking eq_refl)
    as (a & Ha & Howner & Hstatus & Hbalance).
  destruct (Hbalance ltac:(discriminate)) as (amount & [= <-] & Hlow).
  by exists a.
Defined.

(** X29. [createTransaction] never looks at the trash: an income into an
    account of the caller is answered 201 and credited, the balance after
    it being the balance before plus the amount, whether the account is in
    the trash or not; nothing else of the account changes, its trash flag
    and date included. *)
Theorem createTransaction_ignores_trash user now body st t a doc amount :
  accounts st !! t = Some a -> acc_userId a = user ->
  body_type body = Some income ->
  body_fromAccount body = None -> body_toAccount body = Some t ->
  body_amount body = Some amount ->
  TransactionModel.cast user now body = Some doc ->
  TransactionModel.validate doc = true ->
  exists id st' a',
    createTransaction user now body st = (Created id, st')
    /\ accounts st' !! t = Some a'
    /\ acc_balance a' = (acc_balance a + amount)%float
    /\ acc_isDeleted a' = acc_isDeleted a
    /\ acc_deletedAt a' = acc_deletedAt a
    /\ acc_userId a' = acc_userId a /\ acc_status a' = acc_status a
    /\ acc_accountType a' = acc_accountType a
    /\ acc_accountName a' = acc_accountName a.
Proof.
  intros Ha Howner Htype Hfrom Hto Hamount Hcast Hvalid.
  eexists _, _, (AccountModel.add_balance amount a).
  unfold createTransaction, TransactionModel.create.
  rewrite Hfrom, Hto, Hcast, Hvalid, Htype, Hamount.
  unfold AccountModel.findOne. rewrite Ha, Howner, Nat.eqb_refl.
  split; [reflexivity|]. split; [|by repeat split].
  unfold AccountModel.incBalance, set_accounts, set_transactions.
  cbn [accounts]. by rewrite inc_lookup_same, Ha.
Qed.

(** X29: an income of 100 into the trashed [checking] account, which
    held 0. *)
Lemma createTransaction_ignores_trash_refund :
  exists id st' a',
    createTransaction Scenario.alice 0 Cases.refund Cases.trashed
    = (Created id, st')
    /\ accounts st' !! Scenario.checking = Some a'
    /\ acc_balance a' = 100%float
    /\ acc_isDeleted a' = true.
Proof.
  destruct (createTransaction_ignores_trash Scenario.alice 0 Cases.refund
              Cases.trashed Scenario.checking
              (set_isDeleted true (Some (Scenario.noon 2023 0 31))
                 (Scenario.account 0)) _ 100%float
              eq_refl eq_refl eq_refl eq_refl eq_refl eq_refl eq_refl eq_refl)
    as (id & st' & a' & Hrun & Ha' & Hbalance & Hflag & _).
  exists id, st', a'. split; [exact Hrun|]. split; [exact Ha'|].
  split; [rewrite Hbalance; vm_compute; reflexivity | exact Hflag].
Defined.

(** ** Amending a transaction *)

Section UpdateTransaction.

Variables (user id : ObjectId) (now : Z) (body : UpdateBody) (st : Store).

(** Without a reason (none, or the empty string) the request is refused
    before anything is read for writing: the store is unchanged. *)
Lemma updateTransaction_without_reason :
  JSString.truthy (upd_reason body) = false ->
  rejected (updateTransaction user id now body st).1
  /\ (updateTransaction user id now body st).2 = st.
Proof.
  intros Hreason. unfold updateTransaction.
  destruct (TransactionModel.findOne id user st); [|by split].
  rewrite Hreason. by split.
Qed.

(** An amendment answered 200 has written the amended document and exactly
    one log entry, appended to the log, with the document before and after
    and the trimmed reason. *)
Lemma updateTransaction_logs resp st' :
  updateTransaction user id now body st = (resp, st') ->
  ~ rejected resp ->
  exists old reason,
    TransactionModel.findOne id user st = Some old
    /\ upd_reason body = Some reason
    /\ transactions st' = <[id := applyUpdates body old]> (transactions st)
    /\ transactionLogs st'
       = transactionLogs st
         ++ [mkTransactionLog id user old (applyUpdates body old) now
               (JSString.trim reason)].
Proof.
  unfold updateTransaction.
  destruct (TransactionModel.findOne id user st) as [old|];
    [|intros [= <- _] []; exact I].
  destruct (upd_reason body) as [reason|]; [|intros [= <- _] []; exact I].
  destruct (JSString.truthy (Some reason)); [|intros [= <- _] []; exact I].
  simpl negb. cbv iota.
  match goal with
  | |- context [match ?balances with inl _ => _ | inr _ => _ end] =>
      assert (Hbal : match balances with
                     | inl refusal => rejected refusal
                     | inr st1 => transactions st1 = transactions st
                                  /\ transactionLogs st1 = transactionLogs st
                     end);
      [|destruct balances as [refusal|st1]]
  end.
  { destruct (upd_amount body) as [amount|]; [|done].
    destruct (JSNumber.truthy amount && _); [|done].
    destruct (tx_type old); try done.
    destruct (AccountModel.findById (tx_fromAccount old) st); [|done].
    by destruct (PrimFloat.ltb _ _). }
  - intros [= <- _] Hnot. by destruct Hnot.
  - destruct Hbal as [Htx Hlogs].
    destruct (validUpdates body); [|intros [= <- _] []; exact I].
    simpl negb. cbv iota. unfold TransactionLogModel.create.
    change (default ""%string (Some reason)) with reason.
    destruct (TransactionLogModel.valid_reason reason);
      cbv iota; [|intros [= <- _] []; exact I].
    intros [= <- <-] _. exists old, reason. simpl.
    rewrite Htx, Hlogs. done.
Qed.

(** X20.  The accounts of a transfer or an investment are out of the
    reach of an amendment, whatever it changes and however it ends: no
    balance moves. *)
Lemma updateTransaction_transfer_investment_accounts t :
  TransactionModel.findOne id user st = Some t ->
  tx_type t = transfer \/ tx_type t = investment ->
  accounts (updateTransaction user id now body st).2 = accounts st.
Proof.
  intros Hfound Htype. unfold updateTransaction. rewrite Hfound.
  destruct (negb (JSString.truthy (upd_reason body))); [done|].
  assert (Hskip :
    match upd_amount body with
    | Some amount =>
        if JSNumber.truthy amount && negb (PrimFloat.eqb amount (tx_amount t))
        then match tx_type t with
             | income =>
                 inr (AccountModel.incBalance (tx_toAccount t)
                        (amount - tx_amount t)%float st)
             | expense =>
                 match AccountModel.findById (tx_fromAccount t) st with
                 | None => inl (Thrown TypeError)
                 | Some expenseAcc =>
                     if PrimFloat.ltb (acc_balance expenseAcc)
                          (amount - tx_amount t)%float
                     then inl (BadRequest "Insufficient balance for this update")
                     else inr (AccountModel.incBalance (tx_fromAccount t)
                                 (- (amount - tx_amount t))%float st)
                 end
             | _ => inr st
             end
        else inr st
    | None => inr st
    end = inr (B:=Store) st).
  { destruct (upd_amount body) as [amount|]; [|done].
    destruct (JSNumber.truthy amount && _); [|done].
    by destruct Htype as [-> | ->]. }
  rewrite Hskip.
  destruct (negb (validUpdates body)); [done|].
  unfold TransactionLogModel.create.
  by destruct (TransactionLogModel.valid_reason _).
Qed.

End UpdateTransaction.

(** X20: a transfer of 100 amended to 150 moves no balance. *)
Lemma updateTransaction_transfer_investment_accounts_transfer :
  accounts
    (updateTransaction Scenario.alice 0%nat (Scenario.noon 2023 1 1)
       (Scenario.amend (Some 150%float) None (Some "typo"%string))
       (Scenario.ledger transfer)).2
  = accounts (Scenario.ledger transfer).
Proof.
  apply (updateTransaction_transfer_investment_accounts Scenario.alice 0%nat
           (Scenario.noon 2023 1 1)
           (Scenario.amend (Some 150%float) None (Some "typo"%string))
           (Scenario.ledger transfer) (Scenario.entry transfer));
    [reflexivity | by left].
Defined.

(** C5.  An amendment whose reason is not empty but is blank, or is
    longer than 300 characters, passes the reason check, updates the
    transaction, and then fails in [TransactionLog.create]: the transaction
    is amended (wasEdited set, note replaced) and no log entry exists. *)
Theorem updateTransaction_amends_without_log :
  (let res := updateTransaction Scenario.alice 0%nat (Scenario.noon 2023 1 1)
                (Scenario.amend None (Some "corrected"%string) (Some Scenario.blank))
                (Scenario.ledger income) in
   res.1 = Thrown ValidationError
   /\ tx_wasEdited <$> transactions res.2 !! 0%nat = Some true
   /\ tx_note <$> transactions res.2 !! 0%nat = Some (Some "corrected"%string)
   /\ transactionLogs res.2 = [])
  /\ (let res := updateTransaction Scenario.alice 0%nat (Scenario.noon 2023 1 1)
                   (Scenario.amend None (Some "corrected"%string)
                      (Some Scenario.long_reason))
                   (Scenario.ledger income) in
      res.1 = Thrown ValidationError
      /\ tx_wasEdited <$> transactions res.2 !! 0%nat = Some true
      /\ tx_note <$> transactions res.2 !! 0%nat = Some (Some "corrected"%string)
      /\ transactionLogs res.2 = []).
Proof. vm_compute. repeat split. Qed.

(** The same amendment with a proper reason is answered 200 and logged
    once. *)
Lemma updateTransaction_with_reason_logged :
  let res := updateTransaction Scenario.alice 0%nat (Scenario.noon 2023 1 1)
               (Scenario.amend None (Some "corrected"%string) (Some "typo"%string))
               (Scenario.ledger income) in
  res.1 = Updated 0%nat
  /\ transactionLogs res.2
     = [mkTransactionLog 0%nat Scenario.alice (Scenario.entry income)
          (applyUpdates
             (Scenario.amend None (Some "corrected"%string) (Some "typo"%string))
             (Scenario.entry income))
          (Scenario.noon 2023 1 1) "typo"].
Proof. vm_compute. by split. Qed.

(** C6.  Amending the amount of a transfer, or of an investment, from 100
    to 150 is answered 200 and stores the new amount, and applies no delta
    to any account: the balances are those before the amendment. *)
Theorem updateTransaction_amount_leaves_transfer_balances :
  (let res := updateTransaction Scenario.alice 0%nat (Scenario.noon 2023 1 1)
                (Scenario.amend (Some 150%float) None (Some "typo"%string))
                (Scenario.ledger transfer) in
   res.1 = Updated 0%nat
   /\ tx_amount <$> transactions res.2 !! 0%nat = Some 150%float
   /\ acc_balance <$> accounts res.2 !! Scenario.checking = Some 400%float
   /\ acc_balance <$> accounts res.2 !! Scenario.savings = Some 100%float)
  /\ (let res := updateTransaction Scenario.alice 0%nat (Scenario.noon 2023 1 1)
                   (Scenario.amend (Some 150%float) None (Some "typo"%string))
                   (Scenario.ledger investment) in
      res.1 = Updated 0%nat
      /\ tx_amount <$> transactions res.2 !! 0%nat = Some 150%float
      /\ acc_balance <$> accounts res.2 !! Scenario.checking = Some 400%float
      /\ acc_balance <$> accounts res.2 !! Scenario.savings = Some 100%float).
Proof. vm_compute. repeat split. Qed.

(** For an expense and an income the delta is applied: 50 more are debited
    from [checking], or credited to [savings]; and an expense raised beyond
    the balance is refused with the store unchanged. *)
Lemma updateTransaction_amount_moves_expense_income :
  acc_balance <$>
    accounts (updateTransaction Scenario.alice 0%nat (Scenario.noon 2023 1 1)
                (Scenario.amend (Some 150%float) None (Some "typo"%string))
                (Scenario.ledger expense)).2 !! Scenario.checking
  = Some 350%float
  /\ acc_balance <$>
       accounts (updateTransaction Scenario.alice 0%nat (Scenario.noon 2023 1 1)
                   (Scenario.amend (Some 150%float) None (Some "typo"%string))
                   (Scenario.ledger income)).2 !! Scenario.savings
     = Some 150%float
  /\ updateTransaction Scenario.alice 0%nat (Scenario.noon 2023 1 1)
       (Scenario.amend (Some 600%float) None (Some "typo"%string))
       (Scenario.ledger expense)
     = (BadRequest "Insufficient balance for this update", Scenario.ledger expense).
Proof. vm_compute. repeat split. Qed.

(** ** Amending a transaction: what every outcome leaves behind *)

Lemma transaction_findOne_inv id user st t :
  TransactionModel.findOne id user st = Some t ->
  transactions st !! id = Some t /\ tx_userId t = user.
Proof.
  unfold TransactionModel.findOne.
  destruct (transactions st !! id) as [t'|]; [|discriminate].
  destruct (Nat.eqb (tx_userId t') user) eqn:Howner; [|discriminate].
  intros [= ->]. split; [reflexivity|]. by apply Nat.eqb_eq.
Qed.

Section UpdateOutcomes.

Variables (user id : ObjectId) (now : Z) (body : UpdateBody) (st : Store).

(** The outcomes of [updateTransaction]: a refusal before anything is
    written, or the balance step followed by one of the three endings. *)
Lemma updateTransaction_inv resp st' :
  updateTransaction user id now body st = (resp, st') ->
  (st' = st /\ rejected resp /\ resp <> Thrown ValidationError)
  \/ exists old reason st1,
       TransactionModel.findOne id user st = Some old
       /\ upd_reason body = Some reason
       /\ JSString.truthy (Some reason) = true
       /\ st1 = match upd_amount body with
                | Some amount =>
                    if JSNumber.truthy amount
                       && negb (PrimFloat.eqb amount (tx_amount old))
                    then match tx_type old with
                         | income =>
                             AccountModel.incBalance (tx_toAccount old)
                               (amount - tx_amount old)%float st
                         | expense =>
                             AccountModel.incBalance (tx_fromAccount old)
                               (- (amount - tx_amount old))%float st
                         | _ => st
                         end
                    else st
                | None => st
                end
       /\ (forall amount,
             upd_amount body = Some amount ->
             JSNumber.truthy amount
             && negb (PrimFloat.eqb amount (tx_amount old)) = true ->
             tx_type old = expense ->
             exists a, AccountModel.findById (tx_fromAccount old) st = Some a
                       /\ PrimFloat.ltb (acc_balance a)
                            (amount - tx_amount old)%float = false)
       /\ ((validUpdates body = false
            /\ resp = Thrown ValidationError /\ st' = st1)
           \/ (validUpdates body = true
               /\ TransactionLogModel.valid_reason reason = false
               /\ resp = Thrown ValidationError
               /\ st' = set_transactions (insert id (applyUpdates body old)) st1)
           \/ (validUpdates body = true
               /\ TransactionLogModel.valid_reason reason = true
               /\ resp = Updated id
               /\ st' = set_transactionLogs
                          (fun logs =>
                             logs ++ [mkTransactionLog id user old
                                        (applyUpdates body old) now
                                        (JSString.trim reason)])
                          (set_transactions
                             (insert id (applyUpdates body old)) st1))).
Proof.
  unfold updateTransaction.
  destruct (TransactionModel.findOne id user st) as [old|];
    [|intros [= <- <-]; left; by repeat split].
  destruct (upd_reason body) as [reason|];
    [|intros [= <- <-]; left; by repeat split].
  destruct (JSString.truthy (Some reason)) eqn:Hreason;
    [|intros [= <- <-]; left; by repeat split].
  simpl negb. cbv iota.
  change (default ""%string (Some reason)) with reason.
  assert (Hend : forall st1,
    (if negb (validUpdates body) then (Thrown ValidationError, st1)
     else match TransactionLogModel.create id user old (applyUpdates body old)
                  reason now
                  (set_transactions (insert id (applyUpdates body old)) st1) with
          | Some st3 => (Updated id, st3)
          | None => (Thrown ValidationError,
                     set_transactions (insert id (applyUpdates body old)) st1)
          end) = (resp, st') ->
    (validUpdates body = false /\ resp = Thrown ValidationError /\ st' = st1)
    \/ (validUpdates body = true
        /\ TransactionLogModel.valid_reason reason = false
        /\ resp = Thrown ValidationError
        /\ st' = set_transactions (insert id (applyUpdates body old)) st1)
    \/ (validUpdates body = true
        /\ TransactionLogModel.valid_reason reason = true
        /\ resp = Updated id
        /\ st' = set_transactionLogs
                   (fun logs =>
                      logs ++ [mkTransactionLog id user old
                                 (applyUpdates body old) now
                                 (JSString.trim reason)])
                   (set_transactions (insert id (applyUpdates body old)) st1))).
  { intros st1. unfold TransactionLogModel.create.
    destruct (validUpdates body); simpl negb; cbv iota;
      [|intros [= <- <-]; by left].
    destruct (TransactionLogModel.valid_reason reason);
      intros [= <- <-]; right; [right | left]; by repeat split. }
  destruct (upd_amount body) as [amount|].
  2: { intros Hrun. right. exists old, reason, st.
       do 4 (split; [done|]). split; [|by apply Hend]. intros ? [=]. }
  destruct (JSNumber.truthy amount && negb (PrimFloat.eqb amount (tx_amount old)))
    eqn:Hchanged.
  2: { intros Hrun. right. exists old, reason, st.
       do 3 (split; [done|]). split; [by rewrite Hchanged|].
       split; [|by apply Hend]. intros ? [= <-]. by rewrite Hchanged. }
  destruct (tx_type old) eqn:Htype.
  - intros Hrun. right. eexists old, reason, _.
    do 3 (split; [done|]). split; [by rewrite Hchanged, Htype|].
    split; [|by apply Hend]. intros ? _ _ Hexpense. by rewrite Htype in Hexpense.
  - destruct (AccountModel.findById (tx_fromAccount old) st) as [a|] eqn:Ha;
      [|intros [= <- <-]; left; by repeat split].
    destruct (PrimFloat.ltb (acc_balance a) (amount - tx_amount old)) eqn:Hlt;
      [intros [= <- <-]; left; by repeat split|].
    intros Hrun. right. eexists old, reason, _.
    do 3 (split; [done|]). split; [by rewrite Hchanged, Htype|].
    split; [|by apply Hend]. intros ? [= <-] _ _. by exists a.
  - intros Hrun. right. exists old, reason, st.
    do 3 (split; [done|]). split; [by rewrite Hchanged, Htype|].
    split; [|by apply Hend]. intros ? _ _ Hexpense. by rewrite Htype in Hexpense.
  - intros Hrun. right. exists old, reason, st.
    do 3 (split; [done|]). split; [by rewrite Hchanged, Htype|].
    split; [|by apply Hend]. intros ? _ _ Hexpense. by rewrite Htype in Hexpense.
Qed.

End UpdateOutcomes.

(** X18. Whatever [updateTransaction] refuses with a 404 or a 400
    (transaction not found or not the caller's, no reason given, balance
    too low for a raised expense), it has written nothing: the whole
    store is as it was. *)
Theorem updateTransaction_refusal_leaves_store user id now body st resp st' :
  updateTransaction user id now body st = (resp, st') ->
  rejected resp -> (forall err, resp <> Thrown err) ->
  st' = st.
Proof.
  intros Hrun Hrejected Hthrown.
  destruct (updateTransaction_inv _ _ _ _ _ _ _ Hrun)
    as [[-> _]|(old & reason & st1 & _ & _ & _ & _ & _ & Hend)];
    [reflexivity|].
  destruct Hend as [(_ & -> & _)|[(_ & _ & -> & _)|(_ & _ & -> & _)]].
  - by destruct (Hthrown ValidationError).
  - by destruct (Hthrown ValidationError).
  - destruct Hrejected.
Qed.

(** X18: an expense of 100 raised to 600 on the 400 of [checking]. *)
Lemma updateTransaction_refusal_leaves_store_expense :
  (updateTransaction Scenario.alice 0%nat (Scenario.noon 2023 1 1)
     (Scenario.amend (Some 600%float) None (Some "typo"%string))
     (Scenario.ledger expense)).2
  = Scenario.ledger expense.
Proof.
  apply (updateTransaction_refusal_leaves_store Scenario.alice 0%nat
           (Scenario.noon 2023 1 1)
           (Scenario.amend (Some 600%float) None (Some "typo"%string))
           (Scenario.ledger expense)
           (updateTransaction Scenario.alice 0%nat (Scenario.noon 2023 1 1)
              (Scenario.amend (Some 600%float) None (Some "typo"%string))
              (Scenario.ledger expense)).1).
  - apply surjective_pairing.
  - vm_compute. exact I.
  - intros err. vm_compute. discriminate.
Defined.

(** X19. An amendment answered 200 moves balances by exactly the change
    of the amount, for an income and an expense only: an income whose
    amount changes leaves its destination credited with new - old, an
    expense leaves its source debited by new - old and is accepted only
    when the source's balance is not below that difference, and no other
    balance moves; every other accepted amendment (a transfer, an
    investment, an unchanged or absent amount) leaves all accounts as
    they were. *)
Theorem updateTransaction_accepted_balances user id now body st id' st' :
  updateTransaction user id now body st = (Updated id', st') ->
  exists old,
    TransactionModel.findOne id user st = Some old
    /\ match upd_amount body with
       | Some amount =>
           if JSNumber.truthy amount && negb (PrimFloat.eqb amount (tx_amount old))
           then match tx_type old with
                | income =>
                    forall j,
                      acc_balance <$> accounts st' !! j
                      = credited (tx_toAccount old) (amount - tx_amount old) j
                          <$> (acc_balance <$> accounts st !! j)
                | expense =>
                    (exists source a,
                       tx_fromAccount old = Some source
                       /\ accounts st !! source = Some a
                       /\ PrimFloat.ltb (acc_balance a)
                            (amount - tx_amount old)%float = false)
                    /\ forall j,
                         acc_balance <$> accounts st' !! j
                         = debited (tx_fromAccount old) (amount - tx_amount old) j
                             <$> (acc_balance <$> accounts st !! j)
                | _ => accounts st' = accounts st
                end
           else accounts st' = accounts st
       | None => accounts st' = accounts st
       end.
Proof.
  intros Hrun.
  destruct (updateTransaction_inv _ _ _ _ _ _ _ Hrun)
    as [(_ & [] & _)|(old & reason & st1 & Hfound & _ & _ & Hst1 & Hcheck & Hend)].
  destruct Hend as [(_ & [=] & _)|[(_ & _ & [=] & _)|(_ & _ & _ & ->)]].
  exists old. split; [exact Hfound|].
  cbn [accounts set_transactionLogs set_transactions].
  destruct (upd_amount body) as [amount|]; [|by subst st1].
  destruct (JSNumber.truthy amount && negb (PrimFloat.eqb amount (tx_amount old)))
    eqn:Hchanged; [|by subst st1].
  destruct (tx_type old) eqn:Htype; subst st1; try reflexivity.
  - intros j. cbn [accounts AccountModel.incBalance set_accounts].
    apply inc_credited.
  - split.
    + destruct (Hcheck amount eq_refl Hchanged eq_refl) as (a & Ha & Hlow).
      unfold AccountModel.findById in Ha.
      destruct (tx_fromAccount old) as [source|]; [|discriminate].
      by exists source, a.
    + intros j. cbn [accounts AccountModel.incBalance set_accounts].
      apply inc_debited.
Qed.

(** X19: an expense of 100 amended to 150 debits 50 more from the 400 of
    [checking]. *)
Lemma updateTransaction_accepted_balances_expense :
  acc_balance <$>
    accounts
      (updateTransaction Scenario.alice 0%nat (Scenario.noon 2023 1 1)
         (Scenario.amend (Some 150%float) None (Some "typo"%string))
         (Scenario.ledger expense)).2 !! Scenario.checking
  = Some 350%float.
Proof.
  destruct (updateTransaction_accepted_balances Scenario.alice 0%nat
              (Scenario.noon 2023 1 1)
              (Scenario.amend (Some 150%float) None (Some "typo"%string))
              (Scenario.ledger expense) 0%nat
              (updateTransaction Scenario.alice 0%nat (Scenario.noon 2023 1 1)
                 (Scenario.amend (Some 150%float) None (Some "typo"%string))
                 (Scenario.ledger expense)).2
              eq_refl)
    as (old & Hfound & Hbalances).
  vm_compute in Hfound. injection Hfound as <-.
  destruct Hbalances as [_ Hbalances].
  rewrite Hbalances. vm_compute. reflexivity.
Defined.

(** X21. No outcome of [updateTransaction] adds or removes a ledger
    entry, touches another transaction, or changes the owner, the type,
    the accounts, the currency fields or the creation date of the one it
    amends. *)
Theorem updateTransaction_keeps_identity user id now body st :
  dom (transactions (updateTransaction user id now body st).2)
  = dom (transactions st)
  /\ forall j t,
       transactions st !! j = Some t ->
       exists t',
         transactions (updateTransaction user id now body st).2 !! j = Some t'
         /\ tx_userId t' = tx_userId t /\ tx_type t' = tx_type t
         /\ tx_fromAccount t' = tx_fromAccount t
         /\ tx_toAccount t' = tx_toAccount t
         /\ tx_conversionRate t' = tx_conversionRate t
         /\ tx_convertedAmount t' = tx_convertedAmount t
         /\ tx_fromCurrency t' = tx_fromCurrency t
         /\ tx_toCurrency t' = tx_toCurrency t
         /\ tx_createdAt t' = tx_createdAt t
         /\ (j <> id -> t' = t).
Proof.
  destruct (updateTransaction user id now body st) as [resp st'] eqn:Hrun.
  cbn [snd].
  assert (Htx : transactions st' = transactions st
                \/ exists old, transactions st !! id = Some old
                     /\ transactions st'
                        = <[id := applyUpdates body old]> (transactions st)).
  { destruct (updateTransaction_inv _ _ _ _ _ _ _ Hrun)
      as [[-> _]|(old & reason & st1 & [Hfound _]%transaction_findOne_inv
                  & _ & _ & Hst1 & _ & Hend)];
      [by left|].
    assert (Htx1 : transactions st1 = transactions st).
    { subst st1. destruct (upd_amount body) as [amount|]; [|reflexivity].
      destruct (_ && _); [|reflexivity]. by destruct (tx_type old). }
    destruct Hend as [(_ & _ & ->)|[(_ & _ & _ & ->)|(_ & _ & _ & ->)]];
      [by left|right; exists old..];
      cbn [transactions set_transactionLogs set_transactions];
      by rewrite Htx1. }
  destruct Htx as [->|(old & Hold & ->)].
  - split; [reflexivity|]. intros j t Hj. exists t. by repeat split.
  - split.
    + rewrite dom_insert_L. apply subseteq_union_1_L, singleton_subseteq_l.
      by apply elem_of_dom_2 in Hold.
    + intros j t Hj. destruct (decide (j = id)) as [->|Hne].
      * rewrite Hold in Hj. injection Hj as <-.
        exists (applyUpdates body old). rewrite lookup_insert_eq.
        by repeat split.
      * exists t. rewrite lookup_insert_ne by done. by repeat split.
Qed.

(** X23. The balance adjustment precedes validation: an amendment of an
    income whose new amount the schema refuses (below 0.01) ends in a
    validation error with the transaction unamended and no log entry, and
    yet with the destination's balance credited with new - old: that
    balance stays changed. *)
Theorem updateTransaction_balance_before_validation
    user id now body st old amount :
  TransactionModel.findOne id user st = Some old ->
  tx_type old = income ->
  JSString.truthy (upd_reason body) = true ->
  upd_amount body = Some amount ->
  JSNumber.truthy amount = true ->
  PrimFloat.eqb amount (tx_amount old) = false ->
  TransactionModel.valid_amount amount = false ->
  exists st',
    updateTransaction user id now body st = (Thrown ValidationError, st')
    /\ (forall j,
          acc_balance <$> accounts st' !! j
          = credited (tx_toAccount old) (amount - tx_amount old) j
              <$> (acc_balance <$> accounts st !! j))
    /\ transactions st' = transactions st
    /\ transactionLogs st' = transactionLogs st.
Proof.
  intros Hfound Htype Hreason Hamount Htruthy Hne Hinvalid.
  exists (AccountModel.incBalance (tx_toAccount old)
            (amount - tx_amount old)%float st).
  split.
  - unfold updateTransaction.
    rewrite Hfound, Hreason, Hamount, Htruthy, Hne, Htype. simpl negb. cbv iota.
    simpl andb. cbv iota.
    unfold validUpdates. by rewrite Hamount, Hinvalid.
  - split; [|by split]. intros j.
    cbn [accounts AccountModel.incBalance set_accounts]. apply inc_credited.
Qed.

(** X23: the income of 100 into [savings], which holds 100, amended to
    -5: the request fails and [savings] is left at -5. *)
Lemma updateTransaction_balance_before_validation_income :
  exists st',
    updateTransaction Scenario.alice 0%nat (Scenario.noon 2023 1 1)
      (Scenario.amend (Some (-5)%float) None (Some "typo"%string))
      (Scenario.ledger income)
    = (Thrown ValidationError, st')
    /\ acc_balance <$> accounts st' !! Scenario.savings = Some (-5)%float
    /\ transactions st' = transactions (Scenario.ledger income).
Proof.
  destruct (updateTransaction_balance_before_validation Scenario.alice 0%nat
              (Scenario.noon 2023 1 1)
              (Scenario.amend (Some (-5)%float) None (Some "typo"%string))
              (Scenario.ledger income) (Scenario.entry income) (-5)%float
              eq_refl eq_refl eq_refl eq_refl eq_refl eq_refl eq_refl)
    as (st' & Hrun & Hbalances & Hledger & _).
  exists st'. split; [exact Hrun|]. split; [|exact Hledger].
  rewrite Hbalances. vm_compute. reflexivity.
Defined.

(** ** Sorted query results *)

Section Sorting.

Context {A : Type} (key : A -> Z).

Lemma insert_by_perm x l : MongoSort.insert_by key x l ≡ₚ x :: l.
Proof.
  induction l as [|y l IH]; simpl; [reflexivity|].
  destruct (key x <? key y); [reflexivity|].
  rewrite IH. apply perm_swap.
Qed.

Lemma ascending_perm l : MongoSort.ascending key l ≡ₚ l.
Proof.
  induction l as [|x l IH]; simpl; [reflexivity|].
  by rewrite insert_by_perm, IH.
Qed.

Lemma insert_by_sorted x l :
  StronglySorted (fun a b => key a <= key b) l ->
  StronglySorted (fun a b => key a <= key b) (MongoSort.insert_by key x l).
Proof.
  induction 1 as [|y l Hsorted IH Hall]; simpl.
  - repeat constructor.
  - destruct (Z.ltb_spec (key x) (key y)).
    + constructor; [by constructor|].
      constructor; [lia|].
      eapply Forall_impl; [exact Hall|]. intros z Hz. simpl in Hz. lia.
    + constructor; [exact IH|].
      rewrite insert_by_perm. constructor; [lia | exact Hall].
Qed.

Lemma ascending_sorted l :
  StronglySorted (fun a b => key a <= key b) (MongoSort.ascending key l).
Proof.
  induction l as [|x l IH]; simpl; [constructor|]. by apply insert_by_sorted.
Qed.

End Sorting.

(** ** The modification history *)

Lemma descending_perm {A : Type} (key : A -> Z) l :
  MongoSort.descending key l ≡ₚ l.
Proof. apply ascending_perm. Qed.

Lemma descending_sorted {A : Type} (key : A -> Z) l :
  StronglySorted (fun a b => key b <= key a) (MongoSort.descending key l).
Proof.
  unfold MongoSort.descending.
  pose proof (ascending_sorted (fun x => - key x) l) as Hsorted.
  induction Hsorted as [|x l' _ IH Hall]; constructor; [exact IH|].
  eapply Forall_impl; [exact Hall|]. intros y Hy. simpl in Hy. lia.
Qed.

(** X24. [getTransaction] answers for the caller's own transactions
    only, and the history it returns holds exactly the log entries written
    for that transaction, each once, newest first. *)
Theorem getTransaction_history user id st t history :
  getTransaction user id st = Some (t, history) ->
  transactions st !! id = Some t /\ tx_userId t = user
  /\ history
     ≡ₚ List.filter (fun log => Nat.eqb (log_transactionId log) id)
          (transactionLogs st)
  /\ (forall log, log ∈ history
        <-> log ∈ transactionLogs st /\ log_transactionId log = id)
  /\ StronglySorted (fun a b => log_modifiedAt b <= log_modifiedAt a) history.
Proof.
  unfold getTransaction.
  destruct (TransactionModel.findOne id user st) as [t'|] eqn:Hfound;
    [|discriminate].
  intros [= -> <-].
  destruct (transaction_findOne_inv _ _ _ _ Hfound) as [Hlookup Howner].
  split; [exact Hlookup|]. split; [exact Howner|].
  split; [apply descending_perm|]. split; [|apply descending_sorted].
  intros log.
  rewrite descending_perm, !list_elem_of_In, filter_In, Nat.eqb_eq. tauto.
Qed.

(** X24 on the ledger amended twice: both entries, the later first. *)
Lemma getTransaction_history_amended :
  exists t history,
    getTransaction Scenario.alice 0%nat Cases.amended = Some (t, history)
    /\ tx_userId t = Scenario.alice
    /\ map log_modifiedAt history
       = [Scenario.noon 2023 1 2; Scenario.noon 2023 1 1]
    /\ StronglySorted (fun a b => log_modifiedAt b <= log_modifiedAt a) history.
Proof.
  assert (Hread : exists t history,
    getTransaction Scenario.alice 0%nat Cases.amended = Some (t, history)
    /\ map log_modifiedAt history
       = [Scenario.noon 2023 1 2; Scenario.noon 2023 1 1]).
  { vm_compute. by eexists _, _. }
  destruct Hread as (t & history & Hread & Htimes). exists t, history.
  destruct (getTransaction_history _ _ _ _ _ Hread)
    as (_ & Howner & _ & _ & Hsorted).
  by repeat split.
Defined.

(** X22. After an amendment answered 200, reading the transaction back
    gives the amended document (marked as edited), and its history is the
    history before the amendment plus one entry: the document before, the
    document after, the trimmed reason and the time of the request. *)
Theorem updateTransaction_history user id now body st id' st' :
  updateTransaction user id now body st = (Updated id', st') ->
  exists old reason history history',
    getTransaction user id st = Some (old, history)
    /\ upd_reason body = Some reason
    /\ getTransaction user id st' = Some (applyUpdates body old, history')
    /\ tx_wasEdited (applyUpdates body old) = true
    /\ history'
       ≡ₚ mkTransactionLog id user old (applyUpdates body old) now
            (JSString.trim reason) :: history.
Proof.
  intros Hrun.
  destruct (updateTransaction_inv _ _ _ _ _ _ _ Hrun)
    as [(_ & [] & _)|(old & reason & st1 & Hfound & Hreason & _ & Hst1 & _ & Hend)].
  destruct Hend as [(_ & [=] & _)|[(_ & _ & [=] & _)|(_ & _ & _ & ->)]].
  assert (Hlogs1 : transactionLogs st1 = transactionLogs st).
  { subst st1. destruct (upd_amount body) as [amount|]; [|reflexivity].
    destruct (_ && _); [|reflexivity]. by destruct (tx_type old). }
  destruct (transaction_findOne_inv _ _ _ _ Hfound) as [_ Howner].
  eexists old, reason, _, _. unfold getTransaction. rewrite Hfound.
  split; [reflexivity|]. split; [exact Hreason|].
  unfold TransactionModel.findOne.
  cbn [transactions transactionLogs set_transactionLogs set_transactions].
  rewrite lookup_insert_eq.
  change (tx_userId (applyUpdates body old)) with (tx_userId old).
  rewrite Howner, Nat.eqb_refl.
  split; [reflexivity|]. split; [reflexivity|].
  rewrite !descending_perm, Hlogs1, List.filter_app. simpl List.filter.
  rewrite Nat.eqb_refl. symmetry. apply Permutation_cons_append.
Qed.

(** X22: the income entry amended once, then read back. *)
Lemma updateTransaction_history_income :
  exists history,
    getTransaction Scenario.alice 0%nat
      (updateTransaction Scenario.alice 0%nat (Scenario.noon 2023 1 1)
         (Scenario.amend None (Some "corrected"%string) (Some "typo"%string))
         (Scenario.ledger income)).2
    = Some (applyUpdates
              (Scenario.amend None (Some "corrected"%string) (Some "typo"%string))
              (Scenario.entry income),
            history)
    /\ history
       ≡ₚ [mkTransactionLog 0%nat Scenario.alice (Scenario.entry income)
             (applyUpdates
                (Scenario.amend None (Some "corrected"%string)
                   (Some "typo"%string))
                (Scenario.entry income))
             (Scenario.noon 2023 1 1) "typo"].
Proof.
  destruct (updateTransaction_history Scenario.alice 0%nat
              (Scenario.noon 2023 1 1)
              (Scenario.amend None (Some "corrected"%string) (Some "typo"%string))
              (Scenario.ledger income) 0%nat
              (updateTransaction Scenario.alice 0%nat (Scenario.noon 2023 1 1)
                 (Scenario.amend None (Some "corrected"%string)
                    (Some "typo"%string))
                 (Scenario.ledger income)).2
              eq_refl)
    as (old & reason & history & history' & Hbefore & Hreason & Hafter & _ & Hperm).
  vm_compute in Hbefore. injection Hbefore as <- <-.
  injection Hreason as <-.
  exists history'. split; [exact Hafter | exact Hperm].
Defined.

(** ** XIRR *)

Section XirrPow.

Variables (pow1 pow2 : float -> float -> float) (years : list float).
Hypothesis Hagree : forall x y, In y years -> pow1 x y = pow2 x y.

(** The solver reads [Math.pow] only at the exponents in [years]. *)
Lemma npv_dnpv_ext guess cashFlows :
  npv_dnpv pow1 guess cashFlows years = npv_dnpv pow2 guess cashFlows years.
Proof.
  unfold npv_dnpv. generalize (0%float, 0%float).
  revert Hagree. generalize years. clear years.
  induction cashFlows as [|cf cashFlows IH]; intros [|y ys] Hagree acc;
    simpl; try reflexivity.
  rewrite (Hagree _ y) by (by left).
  apply IH. intros x y' Hy'. apply Hagree. by right.
Qed.

Lemma newtonRaphson_ext n cashFlows guess :
  newtonRaphson pow1 n cashFlows years guess
  = newtonRaphson pow2 n cashFlows years guess.
Proof.
  revert guess. induction n as [|n IH]; intros guess; simpl; [reflexivity|].
  rewrite npv_dnpv_ext.
  destruct (npv_dnpv pow2 guess cashFlows years) as [npv dnpv].
  destruct (PrimFloat.ltb _ 0.0001); [reflexivity|]. apply IH.
Qed.

End XirrPow.

Lemma yearsFromFirst_one_year (buyDate : Z) :
  yearsFromFirst [buyDate; buyDate + 365 * 24 * 60 * 60 * 1000]
  = [0%float; 1%float].
Proof.
  unfold yearsFromFirst, dateDiff. cbn [map].
  rewrite Z.sub_diag.
  replace (buyDate + 365 * 24 * 60 * 60 * 1000 - buyDate)
    with 31536000000 by lia.
  vm_compute. reflexivity.
Qed.

(** C9.  For an investment whose transactions are one buy of 1000 and
    whose current value is 1100, asked for one year (365 days) after the
    buy, with a [Math.pow] that is exact at the exponents 0 and 1, the XIRR
    handler builds the cash flows -1000 and 1100 and answers a percentage
    within 0.1 of 10. *)
Theorem calculateXIRR_single_buy_one_year
    (Math_pow : float -> float -> float) (user id : ObjectId) (buyDate : Z)
    (investments : gmap ObjectId Investment) (inv : Investment)
    (units pricePerUnit : float) :
  (forall x, Math_pow x 0%float = 1%float) ->
  (forall x, Math_pow x 1%float = x) ->
  investments !! id = Some inv ->
  inv_userId inv = user ->
  inv_transactions inv
  = [mkInvestmentTransaction buy buyDate units pricePerUnit 1000] ->
  inv_currentValue inv = 1100%float ->
  inv_status inv <> inv_sold ->
  exists xirr flows,
    calculateXIRR Math_pow user id (buyDate + 365 * 24 * 60 * 60 * 1000) investments
    = XirrOk xirr flows
    /\ map fst flows = [(-1000)%float; 1100%float]
    /\ PrimFloat.ltb (PrimFloat.abs (xirr - 10)) 0.1 = true.
Proof.
  intros Hpow0 Hpow1 Hinv Huser Htxns Hvalue Hstatus.
  assert (Hflows :
    buildCashFlows inv (buyDate + 365 * 24 * 60 * 60 * 1000)
    = [((-1000)%float, buyDate);
       (1100%float, buyDate + 365 * 24 * 60 * 60 * 1000)]).
  { unfold buildCashFlows. rewrite Htxns, Hvalue.
    destruct (inv_status inv); try reflexivity. by destruct Hstatus. }
  unfold calculateXIRR. rewrite Hinv, Huser, Nat.eqb_refl, Hflows.
  eexists _, _. split; [reflexivity|]. split; [reflexivity|].
  cbn [map fst snd]. unfold calculateXIRRValue. cbn [List.length Nat.ltb Nat.leb].
  rewrite yearsFromFirst_one_year.
  rewrite (newtonRaphson_ext Math_pow Scenario.pow01 [0%float; 1%float]).
  - vm_compute. reflexivity.
  - intros x y [<- | [<- | []]]; [apply Hpow0 | apply Hpow1].
Qed.

(** C9 on the fund scenario, with [Math.pow] given at 0 and 1 only. *)
Lemma calculateXIRR_single_buy_one_year_fund :
  exists xirr flows,
    calculateXIRR Scenario.pow01 Scenario.alice 7%nat
      (Scenario.jan31 2023 + 365 * 24 * 60 * 60 * 1000)
      (<[7%nat := Scenario.fund]> ∅)
    = XirrOk xirr flows
    /\ map fst flows = [(-1000)%float; 1100%float]
    /\ PrimFloat.ltb (PrimFloat.abs (xirr - 10)) 0.1 = true.
Proof.
  apply (calculateXIRR_single_buy_one_year Scenario.pow01 Scenario.alice 7%nat
           (Scenario.jan31 2023) (<[7%nat := Scenario.fund]> ∅) Scenario.fund
           10%float 100%float);
    try reflexivity.
  discriminate.
Defined.

(** The value answered in that scenario. *)
Lemma calculateXIRR_fund_value :
  calculateXIRRValue Scenario.pow01 [(-1000)%float; 1100%float]
    [Scenario.jan31 2023; Scenario.jan31 2023 + Scenario.oneYear]
  = 0.099999999999999881%float.
Proof. vm_compute. reflexivity. Qed.

(** ** XIRR without cash flows *)

Lemma buildCashFlows_none inv now :
  Forall (fun txn => PrimFloat.eqb (cashFlowOf txn) 0 = true)
    (inv_transactions inv) ->
  buildCashFlows inv now
  = match inv_status inv with
    | inv_sold => []
    | _ => [(inv_currentValue inv, now)]
    end.
Proof.
  unfold buildCashFlows. intros Hnone.
  assert (Hflows :
    flat_map
      (fun txn =>
         if negb (PrimFloat.eqb (cashFlowOf txn) 0)
         then [(cashFlowOf txn, itx_date txn)] else [])
      (inv_transactions inv) = []).
  { induction Hnone as [|txn txns Htxn _ IH]; [reflexivity|].
    simpl. by rewrite Htxn, IH. }
  rewrite Hflows. by destruct (inv_status inv).
Qed.

(** X25. For an investment of the caller with no buy, sell or dividend
    of a non-zero amount (no transactions at all, or only splits, bonuses
    and zero amounts), the XIRR answered is 0, whatever the invested
    amount and the current value: the only cash flow is the current value
    (none for a sold investment), and fewer than two cash flows give 0. *)
Theorem calculateXIRR_without_cash_flows
    (Math_pow : float -> float -> float) user id now investments inv :
  investments !! id = Some inv ->
  inv_userId inv = user ->
  Forall (fun txn => PrimFloat.eqb (cashFlowOf txn) 0 = true)
    (inv_transactions inv) ->
  calculateXIRR Math_pow user id now investments
  = XirrOk 0 match inv_status inv with
             | inv_sold => []
             | _ => [(inv_currentValue inv, now)]
             end.
Proof.
  intros Hfound Howner Hnone. unfold calculateXIRR.
  rewrite Hfound, Howner, Nat.eqb_refl, (buildCashFlows_none _ _ Hnone).
  by destruct (inv_status inv).
Qed.

(** X25 on a holding without transactions. *)
Lemma calculateXIRR_without_cash_flows_untouched :
  calculateXIRR Scenario.pow01 Scenario.alice 7%nat (Scenario.noon 2024 0 1)
    (<[7%nat := Cases.untouched]> ∅)
  = XirrOk 0 [(1100%float, Scenario.noon 2024 0 1)].
Proof.
  apply (calculateXIRR_without_cash_flows Scenario.pow01 Scenario.alice 7%nat
           (Scenario.noon 2024 0 1) (<[7%nat := Cases.untouched]> ∅)
           Cases.untouched);
    [reflexivity | reflexivity | constructor].
Defined.

(** ** Upcoming runs *)

(** The window of [getUpcoming] ends [days] days after now, when that is
    a Date at all. *)
Lemma getUpcoming_run user days now st :
  getUpcoming user days now st
  = futureDate ← (n ← parseInt_days days;
                  JSDate.TimeClip (now + n * JSDate.msPerDay));
    let upcoming :=
      MongoSort.ascending (fun item => rec_nextRunDate item.2)
        (List.filter (isUpcoming user futureDate)
           (map_to_list (recurrings st))) in
    Some (upcoming,
          fold_left (fun grouped item => pushGrouped (dateKey item) item grouped)
            upcoming []).
Proof.
  unfold getUpcoming, JSDate.setDate.
  destruct (parseInt_days days) as [n|]; [|reflexivity].
  change (Some n ≫= ?f) with (f n). cbv beta.
  by rewrite setDate_plus_days.
Qed.

Lemma getUpcoming_inv user days now st upcoming grouped :
  getUpcoming user days now st = Some (upcoming, grouped) ->
  exists n,
    parseInt_days days = Some n
    /\ - JSDate.maxTime <= now + n * JSDate.msPerDay <= JSDate.maxTime
    /\ upcoming
       = MongoSort.ascending (fun item => rec_nextRunDate item.2)
           (List.filter (isUpcoming user (now + n * JSDate.msPerDay))
              (map_to_list (recurrings st)))
    /\ grouped
       = fold_left (fun grouped item => pushGrouped (dateKey item) item grouped)
           upcoming [].
Proof.
  rewrite getUpcoming_run.
  destruct (parseInt_days days) as [n|]; [|discriminate].
  change (Some n ≫= ?f) with (f n). cbv beta.
  destruct (JSDate.TimeClip _) as [futureDate|] eqn:Hclip; [|discriminate].
  apply TimeClip_Some in Hclip as [<- Hrange].
  change (Some ?x ≫= ?f) with (f x). cbv beta zeta.
  intros [= <- <-]. by exists n.
Qed.

Lemma upcoming_member user futureDate st id r :
  (id, r) ∈ MongoSort.ascending (fun item => rec_nextRunDate item.2)
              (List.filter (isUpcoming user futureDate)
                 (map_to_list (recurrings st)))
  <-> recurrings st !! id = Some r
      /\ rec_userId r = user
      /\ rec_isActive r = true /\ rec_isPaused r = false
      /\ rec_nextRunDate r <= futureDate.
Proof.
  rewrite ascending_perm, list_elem_of_In, filter_In,
    <- list_elem_of_In, elem_of_map_to_list.
  unfold isUpcoming. cbn [fst snd].
  rewrite !andb_true_iff, Nat.eqb_eq, negb_true_iff, Z.leb_le. tauto.
Qed.

(** X6.  [getUpcoming] reads its window with [parseInt], 30 days when
    none is given.  When the end of the window is a valid Date, it lists
    exactly the caller's definitions that are active, not paused and due
    by then, each once, in ascending order of nextRunDate; when it is not
    (a window that is not a number, or one that ends outside the range of
    Date) it answers with an error. *)
Theorem getUpcoming_due_sorted
    (user : ObjectId) (days : DaysParam) (now : Z) (st : Store) :
  match n ← parseInt_days days; JSDate.TimeClip (now + n * JSDate.msPerDay) with
  | Some futureDate =>
      exists upcoming grouped,
        getUpcoming user days now st = Some (upcoming, grouped)
        /\ NoDup upcoming
        /\ (forall id r,
              (id, r) ∈ upcoming
              <-> recurrings st !! id = Some r
                  /\ rec_userId r = user
                  /\ rec_isActive r = true /\ rec_isPaused r = false
                  /\ rec_nextRunDate r <= futureDate)
        /\ StronglySorted
             (fun a b => rec_nextRunDate a.2 <= rec_nextRunDate b.2) upcoming
  | None => getUpcoming user days now st = None
  end.
Proof.
  rewrite getUpcoming_run.
  destruct (n ← parseInt_days days; JSDate.TimeClip (now + n * JSDate.msPerDay))
    as [futureDate|]; [|reflexivity].
  change (Some futureDate ≫= ?f) with (f futureDate). cbv beta zeta.
  eexists _, _. split; [reflexivity|].
  split; [|split; [intros id r; apply upcoming_member | apply ascending_sorted]].
  rewrite ascending_perm. apply NoDup_ListNoDup, List.NoDup_filter.
  apply NoDup_ListNoDup, NoDup_map_to_list.
Qed.

(** Windows that end in no Date: not a number, and 10^11 days. *)
Lemma getUpcoming_no_window :
  getUpcoming Scenario.alice DaysNaN (Scenario.noon 2023 1 1) Scenario.capped
  = None
  /\ getUpcoming Scenario.alice (DaysInt 100000000000) (Scenario.noon 2023 1 1)
       Scenario.capped = None.
Proof. vm_compute. by split. Qed.

(** *** Grouping by date *)

Section Grouped.

Implicit Types (grouped : list (Z * Z * Z * list (ObjectId * RecurringTransaction))).

Lemma pushGrouped_concat item grouped :
  concat (map snd (pushGrouped (dateKey item) item grouped))
  ≡ₚ item :: concat (map snd grouped).
Proof.
  induction grouped as [|[k items] rest IH]; simpl; [reflexivity|].
  destruct (Calendar.civil_eqb k (dateKey item)); simpl.
  - rewrite <- app_assoc. simpl. by rewrite <- Permutation_middle.
  - rewrite IH. by rewrite <- Permutation_middle.
Qed.

Lemma pushGrouped_keys item grouped :
  Forall (fun g => Forall (fun i => dateKey i = g.1) g.2) grouped ->
  Forall (fun g => Forall (fun i => dateKey i = g.1) g.2)
    (pushGrouped (dateKey item) item grouped).
Proof.
  induction 1 as [|[k items] rest Hhead Hrest IH]; simpl.
  - repeat constructor.
  - destruct (Calendar.civil_eqb k (dateKey item)) eqn:Hk.
    + constructor; [|exact Hrest]. simpl in *.
      apply Forall_app. split; [exact Hhead|].
      constructor; [|constructor]. symmetry. by apply civil_eqb_eq.
    + by constructor.
Qed.

Lemma grouped_fold items grouped :
  Forall (fun g => Forall (fun i => dateKey i = g.1) g.2) grouped ->
  let result := fold_left (fun g item => pushGrouped (dateKey item) item g)
                  items grouped in
  concat (map snd result) ≡ₚ items ++ concat (map snd grouped)
  /\ Forall (fun g => Forall (fun i => dateKey i = g.1) g.2) result.
Proof.
  revert grouped. induction items as [|item items IH]; intros grouped Hkeys; simpl.
  - by split.
  - destruct (IH _ (pushGrouped_keys item grouped Hkeys)) as [Hperm Hres].
    split; [|exact Hres].
    rewrite Hperm, pushGrouped_concat. by rewrite <- Permutation_middle.
Qed.

End Grouped.

(** X8.  The groups of [getUpcoming] hold the listed definitions, each
    once, and each under the date of its next run. *)
Theorem getUpcoming_grouped
    (user : ObjectId) (days : DaysParam) (now : Z) (st : Store)
    (upcoming : list (ObjectId * RecurringTransaction))
    (grouped : list (Z * Z * Z * list (ObjectId * RecurringTransaction))) :
  getUpcoming user days now st = Some (upcoming, grouped) ->
  concat (map snd grouped) ≡ₚ upcoming
  /\ forall key items item,
       (key, items) ∈ grouped ->
       item ∈ items ->
       JSDate.civil_from_days (JSDate.Day (rec_nextRunDate item.2)) = key.
Proof.
  intros (n & _ & _ & _ & ->)%getUpcoming_inv.
  destruct (grouped_fold upcoming [] ltac:(constructor)) as [Hperm Hkeys].
  split.
  - rewrite Hperm. simpl. by rewrite app_nil_r.
  - intros key items item Hgroup Hitem.
    rewrite Forall_forall in Hkeys. specialize (Hkeys _ Hgroup).
    rewrite Forall_forall in Hkeys. exact (Hkeys _ Hitem).
Qed.

(** X8 on the capped store, asked on 1 February 2023: the rent
    definition is listed, under 31 January. *)
Lemma getUpcoming_grouped_rent :
  exists upcoming grouped,
    getUpcoming Scenario.alice DaysDefault (Scenario.noon 2023 1 1)
      Scenario.capped = Some (upcoming, grouped)
    /\ map fst grouped = [(2023, 1, 31)]
    /\ concat (map snd grouped) ≡ₚ upcoming.
Proof.
  assert (Hrun : { res | getUpcoming Scenario.alice DaysDefault
                           (Scenario.noon 2023 1 1) Scenario.capped = Some res
                         /\ map fst res.2 = [(2023, 1, 31)] }).
  { eexists. split; vm_compute; reflexivity. }
  destruct Hrun as [[upcoming grouped] [Hrun Hkeys]].
  exists upcoming, grouped. split; [exact Hrun|]. split; [exact Hkeys|].
  exact (proj1 (getUpcoming_grouped _ _ _ _ _ _ Hrun)).
Defined.

(** ** Pausing, deleting and creating definitions *)

Lemma toggled_shouldExecute now1 now2 r t :
  shouldExecute t (toggled now2 (toggled now1 r)) = shouldExecute t r.
Proof. unfold shouldExecute. simpl. by rewrite negb_involutive. Qed.

Lemma toggled_validate now r :
  RecurringSchema.validate (toggled now r) = RecurringSchema.validate r.
Proof. reflexivity. Qed.

Lemma togglePause_found user id now st r :
  RecurringModel.findOne id user st = Some r ->
  RecurringSchema.validate r = true ->
  togglePause user id now st
  = (RecurringOk (toggled now r), set_recurrings (insert id (toggled now r)) st)
  /\ RecurringModel.findOne id user (togglePause user id now st).2
     = Some (toggled now r).
Proof.
  intros Hfound Hvalid. unfold togglePause.
  rewrite Hfound. cbv zeta. rewrite toggled_validate, Hvalid.
  split; [reflexivity|].
  apply findOne_lookup in Hfound as [_ Huser].
  apply findOne_lookup. simpl. by rewrite lookup_insert_eq.
Qed.

(** X9.  Pausing a (valid) definition leaves its schedule where it was
    and makes it ineligible at every instant; resuming it makes it
    eligible exactly when it was before the pause.  Neither touches
    accounts or ledger. *)
Theorem togglePause_pause_resume
    (user id : ObjectId) (now1 now2 : Z) (st : Store) (r : RecurringTransaction) :
  RecurringModel.findOne id user st = Some r ->
  RecurringSchema.validate r = true ->
  rec_isPaused r = false ->
  let st1 := (togglePause user id now1 st).2 in
  let st2 := (togglePause user id now2 st1).2 in
  exists r1 r2,
    RecurringModel.findOne id user st1 = Some r1
    /\ rec_nextRunDate r1 = rec_nextRunDate r
    /\ (forall t, shouldExecute t r1 = false)
    /\ RecurringModel.findOne id user st2 = Some r2
    /\ rec_nextRunDate r2 = rec_nextRunDate r
    /\ (forall t, shouldExecute t r2 = shouldExecute t r)
    /\ accounts st2 = accounts st
    /\ transactions st2 = transactions st.
Proof.
  intros Hfound Hvalid Hrunning st1 st2.
  destruct (togglePause_found user id now1 st r Hfound Hvalid)
    as [Hrun1 Hfound1].
  destruct (togglePause_found user id now2 st1 _ Hfound1 Hvalid)
    as [Hrun2 Hfound2].
  exists (toggled now1 r), (toggled now2 (toggled now1 r)).
  split; [exact Hfound1|]. split; [reflexivity|].
  split; [intros t; apply shouldExecute_paused; simpl; by rewrite Hrunning|].
  split; [exact Hfound2|]. split; [reflexivity|].
  split; [intros t; apply toggled_shouldExecute|].
  unfold st2. rewrite Hrun2. unfold st1. rewrite Hrun1. by split.
Qed.

(** X9 on the capped store: paused on 1 February, resumed on 2 February. *)
Lemma togglePause_pause_resume_rent :
  exists r1 r2,
    RecurringModel.findOne Scenario.rent Scenario.alice
      (togglePause Scenario.alice Scenario.rent (Scenario.noon 2023 1 1)
         Scenario.capped).2 = Some r1
    /\ (forall t, shouldExecute t r1 = false)
    /\ RecurringModel.findOne Scenario.rent Scenario.alice
         (togglePause Scenario.alice Scenario.rent (Scenario.noon 2023 1 2)
            (togglePause Scenario.alice Scenario.rent (Scenario.noon 2023 1 1)
               Scenario.capped).2).2 = Some r2
    /\ (forall t,
          shouldExecute t r2
          = shouldExecute t
              (Scenario.definition expense (Scenario.jan31 2023) (Some 3))).
Proof.
  destruct (togglePause_pause_resume Scenario.alice Scenario.rent
              (Scenario.noon 2023 1 1) (Scenario.noon 2023 1 2) Scenario.capped
              (Scenario.definition expense (Scenario.jan31 2023) (Some 3))
              eq_refl eq_refl eq_refl)
    as (r1 & r2 & Hfound1 & _ & Hpaused & Hfound2 & _ & Hresumed & _).
  by exists r1, r2.
Defined.

(** X10.  Deleting a definition removes it and nothing else: the
    transactions it materialized stay in the ledger, balances stay, and
    every later execute-now or toggle on it is answered 404 without
    effect. *)
Theorem deleteRecurringTransaction_gone
    (user id : ObjectId) (now : Z) (st : Store) (r : RecurringTransaction) :
  RecurringModel.findOne id user st = Some r ->
  let st' := (deleteRecurringTransaction user id st).2 in
  (deleteRecurringTransaction user id st).1 = RecurringDeleted
  /\ recurrings st' = delete id (recurrings st)
  /\ transactions st' = transactions st
  /\ accounts st' = accounts st
  /\ executeNow user id now st'
     = (NotFound "Recurring transaction not found", st')
  /\ togglePause user id now st' = (RecurringNotFound, st')
  /\ deleteRecurringTransaction user id st' = (RecurringNotFound, st').
Proof.
  intros Hfound st'.
  assert (Hdelete : deleteRecurringTransaction user id st
                    = (RecurringDeleted, set_recurrings (delete id) st)).
  { unfold deleteRecurringTransaction. by rewrite Hfound. }
  subst st'. rewrite Hdelete. cbn [fst snd].
  assert (Hgone : RecurringModel.findOne id user (set_recurrings (delete id) st)
                  = None).
  { unfold RecurringModel.findOne. simpl. by rewrite lookup_delete_eq. }
  unfold executeNow, togglePause, deleteRecurringTransaction.
  rewrite Hgone. by repeat split.
Qed.

(** X10 on the capped store. *)
Lemma deleteRecurringTransaction_gone_rent :
  (deleteRecurringTransaction Scenario.alice Scenario.rent Scenario.capped).1
  = RecurringDeleted
  /\ executeNow Scenario.alice Scenario.rent (Scenario.noon 2023 1 1)
       (deleteRecurringTransaction Scenario.alice Scenario.rent Scenario.capped).2
     = (NotFound "Recurring transaction not found",
        (deleteRecurringTransaction Scenario.alice Scenario.rent
           Scenario.capped).2).
Proof.
  destruct (deleteRecurringTransaction_gone Scenario.alice Scenario.rent
              (Scenario.noon 2023 1 1) Scenario.capped
              (Scenario.definition expense (Scenario.jan31 2023) (Some 3))
              eq_refl)
    as (Hdeleted & _ & _ & _ & Hexecute & _).
  by split.
Defined.

(** X11.  A definition owned by someone else is out of reach: execute-now,
    toggle and delete answer 404 and change nothing, and it is never
    listed as upcoming. *)
Theorem recurring_handlers_owner_only
    (user id : ObjectId) (now : Z) (st : Store) (r : RecurringTransaction) :
  recurrings st !! id = Some r ->
  rec_userId r <> user ->
  executeNow user id now st = (NotFound "Recurring transaction not found", st)
  /\ togglePause user id now st = (RecurringNotFound, st)
  /\ deleteRecurringTransaction user id st = (RecurringNotFound, st)
  /\ forall days upcoming grouped,
       getUpcoming user days now st = Some (upcoming, grouped) ->
       (id, r) ∉ upcoming.
Proof.
  intros Hlookup Hother.
  assert (Hnone : RecurringModel.findOne id user st = None).
  { unfold RecurringModel.findOne. rewrite Hlookup.
    by destruct (Nat.eqb_spec (rec_userId r) user). }
  unfold executeNow, togglePause, deleteRecurringTransaction. rewrite Hnone.
  repeat split.
  intros days upcoming grouped (n & _ & _ & -> & _)%getUpcoming_inv
    (_ & Huser & _)%upcoming_member.
  contradiction.
Qed.

(** X11: bob on alice's rent definition. *)
Lemma recurring_handlers_owner_only_bob :
  executeNow Cases.bob Scenario.rent (Scenario.noon 2023 1 1) Scenario.capped
  = (NotFound "Recurring transaction not found", Scenario.capped)
  /\ togglePause Cases.bob Scenario.rent (Scenario.noon 2023 1 1) Scenario.capped
     = (RecurringNotFound, Scenario.capped)
  /\ deleteRecurringTransaction Cases.bob Scenario.rent Scenario.capped
     = (RecurringNotFound, Scenario.capped).
Proof.
  destruct (recurring_handlers_owner_only Cases.bob Scenario.rent
              (Scenario.noon 2023 1 1) Scenario.capped
              (Scenario.definition expense (Scenario.jan31 2023) (Some 3))
              eq_refl ltac:(discriminate))
    as (Hexecute & Htoggle & Hdelete & _).
  by repeat split.
Defined.

Lemma createRecurringTransaction_inv user now body st id doc st' :
  createRecurringTransaction user now body st = (RecurringCreated id doc, st') ->
  RecurringSchema.cast user
    match rb_startDate body with
    | Some d => if DateInput.truthy d then DateInput.toDate d else Some now
    | None => Some now
    end now body = Some doc
  /\ RecurringSchema.validate doc = true
  /\ id = fresh (dom (recurrings st))
  /\ st' = set_recurrings (insert id doc) st.
Proof.
  unfold createRecurringTransaction. cbv zeta.
  destruct (RecurringSchema.cast _ _ _ _) as [doc'|]; [|discriminate].
  destruct (RecurringSchema.validate doc') eqn:Hvalid; [|discriminate].
  by intros [= <- <- <-].
Qed.

Lemma cast_fields user nextRunDate now body doc :
  RecurringSchema.cast user nextRunDate now body = Some doc ->
  rec_userId doc = user /\ nextRunDate = Some (rec_nextRunDate doc)
  /\ match rb_startDate body with
     | Some d => DateInput.toDate d
     | None => Some now
     end = Some (rec_startDate doc)
  /\ rec_isActive doc = default true (rb_isActive body)
  /\ rec_isPaused doc = default false (rb_isPaused body)
  /\ rec_endDate doc = rb_endDate body
  /\ rec_maxExecutions doc = rb_maxExecutions body
  /\ rec_totalExecutions doc = default 0 (rb_totalExecutions body).
Proof.
  unfold RecurringSchema.cast.
  destruct (rb_name body), (rb_type body), (rb_amount body), (rb_category body),
    (rb_frequency body); try discriminate.
  destruct (match rb_startDate body with Some _ => _ | None => _ end)
    as [startDate|]; [|discriminate].
  destruct nextRunDate as [next|]; [|discriminate].
  by intros [= <-].
Qed.

(** The start and the first run of a created definition, by the start
    date its body gave. *)
Lemma created_dates user now body st id doc st' :
  createRecurringTransaction user now body st = (RecurringCreated id doc, st') ->
  match rb_startDate body with
  | None => rec_startDate doc = now /\ rec_nextRunDate doc = now
  | Some (DateString t) => rec_startDate doc = t /\ rec_nextRunDate doc = t
  | Some (DateNumber t) =>
      rec_startDate doc = t
      /\ rec_nextRunDate doc = if t =? 0 then now else t
  end.
Proof.
  intros (Hcast & _)%createRecurringTransaction_inv.
  destruct (cast_fields _ _ _ _ _ Hcast) as (_ & Hnext & Hstart & _).
  destruct (rb_startDate body) as [[t|t]|].
  - apply TimeClip_Some in Hstart as [Hstart _]. cbn [DateInput.truthy] in Hnext.
    apply TimeClip_Some in Hnext as [Hnext _]. by split.
  - apply TimeClip_Some in Hstart as [Hstart _]. split; [done|].
    cbn [DateInput.truthy] in Hnext. destruct (t =? 0); cbn [negb] in Hnext.
    + by injection Hnext.
    + by apply TimeClip_Some in Hnext as [Hnext _].
  - injection Hstart as <-. injection Hnext as <-. by split.
Qed.

(** X12.  A created definition belongs to the caller, whatever userId and
    nextRunDate the body carries.  Its schedule starts at its start date:
    the start date is the one the body gives and the first run is on it;
    it is the time of the request when the body gives none.  The one
    exception is a start date given as the number 0, which is stored as
    the epoch while the first run is set to the time of the request.  The
    definition is stored under a new id, beside the definitions already
    there, and found by the caller's next request. *)
Theorem createRecurringTransaction_created
    (user : ObjectId) (now : Z) (body : RecurringBody) (st st' : Store)
    (id : ObjectId) (doc : RecurringTransaction) :
  createRecurringTransaction user now body st = (RecurringCreated id doc, st') ->
  rec_userId doc = user
  /\ match rb_startDate body with
     | None => rec_startDate doc = now /\ rec_nextRunDate doc = now
     | Some (DateString t) => rec_startDate doc = t /\ rec_nextRunDate doc = t
     | Some (DateNumber t) =>
         rec_startDate doc = t
         /\ rec_nextRunDate doc = if t =? 0 then now else t
     end
  /\ recurrings st !! id = None
  /\ recurrings st' = <[id := doc]> (recurrings st)
  /\ RecurringModel.findOne id user st' = Some doc
  /\ accounts st' = accounts st /\ transactions st' = transactions st.
Proof.
  intros Hrun. pose proof (created_dates _ _ _ _ _ _ _ Hrun) as Hdates.
  destruct (createRecurringTransaction_inv _ _ _ _ _ _ _ Hrun)
    as (Hcast & _ & -> & ->).
  destruct (cast_fields _ _ _ _ _ Hcast) as (Huser & _).
  split; [exact Huser|]. split; [exact Hdates|].
  split; [apply not_elem_of_dom, is_fresh|]. split; [reflexivity|].
  split; [|by split].
  apply findOne_lookup. simpl. by rewrite lookup_insert_eq.
Qed.

(** X12: alice posts the lease, whose body names bob as owner and a
    next run date of 0. *)
Lemma createRecurringTransaction_created_lease :
  exists id doc,
    createRecurringTransaction Scenario.alice (Scenario.noon 2023 0 1)
      Cases.lease Scenario.capped
    = (RecurringCreated id doc,
       (createRecurringTransaction Scenario.alice (Scenario.noon 2023 0 1)
          Cases.lease Scenario.capped).2)
    /\ rec_userId doc = Scenario.alice
    /\ rec_startDate doc = Scenario.jan31 2023
    /\ rec_nextRunDate doc = Scenario.jan31 2023.
Proof.
  assert (Hrun : exists id doc,
    createRecurringTransaction Scenario.alice (Scenario.noon 2023 0 1)
      Cases.lease Scenario.capped
    = (RecurringCreated id doc,
       (createRecurringTransaction Scenario.alice (Scenario.noon 2023 0 1)
          Cases.lease Scenario.capped).2)).
  { vm_compute. by eexists _, _. }
  destruct Hrun as (id & doc & Hrun). exists id, doc.
  split; [exact Hrun|].
  destruct (createRecurringTransaction_created _ _ _ _ _ _ _ Hrun)
    as (Howner & [Hstart Hnext] & _).
  by repeat split.
Defined.

(** The lease posted with the number 0 for its start date: the start is
    stored as the epoch, and the first run is at the time of the
    request. *)
Lemma createRecurringTransaction_epoch_lease :
  exists id doc st',
    createRecurringTransaction Scenario.alice (Scenario.noon 2023 0 1)
      Cases.epoch_lease Scenario.capped
    = (RecurringCreated id doc, st')
    /\ rec_startDate doc = 0
    /\ rec_nextRunDate doc = Scenario.noon 2023 0 1.
Proof. vm_compute. by eexists _, _, _. Qed.

(** X13.  A definition created without status fields, end date or
    execution bound is eligible exactly from its start date on; when the
    start date was given as the number 0, it is eligible exactly from the
    time of the request on, while its stored start date is the epoch. *)
Theorem createRecurringTransaction_eligible_from_start
    (user : ObjectId) (now : Z) (body : RecurringBody) (st st' : Store)
    (id : ObjectId) (doc : RecurringTransaction) :
  createRecurringTransaction user now body st = (RecurringCreated id doc, st') ->
  rb_isActive body = None -> rb_isPaused body = None ->
  rb_endDate body = None -> rb_maxExecutions body = None ->
  (rb_startDate body <> Some (DateNumber 0) ->
   forall t, shouldExecute t doc = true <-> rec_startDate doc <= t)
  /\ (rb_startDate body = Some (DateNumber 0) ->
      rec_startDate doc = 0
      /\ forall t, shouldExecute t doc = true <-> now <= t).
Proof.
  intros Hrun Hactive Hpaused Hend Hmax.
  pose proof (created_dates _ _ _ _ _ _ _ Hrun) as Hdates.
  destruct (createRecurringTransaction_inv _ _ _ _ _ _ _ Hrun) as (Hcast & _).
  destruct (cast_fields _ _ _ _ _ Hcast)
    as (_ & _ & _ & Hact & Hpau & Hen & Hma & _).
  assert (Hdue : forall t, shouldExecute t doc = true <-> rec_nextRunDate doc <= t).
  { intros t. unfold shouldExecute.
    rewrite Hact, Hpau, Hen, Hma, Hactive, Hpaused, Hend, Hmax. simpl.
    rewrite Z.geb_le. reflexivity. }
  split.
  - intros Hstart t. rewrite Hdue.
    destruct (rb_startDate body) as [[s|s]|]; destruct Hdates as [-> ->];
      try reflexivity.
    destruct (Z.eqb_spec s 0) as [->|]; [by destruct Hstart | reflexivity].
  - intros Hstart. rewrite Hstart in Hdates. destruct Hdates as [-> Hnext].
    split; [reflexivity|]. intros t. by rewrite Hdue, Hnext.
Qed.

(** X13 on the lease: eligible from 31 January 2023 on. *)
Lemma createRecurringTransaction_eligible_from_start_lease :
  exists id doc,
    createRecurringTransaction Scenario.alice (Scenario.noon 2023 0 1)
      Cases.lease Scenario.capped
    = (RecurringCreated id doc,
       (createRecurringTransaction Scenario.alice (Scenario.noon 2023 0 1)
          Cases.lease Scenario.capped).2)
    /\ rec_startDate doc = Scenario.jan31 2023
    /\ forall t, shouldExecute t doc = true <-> rec_startDate doc <= t.
Proof.
  assert (Hrun : exists id doc,
    createRecurringTransaction Scenario.alice (Scenario.noon 2023 0 1)
      Cases.lease Scenario.capped
    = (RecurringCreated id doc,
       (createRecurringTransaction Scenario.alice (Scenario.noon 2023 0 1)
          Cases.lease Scenario.capped).2)
    /\ rec_startDate doc = Scenario.jan31 2023).
  { vm_compute. by eexists _, _. }
  destruct Hrun as (id & doc & Hrun & Hstart). exists id, doc.
  split; [exact Hrun|]. split; [exact Hstart|].
  apply (createRecurringTransaction_eligible_from_start _ _ _ _ _ _ _ Hrun
           eq_refl eq_refl eq_refl eq_refl).
  discriminate.
Defined.

(** ** Accounts: trash, restore, permanent delete *)

(** A Number that is neither above 0 nor below it (nor NaN) is a zero. *)
Lemma float_zero_of_bounds (b : float) :
  PrimFloat.ltb 0 b = false -> PrimFloat.leb 0 b = true ->
  PrimFloat.eqb b 0 = true.
Proof.
  rewrite FloatAxioms.ltb_spec, FloatAxioms.leb_spec, FloatAxioms.eqb_spec.
  change (Prim2SF 0) with (S754_zero false).
  destruct (Prim2SF b) as [s| [] | |[] m e]; simpl; try done.
Qed.

Lemma softDeleteAccount_inv user id now st data st' :
  softDeleteAccount user id now st = (AccountOk data, st') ->
  exists a,
    AccountModel.findOne id user st = Some a
    /\ acc_isDeleted a = false
    /\ PrimFloat.ltb 0 (acc_balance a) = false
    /\ AccountSchema.validate a = true
    /\ data = Some (set_isDeleted true (Some now) a)
    /\ st' = set_accounts (insert id (set_isDeleted true (Some now) a)) st.
Proof.
  unfold softDeleteAccount.
  destruct (AccountModel.findOne id user st) as [a|]; [|discriminate].
  destruct (acc_isDeleted a) eqn:Hdeleted; [discriminate|].
  destruct (PrimFloat.ltb 0 (acc_balance a)) eqn:Hpositive; [discriminate|].
  cbv zeta.
  change (AccountSchema.validate (set_isDeleted true (Some now) a))
    with (AccountSchema.validate a).
  destruct (AccountSchema.validate a) eqn:Hvalid; [|discriminate].
  intros [= <- <-]. by exists a.
Qed.

(** X26. An account goes to the trash only if it is the caller's, is
    not there yet, and holds a balance of exactly zero: a positive
    balance is refused and a negative one fails validation, both without
    effect.  The account is then flagged as deleted, with the time of the
    request as its deletion date; nothing else of it changes, and nothing
    of any other account, of the ledger or of the definitions. *)
Theorem softDeleteAccount_only_empty user id now st resp st' :
  softDeleteAccount user id now st = (resp, st') ->
  match resp with
  | AccountOk data =>
      exists a a',
        accounts st !! id = Some a /\ acc_userId a = user
        /\ acc_isDeleted a = false
        /\ PrimFloat.eqb (acc_balance a) 0 = true
        /\ data = Some a'
        /\ accounts st' = <[id := a']> (accounts st)
        /\ acc_isDeleted a' = true /\ acc_deletedAt a' = Some now
        /\ acc_userId a' = acc_userId a /\ acc_balance a' = acc_balance a
        /\ acc_accountType a' = acc_accountType a
        /\ acc_accountName a' = acc_accountName a
        /\ acc_status a' = acc_status a
        /\ transactions st' = transactions st
        /\ recurrings st' = recurrings st
  | _ => st' = st
  end.
Proof.
  destruct resp as [data| | |].
  - intros (a & [Ha Howner]%account_findOne_inv & Hdeleted & Hpositive
            & Hvalid & -> & ->)%softDeleteAccount_inv.
    exists a, (set_isDeleted true (Some now) a).
    split; [exact Ha|]. split; [exact Howner|]. split; [exact Hdeleted|].
    split; [|by repeat split].
    apply float_zero_of_bounds; [exact Hpositive|].
    unfold AccountSchema.validate in Hvalid.
    by apply andb_true_iff in Hvalid as [_ Hmin].
  - unfold softDeleteAccount.
    destruct (AccountModel.findOne id user st) as [a|]; [|discriminate].
    destruct (acc_isDeleted a); [by intros [= _ <-]|].
    destruct (PrimFloat.ltb 0 (acc_balance a)); [by intros [= _ <-]|].
    cbv zeta. by destruct (AccountSchema.validate _).
  - unfold softDeleteAccount.
    destruct (AccountModel.findOne id user st) as [a|]; [|by intros [= <-]].
    destruct (acc_isDeleted a); [discriminate|].
    destruct (PrimFloat.ltb 0 (acc_balance a)); [discriminate|].
    cbv zeta. by destruct (AccountSchema.validate _).
  - unfold softDeleteAccount.
    destruct (AccountModel.findOne id user st) as [a|]; [|discriminate].
    destruct (acc_isDeleted a); [discriminate|].
    destruct (PrimFloat.ltb 0 (acc_balance a)); [discriminate|].
    cbv zeta. destruct (AccountSchema.validate _); [discriminate|].
    by intros [= _ <-].
Qed.

(** X26 on the dormant store, whose [checking] account holds 0. *)
Lemma softDeleteAccount_only_empty_dormant :
  exists a a',
    accounts Scenario.dormant !! Scenario.checking = Some a
    /\ PrimFloat.eqb (acc_balance a) 0 = true
    /\ accounts
         (softDeleteAccount Scenario.alice Scenario.checking
            (Scenario.noon 2023 0 31) Scenario.dormant).2
       = <[Scenario.checking := a']> (accounts Scenario.dormant)
    /\ acc_isDeleted a' = true
    /\ acc_deletedAt a' = Some (Scenario.noon 2023 0 31).
Proof.
  destruct (softDeleteAccount_only_empty Scenario.alice Scenario.checking
              (Scenario.noon 2023 0 31) Scenario.dormant
              (AccountOk (Some (set_isDeleted true (Some (Scenario.noon 2023 0 31))
                                  (Scenario.account 0))))
              (softDeleteAccount Scenario.alice Scenario.checking
                 (Scenario.noon 2023 0 31) Scenario.dormant).2
              eq_refl)
    as (a & a' & Ha & _ & _ & Hzero & _ & Haccounts & Hflag & Hdate & _).
  by exists a, a'.
Defined.

(** X27. While an account is in the trash a second soft delete is
    refused.  Restoring it clears the trash flag and the deletion date
    and changes nothing else: for an account that had no deletion date
    before it was deleted, the store is again exactly the one before the
    delete. *)
Theorem softDeleteAccount_restoreAccount user id now now' st data st' :
  softDeleteAccount user id now st = (AccountOk data, st') ->
  softDeleteAccount user id now' st'
  = (AccountBadRequest "Account is already deleted", st')
  /\ exists a,
       AccountModel.findOne id user st = Some a
       /\ (let restored :=
             mkAccount (acc_userId a) (acc_accountType a) (acc_accountName a)
               (acc_balance a) (acc_status a) false None in
           restoreAccount user id st'
           = (AccountOk (Some restored),
              set_accounts (insert id restored) st))
       /\ (acc_deletedAt a = None ->
           restoreAccount user id st' = (AccountOk (Some a), st)).
Proof.
  intros (a & Hfound & Hdeleted & Hpositive & Hvalid & -> & ->)%softDeleteAccount_inv.
  destruct (account_findOne_inv _ _ _ _ Hfound) as [Ha Howner].
  assert (Hfound' :
    AccountModel.findOne id user
      (set_accounts (insert id (set_isDeleted true (Some now) a)) st)
    = Some (set_isDeleted true (Some now) a)).
  { unfold AccountModel.findOne. simpl. rewrite lookup_insert_eq. simpl.
    by rewrite Howner, Nat.eqb_refl. }
  assert (Hrestore :
    restoreAccount user id
      (set_accounts (insert id (set_isDeleted true (Some now) a)) st)
    = (AccountOk (Some (set_isDeleted false None a)),
       set_accounts (insert id (set_isDeleted false None a)) st)).
  { unfold restoreAccount. rewrite Hfound'. simpl negb. cbv iota zeta.
    change (AccountSchema.validate
              (set_isDeleted false None (set_isDeleted true (Some now) a)))
      with (AccountSchema.validate a).
    rewrite Hvalid.
    change (set_isDeleted false None (set_isDeleted true (Some now) a))
      with (set_isDeleted false None a).
    f_equal. destruct st as [accs txs logs buds recs].
    unfold set_accounts. simpl. f_equal. apply insert_insert_eq. }
  split.
  - unfold softDeleteAccount. by rewrite Hfound'.
  - exists a. split; [exact Hfound|]. split; [exact Hrestore|].
    intros Hnever. rewrite Hrestore.
    assert (Hsame : set_isDeleted false None a = a).
    { destruct a. simpl in *. by rewrite Hdeleted, Hnever. }
    rewrite Hsame. f_equal.
    destruct st as [accs txs logs buds recs]. simpl in *.
    unfold set_accounts. simpl. f_equal. by apply insert_id.
Qed.

(** X27 on the dormant store: trashed, then restored. *)
Lemma softDeleteAccount_restoreAccount_dormant :
  restoreAccount Scenario.alice Scenario.checking Cases.trashed
  = (AccountOk (Some (Scenario.account 0)), Scenario.dormant).
Proof.
  destruct (softDeleteAccount_restoreAccount Scenario.alice Scenario.checking
              (Scenario.noon 2023 0 31) (Scenario.noon 2023 0 31)
              Scenario.dormant
              (Some (set_isDeleted true (Some (Scenario.noon 2023 0 31))
                       (Scenario.account 0)))
              Cases.trashed eq_refl)
    as (_ & a & Hfound & _ & Hrestore).
  vm_compute in Hfound. injection Hfound as <-. exact (Hrestore eq_refl).
Defined.

(** X28. A permanent delete is accepted whenever the caller's account
    holds no positive balance, in the trash or not, overdrawn or not.  It
    removes the account and nothing else: the transactions and the
    recurring definitions that name it stay, and from then on a new
    transaction out of it and a restore are answered 404. *)
Theorem permanentDeleteAccount_removes user id st a :
  AccountModel.findOne id user st = Some a ->
  PrimFloat.ltb 0 (acc_balance a) = false ->
  let st' := set_accounts (delete id) st in
  permanentDeleteAccount user id st = (AccountOk None, st')
  /\ accounts st' !! id = None
  /\ (forall j, j <> id -> accounts st' !! j = accounts st !! j)
  /\ transactions st' = transactions st
  /\ recurrings st' = recurrings st
  /\ restoreAccount user id st' = (AccountNotFound, st')
  /\ forall now body,
       body_fromAccount body = Some id ->
       createTransaction user now body st'
       = (NotFound "Source account not found", st').
Proof.
  intros Hfound Hpositive st'.
  assert (Hgone : AccountModel.findOne id user st' = None).
  { unfold AccountModel.findOne, st'. simpl. by rewrite lookup_delete_eq. }
  split; [unfold permanentDeleteAccount; by rewrite Hfound, Hpositive|].
  split; [apply lookup_delete_eq|].
  split; [intros j Hj; by apply lookup_delete_ne|].
  split; [reflexivity|]. split; [reflexivity|].
  split; [unfold restoreAccount; by rewrite Hgone|].
  intros now body Hfrom. unfold createTransaction. by rewrite Hfrom, Hgone.
Qed.

(** X28 on the overdrawn store: [checking], at -50, is deleted for good. *)
Lemma permanentDeleteAccount_removes_overdrawn :
  permanentDeleteAccount Scenario.alice Scenario.checking Cases.overdrawn
  = (AccountOk None, set_accounts (delete Scenario.checking) Cases.overdrawn)
  /\ transactions (set_accounts (delete Scenario.checking) Cases.overdrawn)
     = transactions Cases.overdrawn.
Proof.
  destruct (permanentDeleteAccount_removes Scenario.alice Scenario.checking
              Cases.overdrawn (Scenario.account (50 - 100)) eq_refl eq_refl)
    as (Hdeleted & _ & _ & Hledger & _).
  by split.
Defined.
